(** * Printalyzer Densitometer: sensor engine, density computation and
      slope-calibration fit

    A shallow embedding of

    - [src/software/firmware/src/densitometer.c]  (density measurement and
      the point-calibration helpers),
    - [src/software/firmware/src/sensor.c]        (read loop, saturation
      detector, gain calibration, slope correction),
    - [src/software/desktop/src/slopecalibrationdialog.cpp] (step-wedge
      curve fit),

    together with the properties the specification states about them.

    Conventions.  C [float] is IEEE-754 binary32 and C [double] binary64,
    both through [SpecFloat] (round to nearest, ties to even; a single NaN).
    Fixed-width integers are [Z] with their range written out.  The libm
    entry points ([log10f], [logf], [expf], [powf], [pow]) are not part of
    the repository: the code is parametric in them (class [Libm]).  Hardware
    and settings-store calls are threaded through explicit state. *)

From Stdlib Require Import ZArith List Bool Lia Reals Lra.
From Stdlib Require Import Floats.SpecFloat.
Import ListNotations.

Set Implicit Arguments.
Open Scope Z_scope.

(* ================================================================= *)
(** ** Binary floating point *)

(** C [float] and C [double] share one carrier; the precision lives in the
    operations. *)
Definition float : Type := spec_float.
Definition double : Type := spec_float.

(** C [float]: 24 significant bits, infinities at exponent 128. *)
Module F32.
Definition prec : Z := 24.
Definition emax : Z := 128.

Definition add : float -> float -> float := SFadd prec emax.
Definition sub : float -> float -> float := SFsub prec emax.
Definition mul : float -> float -> float := SFmul prec emax.
Definition div : float -> float -> float := SFdiv prec emax.

(** The C comparison operators; every one of them is false on NaN. *)
Definition ltb (x y : float) : bool := SFltb x y.
Definition leb (x y : float) : bool := SFleb x y.
Definition gtb (x y : float) : bool := SFltb y x.
Definition geb (x y : float) : bool := SFleb y x.

Definition isnanf (x : float) : bool :=
  match x with S754_nan => true | _ => false end.
Definition isinff (x : float) : bool :=
  match x with S754_infinity _ => true | _ => false end.
Definition is_finite (x : float) : bool :=
  match x with S754_zero _ | S754_finite _ _ _ => true | _ => false end.
Definition fabsf (x : float) : float := SFabs x.

Definition NAN : float := S754_nan.

(** Conversion of an integer ([uint8_t], [uint16_t], [int]) to [float]. *)
Definition of_Z (n : Z) : float := binary_normalize prec emax n 0 false.

(** The literal [n/d] written in decimal, e.g. [0.01F] is [lit 1 100]: the
    compiler rounds the decimal to nearest, which is what the correctly
    rounded quotient of two exactly representable integers gives. *)
Definition lit (n d : Z) : float := div (of_Z n) (of_Z d).

Definition zero : float := S754_zero false.
Definition one : float := of_Z 1.
End F32.

(** C [double]: 53 significant bits, infinities at exponent 1024. *)
Module F64.
Definition prec : Z := 53.
Definition emax : Z := 1024.

Definition add : double -> double -> double := SFadd prec emax.
Definition sub : double -> double -> double := SFsub prec emax.
Definition mul : double -> double -> double := SFmul prec emax.
Definition div : double -> double -> double := SFdiv prec emax.
Definition ltb (x y : double) : bool := SFltb x y.
Definition abs (x : double) : double := SFabs x.
Definition zero : double := S754_zero false.
Definition NAN : double := S754_nan.

(** [(double)x] for a [float] x: exact, re-expressed on 53 bits. *)
Definition of_float (x : float) : double :=
  match x with
  | S754_finite s m e =>
      binary_normalize prec emax (cond_Zopp s (Zpos m)) e s
  | _ => x
  end.

(** [(float)x] for a [double] x: rounded to 24 bits. *)
Definition to_float (x : double) : float :=
  match x with
  | S754_finite s m e =>
      binary_normalize F32.prec F32.emax (cond_Zopp s (Zpos m)) e s
  | _ => x
  end.
End F64.

(** The mathematical library the firmware and the desktop tool link
    against.  None of it is repository code. *)
Class Libm : Type := {
  log10f : float -> float;
  logf : float -> float;
  expf : float -> float;
  powf : float -> float -> float;
  (** [std::pow(double, int)] *)
  pow_di : double -> Z -> double
}.

(* ================================================================= *)
(** ** A reference libm

    An executable stand-in for the C library, used to run the code on
    concrete inputs.  Special values follow C99 Annex F (F.9.3, F.9.4);
    ordinary arguments go through a fixed-point base-2 logarithm and
    exponential carried to well beyond 24 bits and rounded once. *)
Module RefLibm.

(** Number of fractional bits of the fixed-point logarithm. *)
Definition LOG_BITS : nat := 40.
(** Scale of the working mantissa: a value x in [1,2) is held as
    [x * 2^W]. *)
Definition W : Z := 80.

(** Bits of the fraction of log2 x, x in [1,2) held at scale [2^W], by
    repeated squaring. *)
Fixpoint log2_frac (n : nat) (x : Z) (acc : Z) : Z :=
  match n with
  | O => acc
  | S n' =>
      let x2 := Z.shiftr (x * x) W in
      if Z.leb (Z.shiftl 2 W) x2
      then log2_frac n' (Z.shiftr x2 1) (2 * acc + 1)
      else log2_frac n' x2 (2 * acc)
  end.

(** [log2 (m * 2^e)] at scale [2^LOG_BITS]. *)
Definition log2_fix (m : positive) (e : Z) : Z :=
  let d := Zpos (digits2_pos m) in
  let x := Z.shiftl (Zpos m) (W - (d - 1)) in
  (d - 1 + e) * Z.shiftl 1 (Z.of_nat LOG_BITS)
  + log2_frac LOG_BITS x 0.

(** [log10 2], [ln 2] and [log2 e] at scale [2^62]. *)
Definition LOG10_2 : Z := (30102999566398119521 * Z.shiftl 1 62) / 10 ^ 20.
Definition LN_2 : Z := (69314718055994530942 * Z.shiftl 1 62) / 10 ^ 20.

(** Shared shape of [logf] and [log10f]. *)
Definition log_with (k : Z) (x : float) : float :=
  match x with
  | S754_nan => S754_nan
  | S754_zero _ => S754_infinity true
  | S754_infinity false => S754_infinity false
  | S754_infinity true => S754_nan
  | S754_finite true _ _ => S754_nan
  | S754_finite false m e =>
      binary_normalize F32.prec F32.emax
        (log2_fix m e * k) (- (Z.of_nat LOG_BITS + 62)) false
  end.

(** [exp(u / 2^W)] at scale [2^W] for [0 <= u < 2^W], by its series. *)
Fixpoint exp_series (n : nat) (k : Z) (u term acc : Z) : Z :=
  match n with
  | O => acc
  | S n' =>
      let term' := Z.shiftr (term * u) W / k in
      exp_series n' (k + 1) u term' (acc + term')
  end.

(** [2^(t / 2^LOG_BITS)], rounded to [float]. *)
Definition exp2_fix (t : Z) : float :=
  let sc := Z.shiftl 1 (Z.of_nat LOG_BITS) in
  let k := t / sc in
  let f := t mod sc in
  if Z.ltb 200 k then S754_infinity false
  else if Z.ltb k (-200) then S754_zero false
  else
    let u := Z.shiftr (Z.shiftl f (W - Z.of_nat LOG_BITS) * LN_2) 62 in
    let one := Z.shiftl 1 W in
    binary_normalize F32.prec F32.emax
      (exp_series 40 1 u one one) (k - W) false.

(** [x * c / 2^62] at scale [2^LOG_BITS] for a finite [x = ±m*2^e],
    saturated far outside the exponent range of [float]. *)
Definition scale_fix (s : bool) (m : positive) (e : Z) (c : Z) : Z :=
  if Z.ltb 40 e then cond_Zopp s (Z.shiftl 1 100)
  else cond_Zopp s
         (Z.shiftr (Zpos m * c) (62 - Z.of_nat LOG_BITS - e)).

Definition LOG2_E : Z := (144269504088896340736 * Z.shiftl 1 62) / 10 ^ 20.

Definition ref_expf (x : float) : float :=
  match x with
  | S754_nan => S754_nan
  | S754_zero _ => F32.one
  | S754_infinity false => S754_infinity false
  | S754_infinity true => S754_zero false
  | S754_finite s m e => exp2_fix (scale_fix s m e LOG2_E)
  end.

(** Is the finite value [m * 2^e] an integer, and is it odd? *)
Definition is_integer (m : positive) (e : Z) : bool :=
  Z.leb 0 e || Z.eqb (Zpos m mod Z.shiftl 1 (- e)) 0.
Definition is_odd_integer (m : positive) (e : Z) : bool :=
  is_integer m e && Z.odd (Z.shiftr (Zpos m) (- e)) && Z.leb e 0.

(** [powf]: the cases the repository exercises (positive base, or a
    negative base raised to an integer), with the Annex F corner values. *)
Definition ref_powf (x y : float) : float :=
  match y, x with
  | S754_zero _, _ => F32.one
  | S754_nan, _ => if SFeqb x F32.one then F32.one else S754_nan
  | _, S754_nan => S754_nan
  | S754_finite sy my ey, S754_finite sx mx ex =>
      let t := log2_fix mx ex in
      let p := exp2_fix (scale_fix sy my (ey - Z.of_nat LOG_BITS + 62)
                           (t)) in
      if sx then
        if is_integer my ey
        then (if is_odd_integer my ey then SFopp p else p)
        else S754_nan
      else p
  | S754_finite sy _ _, S754_zero _ =>
      if sy then S754_infinity false else S754_zero false
  | S754_finite sy _ _, S754_infinity _ =>
      if sy then S754_zero false else S754_infinity false
  | S754_infinity sy, _ =>
      match SFcompare (SFabs x) F32.one with
      | Some Eq => F32.one
      | Some Lt => if sy then S754_infinity false else S754_zero false
      | _ => if sy then S754_zero false else S754_infinity false
      end
  end.

(** [std::pow(double, int)] by repeated multiplication, for the
    exponents 0 to 4 the fit raises to. *)
Definition ref_pow_di (x : double) (i : Z) : double :=
  Z.iter i (fun acc => F64.mul acc x)
    (binary_normalize F64.prec F64.emax 1 0 false).

Definition ref_libm : Libm := {|
  log10f := log_with LOG10_2;
  logf := log_with LN_2;
  expf := ref_expf;
  powf := ref_powf;
  pow_di := ref_pow_di
|}.
End RefLibm.

(* ================================================================= *)
(** ** The real value of a float

    Vocabulary for statements about rounding: the real number a finite
    float stands for, and where a real lies between two neighbouring
    mantissas. *)

Definition pow2 (e : Z) : R := powerRZ 2 e.

Definition cond_Ropp (s : bool) (x : R) : R := if s then (- x)%R else x.

(** The real number [x] stands for; 0 for the infinities and NaN. *)
Definition real_of_float (x : float) : R :=
  match x with
  | S754_finite s m e => cond_Ropp s (IZR (Zpos m) * pow2 e)
  | _ => 0%R
  end.

(** [x] lies in [m, m+1), at the place the round and sticky bits of the
    shift register [mrs] say: on m, below the middle, on it, or above. *)
Definition located (x : R) (mrs : shr_record) : Prop :=
  let m := IZR (shr_m mrs) in
  match shr_r mrs, shr_s mrs with
  | false, false => x = m
  | false, true => (m < x < m + / 2)%R
  | true, false => x = (m + / 2)%R
  | true, true => (m + / 2 < x < m + 1)%R
  end.

(* ================================================================= *)
(** ** Density formulas

    The arithmetic of the two density computations, written once over the
    operations it uses.  Instantiated at [f32_arith] it is the code that
    runs on the device; instantiated at [R_arith] it is the same expression
    in exact arithmetic, which is what "within float tolerance" in the
    specification compares against. *)

Record arith (T : Type) : Type := {
  a_add : T -> T -> T;
  a_sub : T -> T -> T;
  a_mul : T -> T -> T;
  a_div : T -> T -> T;
  a_log10 : T -> T;
  a_of_Z : Z -> T
}.

Definition f32_arith {L : Libm} : arith float := {|
  a_add := F32.add; a_sub := F32.sub; a_mul := F32.mul; a_div := F32.div;
  a_log10 := log10f; a_of_Z := F32.of_Z
|}.

Definition Rlog10 (x : R) : R := (ln x / ln 10)%R.

Definition R_arith : arith R := {|
  a_add := Rplus; a_sub := Rminus; a_mul := Rmult; a_div := Rdiv;
  a_log10 := Rlog10; a_of_Z := IZR
|}.

Section DensityFormulas.
Context {T : Type} (A : arith T).

Local Infix "+" := (a_add A).
Local Infix "-" := (a_sub A).
Local Infix "*" := (a_mul A).
Local Infix "/" := (a_div A).
Local Notation "'log10' x" := (a_log10 A x) (at level 10, x at level 9).

(** densitometer.c:64-74 *)
Definition reflection_density
    (cal_lo_d cal_lo_value cal_hi_d cal_hi_value meas_value : T) : T :=
  (* Convert all values into log units *)
  let meas_ll := log10 meas_value in
  let cal_hi_ll := log10 cal_hi_value in
  let cal_lo_ll := log10 cal_lo_value in
  (* Calculate the slope of the line *)
  let m := (cal_hi_d - cal_lo_d) / (cal_hi_ll - cal_lo_ll) in
  (* Calculate the measured density *)
  (m * (meas_ll - cal_lo_ll)) + cal_lo_d.

(** densitometer.c:137-147 *)
Definition transmission_density
    (cal_zero_value cal_hi_d cal_hi_value meas_value : T) : T :=
  (* Calculate the measured CAL-HI density relative to the zero value *)
  let cal_hi_meas_d := a_of_Z A (-1) * log10 (cal_hi_value / cal_zero_value) in
  (* Calculate the measured target density relative to the zero value *)
  let meas_d := a_of_Z A (-1) * log10 (meas_value / cal_zero_value) in
  (* Calculate the adjustment factor *)
  let adj_factor := cal_hi_d / cal_hi_meas_d in
  (* Calculate the calibration corrected density *)
  meas_d * adj_factor.
End DensityFormulas.

(* ================================================================= *)
(** ** densitometer.c *)

Inductive densitometer_result_t : Type :=
| DENSITOMETER_OK
| DENSITOMETER_CAL_ERROR
| DENSITOMETER_SENSOR_ERROR.

Inductive HAL_StatusTypeDef : Type :=
| HAL_OK | HAL_ERROR | HAL_BUSY | HAL_TIMEOUT.

(** The calibration points kept by the settings store (settings.c is not
    among the sources; the getters and setters below read and write these
    fields). *)
Record settings_t : Type := {
  cal_reflection_lo : float * float;   (* density, reading *)
  cal_reflection_hi : float * float;   (* density, reading *)
  cal_transmission_zero : float;       (* reading *)
  cal_transmission_hi : float * float  (* density, reading *)
}.

(** A call into the light controller. *)
Inductive light_call : Type :=
| LightReflection (val : Z)
| LightTransmission (val : Z).

(** What densitometer.c can observe and change: the stored calibration,
    its two file-scope "last reading" variables, the brightness of the two
    light sources and the calls made to set them (most recent first). *)
Record dstate : Type := {
  settings : settings_t;
  densitometer_reflection_d : float;
  densitometer_transmission_d : float;
  light_reflection : Z;
  light_transmission : Z;
  light_calls : list light_call
}.

(** densitometer.c:13-14: both readings start out as NaN. *)
Definition dstate_init (cfg : settings_t) (refl tran : Z) : dstate := {|
  settings := cfg;
  densitometer_reflection_d := F32.NAN;
  densitometer_transmission_d := F32.NAN;
  light_reflection := refl;
  light_transmission := tran;
  light_calls := []
|}.

(** The idle brightness levels of light.h; the header is not among the
    sources, so they are parameters of the model. *)
Class LightConsts : Type := {
  LIGHT_REFLECTION_IDLE : Z;
  LIGHT_TRANSMISSION_IDLE : Z
}.

(** Modelled from the spec: light.c is not among the sources.  Section 6
    gives the light controller [set_reflection(level|idle)] and
    [set_transmission(level|idle)]; a call sets the level of its source,
    leaves the other source alone, and is recorded. *)
Definition light_set_reflection (val : Z) (s : dstate) : dstate := {|
  settings := settings s;
  densitometer_reflection_d := densitometer_reflection_d s;
  densitometer_transmission_d := densitometer_transmission_d s;
  light_reflection := val;
  light_transmission := light_transmission s;
  light_calls := LightReflection val :: light_calls s
|}.

(** Modelled from the spec: see [light_set_reflection]. *)
Definition light_set_transmission (val : Z) (s : dstate) : dstate := {|
  settings := settings s;
  densitometer_reflection_d := densitometer_reflection_d s;
  densitometer_transmission_d := densitometer_transmission_d s;
  light_reflection := light_reflection s;
  light_transmission := val;
  light_calls := LightTransmission val :: light_calls s
|}.

Definition with_settings (cfg : settings_t) (s : dstate) : dstate := {|
  settings := cfg;
  densitometer_reflection_d := densitometer_reflection_d s;
  densitometer_transmission_d := densitometer_transmission_d s;
  light_reflection := light_reflection s;
  light_transmission := light_transmission s;
  light_calls := light_calls s
|}.

(** Modelled from the spec: settings.c is not among the sources.  Section 6
    gives the settings store load and save of the calibration points; a
    save replaces the stored point and nothing else. *)
Definition settings_set_cal_reflection_lo (d value : float) (s : dstate) :=
  with_settings {| cal_reflection_lo := (d, value);
                   cal_reflection_hi := cal_reflection_hi (settings s);
                   cal_transmission_zero := cal_transmission_zero (settings s);
                   cal_transmission_hi := cal_transmission_hi (settings s) |} s.

(** Modelled from the spec: see [settings_set_cal_reflection_lo]. *)
Definition settings_set_cal_reflection_hi (d value : float) (s : dstate) :=
  with_settings {| cal_reflection_lo := cal_reflection_lo (settings s);
                   cal_reflection_hi := (d, value);
                   cal_transmission_zero := cal_transmission_zero (settings s);
                   cal_transmission_hi := cal_transmission_hi (settings s) |} s.

(** Modelled from the spec: see [settings_set_cal_reflection_lo]. *)
Definition settings_set_cal_transmission_zero (value : float) (s : dstate) :=
  with_settings {| cal_reflection_lo := cal_reflection_lo (settings s);
                   cal_reflection_hi := cal_reflection_hi (settings s);
                   cal_transmission_zero := value;
                   cal_transmission_hi := cal_transmission_hi (settings s) |} s.

(** Modelled from the spec: see [settings_set_cal_reflection_lo]. *)
Definition settings_set_cal_transmission_hi (d value : float) (s : dstate) :=
  with_settings {| cal_reflection_lo := cal_reflection_lo (settings s);
                   cal_reflection_hi := cal_reflection_hi (settings s);
                   cal_transmission_zero := cal_transmission_zero (settings s);
                   cal_transmission_hi := (d, value) |} s.

Definition CAL_READ_ITERATIONS : Z := 5.

Section Densitometer.
Context {L : Libm} {LC : LightConsts}.

(** [sensor_read(iterations, &ch0_basic, &ch1_basic)]: the status and the
    two basic counts it leaves behind.  The function is declared in
    sensor.h and is not among the sources, so its outcome is an input. *)
Variable sensor_read : Z -> HAL_StatusTypeDef * (float * float).

(** densitometer.c:62,65: make sure the two channels do not overlap the
    wrong way, then take their difference. *)
Definition channel_difference (ch0_basic ch1_basic : float) : float :=
  let ch1_basic :=
    if F32.geb ch1_basic ch0_basic then F32.of_Z 0 else ch1_basic in
  F32.sub ch0_basic ch1_basic.

(** densitometer.c:32-33 *)
Definition reflection_cal_unusable
    (cal_lo_d cal_lo_value cal_hi_d cal_hi_value : float) : bool :=
  F32.ltb cal_lo_d (F32.lit 0 1) || F32.leb cal_hi_d cal_lo_d
  || F32.ltb cal_lo_value (F32.lit 0 1) || F32.geb cal_hi_value cal_lo_value.

(** densitometer.c:18-86.  Logging is not modelled. *)
Definition densitometer_reflection_measure (s : dstate)
  : densitometer_result_t * dstate :=
  (* Get the current calibration values *)
  let '(cal_lo_d, cal_lo_value) := cal_reflection_lo (settings s) in
  let '(cal_hi_d, cal_hi_value) := cal_reflection_hi (settings s) in
  (* Check that the calibration values are usable *)
  if reflection_cal_unusable cal_lo_d cal_lo_value cal_hi_d cal_hi_value
  then (DENSITOMETER_CAL_ERROR, s)
  else
    (* Set light intensity for reading *)
    let s := light_set_reflection 128 s in
    let s := light_set_transmission 0 s in
    (* Perform sensor read *)
    match sensor_read 2 with
    | (HAL_OK, (ch0_basic, ch1_basic)) =>
        let meas_value := channel_difference ch0_basic ch1_basic in
        let meas_d :=
          reflection_density f32_arith
            cal_lo_d cal_lo_value cal_hi_d cal_hi_value meas_value in
        let s := {|
          settings := settings s;
          densitometer_reflection_d := meas_d;
          densitometer_transmission_d := densitometer_transmission_d s;
          light_reflection := light_reflection s;
          light_transmission := light_transmission s;
          light_calls := light_calls s |} in
        (* Set light back to idle *)
        let s := light_set_reflection LIGHT_REFLECTION_IDLE s in
        (DENSITOMETER_OK, s)
    | _ =>
        let s := light_set_reflection LIGHT_REFLECTION_IDLE s in
        (DENSITOMETER_SENSOR_ERROR, s)
    end.

(** densitometer.c:88-91 *)
Definition densitometer_reflection_get_last_reading (s : dstate) : float :=
  densitometer_reflection_d s.

(** densitometer.c:106-107 *)
Definition transmission_cal_unusable
    (cal_zero_value cal_hi_d cal_hi_value : float) : bool :=
  F32.leb cal_zero_value (F32.lit 0 1) || F32.leb cal_hi_d (F32.lit 0 1)
  || F32.leb cal_hi_value (F32.lit 0 1)
  || F32.geb cal_hi_value cal_zero_value.

(** densitometer.c:93-159 *)
Definition densitometer_transmission_measure (s : dstate)
  : densitometer_result_t * dstate :=
  (* Get the current calibration values *)
  let cal_zero_value := cal_transmission_zero (settings s) in
  let '(cal_hi_d, cal_hi_value) := cal_transmission_hi (settings s) in
  (* Check that the calibration values are usable *)
  if transmission_cal_unusable cal_zero_value cal_hi_d cal_hi_value
  then (DENSITOMETER_CAL_ERROR, s)
  else
    (* Set light intensity for reading *)
    let s := light_set_reflection 0 s in
    let s := light_set_transmission 128 s in
    (* Perform sensor read *)
    match sensor_read 2 with
    | (HAL_OK, (ch0_basic, ch1_basic)) =>
        let meas_value := channel_difference ch0_basic ch1_basic in
        let corr_d :=
          transmission_density f32_arith
            cal_zero_value cal_hi_d cal_hi_value meas_value in
        let s := {|
          settings := settings s;
          densitometer_reflection_d := densitometer_reflection_d s;
          densitometer_transmission_d := corr_d;
          light_reflection := light_reflection s;
          light_transmission := light_transmission s;
          light_calls := light_calls s |} in
        (* Set light back to idle *)
        let s := light_set_transmission LIGHT_TRANSMISSION_IDLE s in
        (DENSITOMETER_OK, s)
    | _ =>
        let s := light_set_transmission LIGHT_TRANSMISSION_IDLE s in
        (DENSITOMETER_SENSOR_ERROR, s)
    end.

(** densitometer.c:161-164 *)
Definition densitometer_transmission_get_last_reading (s : dstate) : float :=
  densitometer_transmission_d s.

(** The four point-calibration helpers differ in the light they switch
    on, in the range check on their argument and in the setting they
    save. *)
Inductive light_source : Type := Reflection | Transmission.

(** densitometer.c:182-183, 219-220 for the reflection helpers and
    251-252, 288-289 for the transmission helpers: in both cases the
    reflection light is set first, then the transmission light. *)
Definition light_for_reading (src : light_source) (s : dstate) : dstate :=
  match src with
  | Reflection =>
      let s := light_set_reflection 128 s in
      light_set_transmission 0 s
  | Transmission =>
      let s := light_set_reflection 0 s in
      light_set_transmission 128 s
  end.

Definition light_idle (src : light_source) (s : dstate) : dstate :=
  match src with
  | Reflection => light_set_reflection LIGHT_REFLECTION_IDLE s
  | Transmission => light_set_transmission LIGHT_TRANSMISSION_IDLE s
  end.

(** The body shared by densitometer.c:171-206, 208-243, 245-275 and
    277-312 after the argument check: light on, five averaged cycles,
    clamp and difference, the 0.01 floor, save, light to idle. *)
Definition calibrate_point (src : light_source)
    (save : float -> dstate -> dstate) (s : dstate)
  : densitometer_result_t * dstate :=
  (* Set light intensity for reading *)
  let s := light_for_reading src s in
  (* Perform sensor read *)
  match sensor_read CAL_READ_ITERATIONS with
  | (HAL_OK, (ch0_basic, ch1_basic)) =>
      let meas_value := channel_difference ch0_basic ch1_basic in
      if F32.ltb meas_value (F32.lit 1 100)
      then (DENSITOMETER_CAL_ERROR, s)
      else
        (* Save the calibration value *)
        let s := save meas_value s in
        (* Set light back to idle *)
        let s := light_idle src s in
        (DENSITOMETER_OK, s)
  | _ =>
      let s := light_idle src s in
      (DENSITOMETER_SENSOR_ERROR, s)
  end.

(** densitometer.c:171-206 *)
Definition densitometer_calibrate_reflection_lo (cal_lo_d : float)
    (s : dstate) : densitometer_result_t * dstate :=
  (* Make sure the argument is within a reasonable range *)
  if F32.ltb cal_lo_d (F32.lit 0 100) || F32.gtb cal_lo_d (F32.lit 250 100)
  then (DENSITOMETER_CAL_ERROR, s)
  else calibrate_point Reflection
         (settings_set_cal_reflection_lo cal_lo_d) s.

(** densitometer.c:208-243 *)
Definition densitometer_calibrate_reflection_hi (cal_hi_d : float)
    (s : dstate) : densitometer_result_t * dstate :=
  if F32.ltb cal_hi_d (F32.lit 0 100) || F32.gtb cal_hi_d (F32.lit 250 100)
  then (DENSITOMETER_CAL_ERROR, s)
  else calibrate_point Reflection
         (settings_set_cal_reflection_hi cal_hi_d) s.

(** densitometer.c:245-275 *)
Definition densitometer_calibrate_transmission_zero (s : dstate)
  : densitometer_result_t * dstate :=
  calibrate_point Transmission settings_set_cal_transmission_zero s.

(** densitometer.c:277-312 *)
Definition densitometer_calibrate_transmission_hi (cal_hi_d : float)
    (s : dstate) : densitometer_result_t * dstate :=
  if F32.ltb cal_hi_d (F32.lit 0 100) || F32.gtb cal_hi_d (F32.lit 400 100)
  then (DENSITOMETER_CAL_ERROR, s)
  else calibrate_point Transmission
         (settings_set_cal_transmission_hi cal_hi_d) s.

(** The light source [src] was last set to its idle level, and is at
    that level. *)
Definition left_idle (src : light_source) (s : dstate) : Prop :=
  match src with
  | Reflection =>
      (exists earlier,
          light_calls s = LightReflection LIGHT_REFLECTION_IDLE :: earlier)
      /\ light_reflection s = LIGHT_REFLECTION_IDLE
  | Transmission =>
      (exists earlier,
          light_calls s
          = LightTransmission LIGHT_TRANSMISSION_IDLE :: earlier)
      /\ light_transmission s = LIGHT_TRANSMISSION_IDLE
  end.
End Densitometer.

(* ================================================================= *)
(** ** sensor.c: data, environment and state *)

(** CMSIS-RTOS2 status codes. *)
Inductive osStatus_t : Type :=
| osOK | osError | osErrorTimeout | osErrorResource
| osErrorParameter | osErrorNoMemory | osErrorISR.

Definition is_osOK (r : osStatus_t) : bool :=
  match r with osOK => true | _ => false end.

Inductive tsl2591_gain_t : Type :=
| TSL2591_GAIN_LOW | TSL2591_GAIN_MEDIUM
| TSL2591_GAIN_HIGH | TSL2591_GAIN_MAXIMUM.

(** The enumerators in increasing order, as [gain_low >= gain_high]
    compares them. *)
Definition gain_index (g : tsl2591_gain_t) : Z :=
  match g with
  | TSL2591_GAIN_LOW => 0 | TSL2591_GAIN_MEDIUM => 1
  | TSL2591_GAIN_HIGH => 2 | TSL2591_GAIN_MAXIMUM => 3
  end.

Inductive tsl2591_time_t : Type :=
| TSL2591_TIME_100MS | TSL2591_TIME_200MS | TSL2591_TIME_300MS
| TSL2591_TIME_400MS | TSL2591_TIME_500MS | TSL2591_TIME_600MS.

Definition is_TIME_100MS (t : tsl2591_time_t) : bool :=
  match t with TSL2591_TIME_100MS => true | _ => false end.

Inductive sensor_light_t : Type :=
| SENSOR_LIGHT_OFF | SENSOR_LIGHT_REFLECTION | SENSOR_LIGHT_TRANSMISSION.

Inductive sensor_gain_calibration_status_t : Type :=
| SENSOR_GAIN_CALIBRATION_STATUS_INIT
| SENSOR_GAIN_CALIBRATION_STATUS_MEDIUM
| SENSOR_GAIN_CALIBRATION_STATUS_HIGH
| SENSOR_GAIN_CALIBRATION_STATUS_MAXIMUM
| SENSOR_GAIN_CALIBRATION_STATUS_FAILED
| SENSOR_GAIN_CALIBRATION_STATUS_LED
| SENSOR_GAIN_CALIBRATION_STATUS_COOLDOWN
| SENSOR_GAIN_CALIBRATION_STATUS_DONE.

(** One hardware cycle's worth of data; the channel values are
    [uint16_t]. *)
Record sensor_reading_t : Type := {
  ch0_val : Z;
  ch1_val : Z;
  gain : tsl2591_gain_t;
  time : tsl2591_time_t;
  reading_ticks : Z;
  reading_count : Z
}.

Record settings_cal_light_t : Type := {
  cal_light_reflection : Z;
  cal_light_transmission : Z
}.

Record settings_cal_gain_t : Type := {
  ch0_medium : float; ch1_medium : float;
  ch0_high : float; ch1_high : float;
  ch0_maximum : float; ch1_maximum : float
}.

Record settings_cal_slope_t : Type := {
  b0 : float; b1 : float; b2 : float
}.

(** The constants of tsl2591.h the code refers to; the header is not among
    the sources, so they are parameters of the model. *)
Class Tsl2591Consts : Type := {
  TSL2591_ANALOG_SATURATION : Z;
  TSL2591_DIGITAL_SATURATION : Z;
  TSL2591_GAIN_MEDIUM_MIN : float;
  TSL2591_GAIN_MEDIUM_TYP : float;
  TSL2591_GAIN_MEDIUM_MAX : float;
  TSL2591_GAIN_HIGH_MIN : float;
  TSL2591_GAIN_HIGH_TYP : float;
  TSL2591_GAIN_HIGH_MAX : float;
  TSL2591_GAIN_MAXIMUM_CH0_MIN : float;
  TSL2591_GAIN_MAXIMUM_CH0_TYP : float;
  TSL2591_GAIN_MAXIMUM_CH0_MAX : float;
  TSL2591_GAIN_MAXIMUM_CH1_MIN : float;
  TSL2591_GAIN_MAXIMUM_CH1_TYP : float;
  TSL2591_GAIN_MAXIMUM_CH1_MAX : float
}.

(** What the world outside sensor.c answers.  Calls are numbered from 0 in
    the order they are made; nothing is assumed about the answers. *)
Record env : Type := {
  (** [sensor_get_next_reading]: status and reading of the k-th call *)
  env_next_reading : nat -> osStatus_t * sensor_reading_t;
  (** [sensor_set_config]: status of the k-th call *)
  env_set_config : nat -> tsl2591_gain_t -> tsl2591_time_t -> osStatus_t;
  (** [sensor_start]: status of the k-th call *)
  env_start : nat -> osStatus_t;
  (** the caller's progress callback (NULL is [None]); k-th invocation *)
  env_callback :
    option (nat -> sensor_gain_calibration_status_t -> Z -> bool);
  (** whether the settings store accepts a write *)
  env_settings_write : bool;
  (** content of a [float] local that was never assigned *)
  env_indeterminate : float
}.

(** An observable action of sensor.c, in the order performed. *)
Inductive event : Type :=
| EvSetConfig (g : tsl2591_gain_t) (t : tsl2591_time_t)
| EvStart
| EvStop
| EvNextReading (timeout : Z)
| EvLightMode (light : sensor_light_t) (next_cycle : bool) (value : Z)
| EvDelay (ms : Z)
| EvCallback (status : sensor_gain_calibration_status_t) (param : Z).

Record world : Type := {
  w_readings : nat;    (* calls of sensor_get_next_reading so far *)
  w_configs : nat;     (* calls of sensor_set_config so far *)
  w_starts : nat;      (* calls of sensor_start so far *)
  w_callbacks : nat;   (* callback invocations so far *)
  w_trace : list event;            (* most recent first *)
  w_cal_light : settings_cal_light_t;   (* persisted light table *)
  w_cal_gain : settings_cal_gain_t      (* persisted gain table *)
}.

(** State passing, with the usual notation. *)
Definition M (A : Type) : Type := world -> A * world.
Definition ret {A : Type} (a : A) : M A := fun w => (a, w).
Definition bind {A B : Type} (m : M A) (k : A -> M B) : M B :=
  fun w => let '(a, w') := m w in k a w'.

Declare Scope m_scope.
Delimit Scope m_scope with M.
Notation "x <- c1 ;; c2" := (bind c1 (fun x => c2))
  (at level 61, c1 at next level, right associativity) : m_scope.
Notation "' pat <- c1 ;; c2" :=
  (bind c1 (fun x => match x with pat => c2 end))
  (at level 61, pat pattern, c1 at next level, right associativity) : m_scope.
Notation "c1 ;; c2" := (bind c1 (fun _ => c2))
  (at level 61, right associativity) : m_scope.

Definition emit (ev : event) : M unit := fun w =>
  (tt, {| w_readings := w_readings w; w_configs := w_configs w;
          w_starts := w_starts w; w_callbacks := w_callbacks w;
          w_trace := ev :: w_trace w;
          w_cal_light := w_cal_light w; w_cal_gain := w_cal_gain w |}).

(** Result of an out-parameter write through a pointer that may be NULL:
    [None] is the NULL pointer, [Some v] a valid pointer whose target
    holds [v]. *)
Definition store {A : Type} (p : option A) (v : A) : option A :=
  match p with Some _ => Some v | None => None end.
Definition deref {A : Type} (p : option A) (old : A) : A :=
  match p with Some v => v | None => old end.

Section Sensor.
Context {L : Libm} {TC : Tsl2591Consts}.
Variable E : env.

Open Scope m_scope.

(** *** Calls that leave sensor.c

    The sensor task, the RTOS and the settings store are not among the
    sources.  Each call below records itself in the trace; what it answers
    comes from the environment [E]. *)

Definition sensor_get_next_reading (timeout : Z)
  : M (osStatus_t * sensor_reading_t) := fun w =>
  (env_next_reading E (w_readings w),
   {| w_readings := S (w_readings w); w_configs := w_configs w;
      w_starts := w_starts w; w_callbacks := w_callbacks w;
      w_trace := EvNextReading timeout :: w_trace w;
      w_cal_light := w_cal_light w; w_cal_gain := w_cal_gain w |}).

Definition sensor_set_config (g : tsl2591_gain_t) (t : tsl2591_time_t)
  : M osStatus_t := fun w =>
  (env_set_config E (w_configs w) g t,
   {| w_readings := w_readings w; w_configs := S (w_configs w);
      w_starts := w_starts w; w_callbacks := w_callbacks w;
      w_trace := EvSetConfig g t :: w_trace w;
      w_cal_light := w_cal_light w; w_cal_gain := w_cal_gain w |}).

Definition sensor_start : M osStatus_t := fun w =>
  (env_start E (w_starts w),
   {| w_readings := w_readings w; w_configs := w_configs w;
      w_starts := S (w_starts w); w_callbacks := w_callbacks w;
      w_trace := EvStart :: w_trace w;
      w_cal_light := w_cal_light w; w_cal_gain := w_cal_gain w |}).

Definition sensor_stop : M unit := emit EvStop.

Definition sensor_set_light_mode (light : sensor_light_t)
    (next_cycle : bool) (value : Z) : M unit :=
  emit (EvLightMode light next_cycle value).

Definition osDelay (ms : Z) : M unit := emit (EvDelay ms).

(** Modelled from the spec: settings.c is not among the sources.  Section 6
    gives the settings store load and save of the light table; a save the
    store accepts replaces the persisted table and reports success. *)
Definition settings_set_cal_light (c : settings_cal_light_t) : M bool :=
  fun w =>
  if env_settings_write E then
    (true,
     {| w_readings := w_readings w; w_configs := w_configs w;
        w_starts := w_starts w; w_callbacks := w_callbacks w;
        w_trace := w_trace w;
        w_cal_light := c; w_cal_gain := w_cal_gain w |})
  else (false, w).

(** Modelled from the spec: see [settings_set_cal_light]; here for the
    gain table. *)
Definition settings_set_cal_gain (c : settings_cal_gain_t) : M bool :=
  fun w =>
  if env_settings_write E then
    (true,
     {| w_readings := w_readings w; w_configs := w_configs w;
        w_starts := w_starts w; w_callbacks := w_callbacks w;
        w_trace := w_trace w;
        w_cal_light := w_cal_light w; w_cal_gain := c |})
  else (false, w).

(** *** sensor.c proper *)

(** sensor.c:759-769 *)
Definition gain_status_callback
    (status : sensor_gain_calibration_status_t) (param : Z) : M bool :=
  match env_callback E with
  | Some callback => fun w =>
      (callback (w_callbacks w) status param,
       {| w_readings := w_readings w; w_configs := w_configs w;
          w_starts := w_starts w; w_callbacks := S (w_callbacks w);
          w_trace := EvCallback status param :: w_trace w;
          w_cal_light := w_cal_light w; w_cal_gain := w_cal_gain w |})
  | None => ret true
  end.

(** sensor.c:748-757; [n] iterations remain, the next with index [i]. *)
Fixpoint cooldown_loop (n : nat) (i : Z) : M bool :=
  match n with
  | O => ret true
  | S n' =>
      go_on <- gain_status_callback
                 SENSOR_GAIN_CALIBRATION_STATUS_COOLDOWN i ;;
      if negb go_on then ret false
      else osDelay 1000 ;; cooldown_loop n' (i + 1)
  end.

Definition sensor_gain_calibration_cooldown : M bool := cooldown_loop 5 0.

(** sensor.c:902-919; the limit is held in a [uint16_t]. *)
Definition sensor_is_reading_saturated (reading : option sensor_reading_t)
  : bool :=
  match reading with
  | None => false
  | Some reading =>
      let limit :=
        (if is_TIME_100MS (time reading)
         then TSL2591_ANALOG_SATURATION
         else TSL2591_DIGITAL_SATURATION) mod 65536 in
      if (ch0_val reading >=? limit) || (ch1_val reading >=? limit)
      then true else false
  end.

(** The [for] loop of sensor.c:607-624 with [n] iterations to go.
    Returns [ret], [saturation] and the two sums. *)
Fixpoint raw_read_iter (n : nat) (ret_ : osStatus_t)
    (ch0_sum ch1_sum : float) : M (osStatus_t * bool * float * float) :=
  match n with
  | O => ret (ret_, false, ch0_sum, ch1_sum)
  | S n' =>
      (* Wait for the next reading *)
      '(ret_, reading) <- sensor_get_next_reading 2000 ;;
      if negb (is_osOK ret_) then ret (ret_, false, ch0_sum, ch1_sum)
      else
        (* Accumulate the results *)
        if sensor_is_reading_saturated (Some reading)
        then ret (ret_, true, ch0_sum, ch1_sum)
        else
          let ch0_sum := F32.add ch0_sum (logf (F32.of_Z (ch0_val reading))) in
          let ch1_sum := F32.add ch1_sum (logf (F32.of_Z (ch1_val reading))) in
          raw_read_iter n' ret_ ch0_sum ch1_sum
  end.

(** sensor.c:594-638; [count] is a [uint8_t]. *)
Definition sensor_raw_read_loop (count : Z) (ch0_avg ch1_avg : option float)
  : M (osStatus_t * option float * option float) :=
  if count =? 0 then ret (osErrorParameter, ch0_avg, ch1_avg)
  else
    '(ret_, saturation, ch0_sum, ch1_sum) <-
       raw_read_iter (Z.to_nat count) osOK (F32.of_Z 0) (F32.of_Z 0) ;;
    if is_osOK ret_ then
      let avg (sum : float) :=
        if saturation then F32.NAN
        else expf (F32.div sum (F32.of_Z count)) in
      ret (ret_, store ch0_avg (avg ch0_sum), store ch1_avg (avg ch1_sum))
    else ret (ret_, ch0_avg, ch1_avg).

Definition SENSOR_GAIN_CAL_READ_ITERATIONS : Z := 5.
Definition SENSOR_GAIN_LED_CHECK_READ_ITERATIONS : Z := 2.
Definition GAIN_CAL_BRIGHTNESS_LOW_MED : Z := 128.
Definition LIGHT_CAL_CH0_TARGET_FACTOR : float := F32.lit 98 100.
Definition GAIN_CAL_CH0_TARGET_FACTOR : float := F32.lit 75 100.

(** The [do { ... } while (0)] of sensor.c:668-726.  A [break] is the
    early result; the result is [ret] and the four averages
    (ch0_avg_high, ch1_avg_high, ch0_avg_low, ch1_avg_low). *)
Definition gain_calibration_loop_block
    (gain_low gain_high : tsl2591_gain_t) (time : tsl2591_time_t)
    (led_brightness : Z)
    (callback_status : sensor_gain_calibration_status_t)
  : M (osStatus_t * (float * float * float * float)) :=
  let ch0_avg_high := env_indeterminate E in
  let ch1_avg_high := env_indeterminate E in
  let ch0_avg_low := env_indeterminate E in
  let ch1_avg_low := env_indeterminate E in
  go_on <- gain_status_callback callback_status 0 ;;
  if negb go_on
  then ret (osError, (ch0_avg_high, ch1_avg_high, ch0_avg_low, ch1_avg_low))
  else
  (* Setup for high gain measurement *)
  ret_ <- sensor_set_config gain_high time ;;
  if negb (is_osOK ret_)
  then ret (ret_, (ch0_avg_high, ch1_avg_high, ch0_avg_low, ch1_avg_low))
  else
  (* Wait for the first reading at the new settings to come through *)
  '(ret_, _) <- sensor_get_next_reading 2000 ;;
  if negb (is_osOK ret_)
  then ret (ret_, (ch0_avg_high, ch1_avg_high, ch0_avg_low, ch1_avg_low))
  else
  (* Set the LED to target brightness on the next cycle *)
  sensor_set_light_mode SENSOR_LIGHT_TRANSMISSION true led_brightness ;;
  (* Wait for the next cycle which will turn the LED on *)
  '(ret_, _) <- sensor_get_next_reading 2000 ;;
  if negb (is_osOK ret_)
  then ret (ret_, (ch0_avg_high, ch1_avg_high, ch0_avg_low, ch1_avg_low))
  else
  (* Do the high gain read loop *)
  '(ret_, p0, p1) <- sensor_raw_read_loop SENSOR_GAIN_CAL_READ_ITERATIONS
                       (Some ch0_avg_high) (Some ch1_avg_high) ;;
  let ch0_avg_high := deref p0 ch0_avg_high in
  let ch1_avg_high := deref p1 ch1_avg_high in
  if negb (is_osOK ret_)
  then ret (ret_, (ch0_avg_high, ch1_avg_high, ch0_avg_low, ch1_avg_low))
  else
  (* Turn off the LED and wait for it to cool down *)
  sensor_set_light_mode SENSOR_LIGHT_OFF false 0 ;;
  cooled <- sensor_gain_calibration_cooldown ;;
  if negb cooled
  then ret (osError, (ch0_avg_high, ch1_avg_high, ch0_avg_low, ch1_avg_low))
  else
  go_on <- gain_status_callback callback_status 1 ;;
  if negb go_on
  then ret (osError, (ch0_avg_high, ch1_avg_high, ch0_avg_low, ch1_avg_low))
  else
  (* Setup for low gain measurement *)
  ret_ <- sensor_set_config gain_low time ;;
  if negb (is_osOK ret_)
  then ret (ret_, (ch0_avg_high, ch1_avg_high, ch0_avg_low, ch1_avg_low))
  else
  (* Wait for the first reading at the new settings to come through *)
  '(ret_, _) <- sensor_get_next_reading 2000 ;;
  if negb (is_osOK ret_)
  then ret (ret_, (ch0_avg_high, ch1_avg_high, ch0_avg_low, ch1_avg_low))
  else
  (* Set the LED to target brightness on the next cycle *)
  sensor_set_light_mode SENSOR_LIGHT_TRANSMISSION true led_brightness ;;
  (* Wait for the next cycle which will turn the LED on *)
  '(ret_, _) <- sensor_get_next_reading 2000 ;;
  if negb (is_osOK ret_)
  then ret (ret_, (ch0_avg_high, ch1_avg_high, ch0_avg_low, ch1_avg_low))
  else
  (* Do the low gain read loop *)
  '(ret_, p0, p1) <- sensor_raw_read_loop SENSOR_GAIN_CAL_READ_ITERATIONS
                       (Some ch0_avg_low) (Some ch1_avg_low) ;;
  let ch0_avg_low := deref p0 ch0_avg_low in
  let ch1_avg_low := deref p1 ch1_avg_low in
  if negb (is_osOK ret_)
  then ret (ret_, (ch0_avg_high, ch1_avg_high, ch0_avg_low, ch1_avg_low))
  else
  (* Turn off the LED *)
  sensor_set_light_mode SENSOR_LIGHT_OFF false 0 ;;
  ret (ret_, (ch0_avg_high, ch1_avg_high, ch0_avg_low, ch1_avg_low)).

(** sensor.c:730-734 and 737-741: the ratio written for one channel. *)
Definition gain_ratio (avg_high avg_low : float) : float :=
  if F32.leb avg_high (F32.of_Z 0) || F32.leb avg_low (F32.of_Z 0)
  then F32.of_Z 0
  else F32.div avg_high avg_low.

(** sensor.c:650-746 *)
Definition sensor_gain_calibration_loop
    (gain_low gain_high : tsl2591_gain_t) (time : tsl2591_time_t)
    (led_brightness : Z) (gain_ch0 gain_ch1 : option float)
    (callback_status : sensor_gain_calibration_status_t)
  : M (osStatus_t * option float * option float) :=
  if gain_index gain_low >=? gain_index gain_high
  then ret (osErrorParameter, gain_ch0, gain_ch1)
  else
    '(ret_, (ch0_avg_high, ch1_avg_high, ch0_avg_low, ch1_avg_low)) <-
       gain_calibration_loop_block gain_low gain_high time led_brightness
         callback_status ;;
    if is_osOK ret_ then
      ret (ret_,
           store gain_ch0 (gain_ratio ch0_avg_high ch0_avg_low),
           store gain_ch1 (gain_ratio ch1_avg_high ch1_avg_low))
    else ret (ret_, gain_ch0, gain_ch1).

(** How a block with a loop in it is left: by running off its end (or a
    [break]), or by a [return] from inside. *)
Inductive flow (A : Type) : Type :=
| Fallthrough (a : A)
| Return (r : osStatus_t).
Arguments Fallthrough {A} a.
Arguments Return {A} r.

(** [i++] and [i--] on a [uint8_t]. *)
Definition u8_incr (i : Z) : Z := (i + 1) mod 256.
Definition u8_decr (i : Z) : Z := (i - 1) mod 256.

(** Steps a [uint8_t] walk from [i] needs to reach [end_brightness]. *)
Definition scan_distance (count_upward : bool) (i end_brightness : Z) : nat :=
  Z.to_nat ((if count_upward then end_brightness - i
             else i - end_brightness) mod 256).

(** The [while (i != end_brightness)] loop of sensor.c:834-886.  The
    result carries [ret], [closest_ch0] and [closest_led].  [fuel] bounds
    the number of iterations; [scan_distance] of them are enough, so 256
    cover every [uint8_t] walk ([brightness_scan_fuel]). *)
Fixpoint brightness_scan (fuel : nat) (count_upward : bool)
    (end_brightness : Z) (target_ch0 : float)
    (ret_ : osStatus_t) (i : Z) (ch0_avg closest_ch0 : float)
    (closest_led : Z) {struct fuel}
  : M (flow (osStatus_t * float * Z)) :=
  if i =? end_brightness
  then ret (Fallthrough (ret_, closest_ch0, closest_led))
  else
  match fuel with
  | O => ret (Fallthrough (ret_, closest_ch0, closest_led))
  | S fuel' =>
    (* the tail of the loop body, sensor.c:880-885 *)
    let next (i : Z) (ret_ : osStatus_t) (ch0_avg closest_ch0 : float)
             (closest_led : Z) : M (flow (osStatus_t * float * Z)) :=
      (* Turn off the LED and wait for a minimal cooldown period *)
      sensor_set_light_mode SENSOR_LIGHT_OFF false 0 ;;
      go_on <- gain_status_callback SENSOR_GAIN_CALIBRATION_STATUS_LED i ;;
      if negb go_on then ret (Return osError)
      else
        osDelay (if i <? 64 then 1000 else 2000) ;;
        brightness_scan fuel' count_upward end_brightness target_ch0
          ret_ i ch0_avg closest_ch0 closest_led in
    (* Set the LED to target brightness on the next cycle *)
    sensor_set_light_mode SENSOR_LIGHT_TRANSMISSION true i ;;
    (* Wait for the next cycle which will turn the LED on *)
    '(ret_, _) <- sensor_get_next_reading 2000 ;;
    if negb (is_osOK ret_)
    then ret (Fallthrough (ret_, closest_ch0, closest_led))
    else
    '(ret_, _) <- sensor_get_next_reading 2000 ;;
    if negb (is_osOK ret_)
    then ret (Fallthrough (ret_, closest_ch0, closest_led))
    else
    '(ret_, p0, _) <- sensor_raw_read_loop
                        SENSOR_GAIN_LED_CHECK_READ_ITERATIONS
                        (Some ch0_avg) None ;;
    let ch0_avg := deref p0 ch0_avg in
    if negb (is_osOK ret_)
    then ret (Fallthrough (ret_, closest_ch0, closest_led))
    else
    if count_upward then
      (* Break if we've saturated *)
      if F32.isnanf ch0_avg
      then ret (Fallthrough (ret_, closest_ch0, closest_led))
      else
        if closest_led =? 0 then
          next (u8_incr i) ret_ ch0_avg ch0_avg i
        else
          let cur_diff := F32.fabsf (F32.sub target_ch0 ch0_avg) in
          let last_diff := F32.fabsf (F32.sub target_ch0 closest_ch0) in
          if F32.ltb cur_diff last_diff
          then next (u8_incr i) ret_ ch0_avg ch0_avg i
          else ret (Fallthrough (ret_, closest_ch0, closest_led))
    else
      (* Check if we got a usable reading *)
      if negb (F32.isnanf ch0_avg) && F32.leb ch0_avg target_ch0
      then ret (Fallthrough (ret_, ch0_avg, i))
      else next (u8_decr i) ret_ ch0_avg closest_ch0 closest_led
  end.

(** sensor.c:784-900; the brightness arguments are [uint8_t]. *)
Definition sensor_find_gain_brightness (led_brightness : option Z)
    (gain : tsl2591_gain_t) (time : tsl2591_time_t)
    (start_brightness end_brightness : Z) (target_factor : float)
  : M (osStatus_t * option Z) :=
  let closest_ch0 := F32.NAN in
  let closest_led := 0 in
  (* Basic parameter validation *)
  if (start_brightness =? 0) || (start_brightness =? end_brightness)
     || F32.isnanf target_factor
     || F32.ltb target_factor (F32.lit 1 10)
     || F32.gtb target_factor (F32.lit 10 10)
  then ret (osErrorParameter, led_brightness)
  else
  (* Determine the target reading *)
  let target_ch0 :=
    if is_TIME_100MS time
    then F32.mul (F32.of_Z TSL2591_ANALOG_SATURATION) target_factor
    else F32.mul (F32.of_Z TSL2591_DIGITAL_SATURATION) target_factor in
  let count_upward := start_brightness <? end_brightness in
  go_on <- gain_status_callback SENSOR_GAIN_CALIBRATION_STATUS_LED 0 ;;
  if negb go_on then ret (osError, led_brightness)
  else
  blk <-
    ((* Setup for sensor configuration *)
     ret_ <- sensor_set_config gain time ;;
     if negb (is_osOK ret_)
     then ret (Fallthrough (ret_, closest_ch0, closest_led))
     else
     (* Wait for the first reading at the new settings to come through *)
     '(ret_, _) <- sensor_get_next_reading 2000 ;;
     if negb (is_osOK ret_)
     then ret (Fallthrough (ret_, closest_ch0, closest_led))
     else
     go_on <- gain_status_callback SENSOR_GAIN_CALIBRATION_STATUS_LED
                start_brightness ;;
     if negb go_on then ret (Return osError)
     else
       brightness_scan 256 count_upward end_brightness target_ch0
         ret_ start_brightness (env_indeterminate E)
         closest_ch0 closest_led) ;;
  match blk with
  | Return r => ret (r, led_brightness)
  | Fallthrough (ret_, closest_ch0, closest_led) =>
      (* Turn off the LED *)
      sensor_set_light_mode SENSOR_LIGHT_OFF false 0 ;;
      if is_osOK ret_
      then ret (ret_, store led_brightness closest_led)
      else ret (ret_, led_brightness)
  end.

(** sensor.c:117-124 and its five siblings: a value outside
    [[min, max]] is replaced by the typical one. *)
Definition gain_in_range_or_typ (g min typ max : float) : float :=
  if F32.ltb g min || F32.gtb g max then typ else g.

(** The locals of [sensor_gain_calibration] that outlive its
    [do { ... } while (0)]. *)
Record gain_cal_locals : Type := GL {
  measurement_led_brightness : Z;
  max_gain_led_brightness : Z;
  gain_med_ch0 : float; gain_med_ch1 : float;
  gain_high_ch0 : float; gain_high_ch1 : float;
  gain_max_ch0 : float; gain_max_ch1 : float
}.

(** sensor.c:84-194 *)
Definition gain_calibration_block : M (osStatus_t * gain_cal_locals) :=
  let measurement_led_brightness := 0 in
  let max_gain_led_brightness := 0 in
  let gain_med_ch0 := F32.NAN in
  let gain_med_ch1 := F32.NAN in
  let gain_high_ch0 := F32.NAN in
  let gain_high_ch1 := F32.NAN in
  let gain_max_ch0 := F32.NAN in
  let gain_max_ch1 := F32.NAN in
  (* Put the sensor into a known initial state *)
  ret_ <- sensor_set_config TSL2591_GAIN_MAXIMUM TSL2591_TIME_100MS ;;
  if negb (is_osOK ret_)
  then ret (ret_, GL measurement_led_brightness max_gain_led_brightness
              gain_med_ch0 gain_med_ch1 gain_high_ch0 gain_high_ch1
              gain_max_ch0 gain_max_ch1)
  else
  ret_ <- sensor_start ;;
  if negb (is_osOK ret_)
  then ret (ret_, GL measurement_led_brightness max_gain_led_brightness
              gain_med_ch0 gain_med_ch1 gain_high_ch0 gain_high_ch1
              gain_max_ch0 gain_max_ch1)
  else
  (* Wait for things to stabilize *)
  osDelay 1000 ;;
  (* Find the ideal measurement brightness, which should not saturate at
     high gain *)
  '(ret_, p) <- sensor_find_gain_brightness
                  (Some measurement_led_brightness)
                  TSL2591_GAIN_HIGH TSL2591_TIME_200MS
                  128 64 LIGHT_CAL_CH0_TARGET_FACTOR ;;
  let measurement_led_brightness := deref p measurement_led_brightness in
  if negb (is_osOK ret_) || (measurement_led_brightness =? 0)
  then ret (ret_, GL measurement_led_brightness max_gain_led_brightness
              gain_med_ch0 gain_med_ch1 gain_high_ch0 gain_high_ch1
              gain_max_ch0 gain_max_ch1)
  else
  (* Wait for LED cool down *)
  cooled <- sensor_gain_calibration_cooldown ;;
  if negb cooled
  then ret (osError, GL measurement_led_brightness max_gain_led_brightness
              gain_med_ch0 gain_med_ch1 gain_high_ch0 gain_high_ch1
              gain_max_ch0 gain_max_ch1)
  else
  (* Calibrate the value for medium gain *)
  '(ret_, p0, p1) <- sensor_gain_calibration_loop
                       TSL2591_GAIN_LOW TSL2591_GAIN_MEDIUM
                       TSL2591_TIME_600MS GAIN_CAL_BRIGHTNESS_LOW_MED
                       (Some gain_med_ch0) (Some gain_med_ch1)
                       SENSOR_GAIN_CALIBRATION_STATUS_MEDIUM ;;
  let gain_med_ch0 := deref p0 gain_med_ch0 in
  let gain_med_ch1 := deref p1 gain_med_ch1 in
  if negb (is_osOK ret_)
  then ret (ret_, GL measurement_led_brightness max_gain_led_brightness
              gain_med_ch0 gain_med_ch1 gain_high_ch0 gain_high_ch1
              gain_max_ch0 gain_max_ch1)
  else
  let gain_med_ch0 :=
    gain_in_range_or_typ gain_med_ch0 TSL2591_GAIN_MEDIUM_MIN
      TSL2591_GAIN_MEDIUM_TYP TSL2591_GAIN_MEDIUM_MAX in
  let gain_med_ch1 :=
    gain_in_range_or_typ gain_med_ch1 TSL2591_GAIN_MEDIUM_MIN
      TSL2591_GAIN_MEDIUM_TYP TSL2591_GAIN_MEDIUM_MAX in
  (* Wait for LED cool down *)
  cooled <- sensor_gain_calibration_cooldown ;;
  if negb cooled
  then ret (osError, GL measurement_led_brightness max_gain_led_brightness
              gain_med_ch0 gain_med_ch1 gain_high_ch0 gain_high_ch1
              gain_max_ch0 gain_max_ch1)
  else
  (* Calibrate the value for high gain, using the calibrated measurement
     brightness *)
  '(ret_, p0, p1) <- sensor_gain_calibration_loop
                       TSL2591_GAIN_MEDIUM TSL2591_GAIN_HIGH
                       TSL2591_TIME_200MS measurement_led_brightness
                       (Some gain_high_ch0) (Some gain_high_ch1)
                       SENSOR_GAIN_CALIBRATION_STATUS_HIGH ;;
  let gain_high_ch0 := deref p0 gain_high_ch0 in
  let gain_high_ch1 := deref p1 gain_high_ch1 in
  if negb (is_osOK ret_)
  then ret (ret_, GL measurement_led_brightness max_gain_led_brightness
              gain_med_ch0 gain_med_ch1 gain_high_ch0 gain_high_ch1
              gain_max_ch0 gain_max_ch1)
  else
  let gain_high_ch0 := F32.mul gain_high_ch0 gain_med_ch0 in
  let gain_high_ch1 := F32.mul gain_high_ch1 gain_med_ch1 in
  let gain_high_ch0 :=
    gain_in_range_or_typ gain_high_ch0 TSL2591_GAIN_HIGH_MIN
      TSL2591_GAIN_HIGH_TYP TSL2591_GAIN_HIGH_MAX in
  let gain_high_ch1 :=
    gain_in_range_or_typ gain_high_ch1 TSL2591_GAIN_HIGH_MIN
      TSL2591_GAIN_HIGH_TYP TSL2591_GAIN_HIGH_MAX in
  (* Wait for LED cool down *)
  cooled <- sensor_gain_calibration_cooldown ;;
  if negb cooled
  then ret (osError, GL measurement_led_brightness max_gain_led_brightness
              gain_med_ch0 gain_med_ch1 gain_high_ch0 gain_high_ch1
              gain_max_ch0 gain_max_ch1)
  else
  (* Find the ideal brightness for testing maximum gain *)
  '(ret_, p) <- sensor_find_gain_brightness
                  (Some max_gain_led_brightness)
                  TSL2591_GAIN_MAXIMUM TSL2591_TIME_200MS
                  4 16 GAIN_CAL_CH0_TARGET_FACTOR ;;
  let max_gain_led_brightness := deref p max_gain_led_brightness in
  if negb (is_osOK ret_) || (max_gain_led_brightness =? 0)
  then ret (ret_, GL measurement_led_brightness max_gain_led_brightness
              gain_med_ch0 gain_med_ch1 gain_high_ch0 gain_high_ch1
              gain_max_ch0 gain_max_ch1)
  else
  (* Wait for LED cool down *)
  cooled <- sensor_gain_calibration_cooldown ;;
  if negb cooled
  then ret (osError, GL measurement_led_brightness max_gain_led_brightness
              gain_med_ch0 gain_med_ch1 gain_high_ch0 gain_high_ch1
              gain_max_ch0 gain_max_ch1)
  else
  (* Calibrate the value for maximum gain *)
  '(ret_, p0, p1) <- sensor_gain_calibration_loop
                       TSL2591_GAIN_HIGH TSL2591_GAIN_MAXIMUM
                       TSL2591_TIME_200MS max_gain_led_brightness
                       (Some gain_max_ch0) (Some gain_max_ch1)
                       SENSOR_GAIN_CALIBRATION_STATUS_MAXIMUM ;;
  let gain_max_ch0 := deref p0 gain_max_ch0 in
  let gain_max_ch1 := deref p1 gain_max_ch1 in
  if negb (is_osOK ret_)
  then ret (ret_, GL measurement_led_brightness max_gain_led_brightness
              gain_med_ch0 gain_med_ch1 gain_high_ch0 gain_high_ch1
              gain_max_ch0 gain_max_ch1)
  else
  let gain_max_ch0 := F32.mul gain_max_ch0 gain_high_ch0 in
  let gain_max_ch1 := F32.mul gain_max_ch1 gain_high_ch1 in
  let gain_max_ch0 :=
    gain_in_range_or_typ gain_max_ch0 TSL2591_GAIN_MAXIMUM_CH0_MIN
      TSL2591_GAIN_MAXIMUM_CH0_TYP TSL2591_GAIN_MAXIMUM_CH0_MAX in
  let gain_max_ch1 :=
    gain_in_range_or_typ gain_max_ch1 TSL2591_GAIN_MAXIMUM_CH1_MIN
      TSL2591_GAIN_MAXIMUM_CH1_TYP TSL2591_GAIN_MAXIMUM_CH1_MAX in
  ret (ret_, GL measurement_led_brightness max_gain_led_brightness
         gain_med_ch0 gain_med_ch1 gain_high_ch0 gain_high_ch1
         gain_max_ch0 gain_max_ch1).

(** sensor.c:54-239.  The [settings_get_cal_light] call at line 75 fills
    a local that is never read; logging is not modelled. *)
Definition sensor_gain_calibration : M osStatus_t :=
  go_on <- gain_status_callback SENSOR_GAIN_CALIBRATION_STATUS_INIT 0 ;;
  if negb go_on then ret osError
  else
  (* Set lights to initial state *)
  sensor_set_light_mode SENSOR_LIGHT_OFF false 0 ;;
  '(ret_, l) <- gain_calibration_block ;;
  ret_ <-
    (if is_osOK ret_ then
       go_on <- gain_status_callback SENSOR_GAIN_CALIBRATION_STATUS_DONE 0 ;;
       ret (if negb go_on then osError else ret_)
     else
       go_on <- gain_status_callback
                  SENSOR_GAIN_CALIBRATION_STATUS_FAILED 0 ;;
       ret (if negb go_on then osError else ret_)) ;;
  (* Turn off the sensor *)
  sensor_stop ;;
  (* Turn off the lights *)
  sensor_set_light_mode SENSOR_LIGHT_OFF false 0 ;;
  if is_osOK ret_ then
    _ <- settings_set_cal_light
           {| cal_light_reflection := 128;
              cal_light_transmission := measurement_led_brightness l |} ;;
    _ <- settings_set_cal_gain
           {| ch0_medium := gain_med_ch0 l; ch1_medium := gain_med_ch1 l;
              ch0_high := gain_high_ch0 l; ch1_high := gain_high_ch1 l;
              ch0_maximum := gain_max_ch0 l;
              ch1_maximum := gain_max_ch1 l |} ;;
    ret ret_
  else ret ret_.

(** sensor.c:955-976.  [settings_get_cal_slope] belongs to the settings
    store; what it answers (validity flag and coefficients) is an
    input. *)
Definition sensor_apply_slope_calibration
    (settings_get_cal_slope : bool * settings_cal_slope_t)
    (basic_reading : float) : float :=
  let '(valid, cal_slope) := settings_get_cal_slope in
  if F32.isnanf basic_reading || F32.isinff basic_reading
     || F32.leb basic_reading (F32.lit 0 1)
  then basic_reading
  else if negb valid then basic_reading
  else
    let l_reading := log10f basic_reading in
    let l_expected :=
      F32.add (F32.add (b0 cal_slope) (F32.mul (b1 cal_slope) l_reading))
              (F32.mul (b2 cal_slope) (powf l_reading (F32.lit 2 1))) in
    let corr_reading := powf (F32.lit 10 1) l_expected in
    corr_reading.

(** *** Vocabulary for statements about the read loop *)

(** Among the readings answered to calls [k], [k+1], ..., [k+n-1], the call
    number of the first saturated one. *)
Fixpoint first_saturated (n k : nat) : option nat :=
match n with
| O => None
| S n' =>
    if sensor_is_reading_saturated (Some (snd (env_next_reading E k)))
    then Some k
    else first_saturated n' (S k)
end.

(** [acc] plus the natural logarithms of channel [ch] over the readings
    answered to calls [k], ..., [k+n-1], added one at a time in that
    order. *)
Fixpoint log_sum (ch : sensor_reading_t -> Z) (n k : nat) (acc : float)
  : float :=
match n with
| O => acc
| S n' =>
    log_sum ch n' (S k)
      (F32.add acc (logf (F32.of_Z (ch (snd (env_next_reading E k))))))
end.

(** The call number at which a run of [n] readings from call [k] stops:
    just past the first saturated reading, or past all [n]. *)
Definition run_end (n k : nat) : nat :=
match first_saturated n k with
| Some j => S j
| None => (k + n)%nat
end.

(** The ceiling that applies to a reading: the analog one at the 100 ms
    integration time, the digital one otherwise. *)
Definition saturation_ceiling (reading : sensor_reading_t) : Z :=
if is_TIME_100MS (time reading)
then TSL2591_ANALOG_SATURATION
else TSL2591_DIGITAL_SATURATION.
End Sensor.

(** *** Vocabulary for statements about runs of sensor.c *)

(** A computation leaves the observation [f] of the world as it was. *)
Definition preserves {A X : Type} (f : world -> X) (m : M A) : Prop :=
  forall w, f (snd (m w)) = f w.

(** The two persisted tables. *)
Definition tables (w : world) : settings_cal_light_t * settings_cal_gain_t :=
  (w_cal_light w, w_cal_gain w).

(** The light source of the most recent light-mode call in a trace. *)
Fixpoint last_light (tr : list event) : option sensor_light_t :=
  match tr with
  | [] => None
  | EvLightMode light _ _ :: _ => Some light
  | _ :: earlier => last_light earlier
  end.

Definition light_now (w : world) : option sensor_light_t :=
  last_light (w_trace w).

(** The brightness levels a search from [start_brightness] towards
    [end_brightness] tests: the start is included, the end is not. *)
Definition scanned (start_brightness end_brightness led : Z) : Prop :=
  if start_brightness <? end_brightness
  then start_brightness <= led < end_brightness
  else end_brightness < led <= start_brightness.

(** *** Vocabulary for statements about the gain table *)

(** [g] lies within [[min, max]], or is NaN. *)
Definition within_or_nan (g min max : float) : Prop :=
  F32.isnanf g = true \/ (F32.leb min g = true /\ F32.leb g max = true).

(** Every multiplier of a gain table lies within the range of its tier,
    or is NaN. *)
Definition gains_within_or_nan {TC : Tsl2591Consts} (t : settings_cal_gain_t)
  : Prop :=
  within_or_nan (ch0_medium t) TSL2591_GAIN_MEDIUM_MIN TSL2591_GAIN_MEDIUM_MAX
  /\ within_or_nan (ch1_medium t)
       TSL2591_GAIN_MEDIUM_MIN TSL2591_GAIN_MEDIUM_MAX
  /\ within_or_nan (ch0_high t) TSL2591_GAIN_HIGH_MIN TSL2591_GAIN_HIGH_MAX
  /\ within_or_nan (ch1_high t) TSL2591_GAIN_HIGH_MIN TSL2591_GAIN_HIGH_MAX
  /\ within_or_nan (ch0_maximum t)
       TSL2591_GAIN_MAXIMUM_CH0_MIN TSL2591_GAIN_MAXIMUM_CH0_MAX
  /\ within_or_nan (ch1_maximum t)
       TSL2591_GAIN_MAXIMUM_CH1_MIN TSL2591_GAIN_MAXIMUM_CH1_MAX.

(** The typical constant of every tier lies within that tier's range. *)
Definition typical_within {TC : Tsl2591Consts} : Prop :=
  (F32.leb TSL2591_GAIN_MEDIUM_MIN TSL2591_GAIN_MEDIUM_TYP = true
   /\ F32.leb TSL2591_GAIN_MEDIUM_TYP TSL2591_GAIN_MEDIUM_MAX = true)
  /\ (F32.leb TSL2591_GAIN_HIGH_MIN TSL2591_GAIN_HIGH_TYP = true
      /\ F32.leb TSL2591_GAIN_HIGH_TYP TSL2591_GAIN_HIGH_MAX = true)
  /\ (F32.leb TSL2591_GAIN_MAXIMUM_CH0_MIN TSL2591_GAIN_MAXIMUM_CH0_TYP = true
      /\ F32.leb TSL2591_GAIN_MAXIMUM_CH0_TYP TSL2591_GAIN_MAXIMUM_CH0_MAX
         = true)
  /\ (F32.leb TSL2591_GAIN_MAXIMUM_CH1_MIN TSL2591_GAIN_MAXIMUM_CH1_TYP = true
      /\ F32.leb TSL2591_GAIN_MAXIMUM_CH1_TYP TSL2591_GAIN_MAXIMUM_CH1_MAX
         = true).

(* ================================================================= *)
(** ** slopecalibrationdialog.cpp *)

(** A table cell as the fit sees it through [itemValueAsFloat]: [None] when
    there is no item or its text is not a number ([toFloat] reports
    failure), [Some v] when the text parses to [v]. *)
Definition cell : Type := option float.

(** The part of the dialog the calculation reads and writes: the table
    (column 0 density, column 1 raw reading; 22 rows when constructed), the
    stored coefficients and whether the OK button is enabled.  The three
    line edits show the stored coefficients as text and are not modelled
    separately. *)
Record dialog : Type := {
  model_ : list (cell * cell);
  calValues_ : float * float * float;
  okEnabled : bool
}.

Definition qQNaN : float := F32.NAN.

(** slopecalibrationdialog.cpp:16-79, with [rows] the preloaded table. *)
Definition dialog_init (rows : list (cell * cell)) : dialog := {|
  model_ := rows;
  calValues_ := (F32.NAN, F32.NAN, F32.NAN);
  okEnabled := false
|}.

(** *** The normal equations and their solution

    [polyfit] and [gaussEliminationLS] are written once over the arithmetic
    they use: values of the element type [F] of the two lists ([float]),
    widened to the working type [T] ([double]) and narrowed back for the
    result.  At [f64_fit] this is the code that runs; at [R_fit] it is the
    same code in exact arithmetic. *)

Record fit_arith (F T : Type) : Type := {
  t_add : T -> T -> T;
  t_sub : T -> T -> T;
  t_mul : T -> T -> T;
  t_div : T -> T -> T;
  (** [std::abs] *)
  t_abs : T -> T;
  t_ltb : T -> T -> bool;
  (** [std::pow(double, int)] *)
  t_pow : T -> Z -> T;
  t_zero : T;
  (** what an array cell holds before it is first written *)
  t_unset : T;
  (** [(double)x] *)
  t_widen : F -> T;
  (** [(float)x] *)
  t_narrow : T -> F;
  (** [qSNaN()] *)
  t_nan : F
}.

Definition f64_fit {L : Libm} : fit_arith float double := {|
  t_add := F64.add; t_sub := F64.sub; t_mul := F64.mul; t_div := F64.div;
  t_abs := F64.abs; t_ltb := F64.ltb; t_pow := pow_di;
  t_zero := F64.zero; t_unset := F64.NAN;
  t_widen := F64.of_float; t_narrow := F64.to_float; t_nan := F32.NAN
|}.

Definition Rltb (x y : R) : bool := if Rlt_dec x y then true else false.

Definition R_fit : fit_arith R R := {|
  t_add := Rplus; t_sub := Rminus; t_mul := Rmult; t_div := Rdiv;
  t_abs := Rabs; t_ltb := Rltb;
  t_pow := fun x i => pow x (Z.to_nat i);
  t_zero := 0%R; t_unset := 0%R;
  t_widen := fun x => x; t_narrow := fun x => x; t_nan := 0%R
|}.

Fixpoint list_set {A : Type} (l : list A) (i : nat) (v : A) : list A :=
  match l, i with
  | [], _ => []
  | _ :: t, O => v :: t
  | h :: t, S i' => h :: list_set t i' v
  end.

Section LeastSquares.
Context {F T : Type} (FA : fit_arith F T).

Local Infix "+" := (t_add FA).
Local Infix "-" := (t_sub FA).
Local Infix "*" := (t_mul FA).
Local Infix "/" := (t_div FA).

Definition matrix : Type := list (list T).

Definition mget (a : matrix) (i j : nat) : T :=
  nth j (nth i a []) (t_unset FA).

Definition swap_rows (a : matrix) (i k : nat) : matrix :=
  let ri := nth i a [] in
  let rk := nth k a [] in
  list_set (list_set a i rk) k ri.

(** slopecalibrationdialog.cpp:369-380: partial pivoting below row i. *)
Definition pivot (m : nat) (a : matrix) (i : nat) : matrix :=
  fold_left
    (fun a k =>
       if t_ltb FA (t_abs FA (mget a i i)) (t_abs FA (mget a k i))
       then swap_rows a i k else a)
    (seq (S i) (m - S i)) a.

(** slopecalibrationdialog.cpp:382-387: clear column i below row i. *)
Definition eliminate (m : nat) (a : matrix) (i : nat) : matrix :=
  fold_left
    (fun a k =>
       let term := mget a k i / mget a i i in
       let ri := nth i a [] in
       let rk := nth k a [] in
       list_set a k
         (map (fun p => fst p - term * snd p) (combine rk ri)))
    (seq (S i) (m - S i)) a.

(** slopecalibrationdialog.cpp:390-396: back-substitution, rows
    [m-1] down to [0]; [x] has [n-1] entries. *)
Definition back_substitute (m n : nat) (a : matrix) (x : list T)
  : list T :=
  fold_left
    (fun x i =>
       let xi := mget a i (n - 1) in
       let xi :=
         fold_left
           (fun xi j => xi - mget a i j * nth j x (t_unset FA))
           (seq (S i) (n - 1 - S i)) xi in
       list_set x i (xi / mget a i i))
    (rev (seq 0 m)) x.

(** slopecalibrationdialog.cpp:365-397 *)
Definition gaussEliminationLS (m n : nat) (a : matrix) (x : list T)
  : list T :=
  let a :=
    fold_left (fun a i => eliminate m (pivot m a i) i) (seq 0 (m - 1)) a in
  back_substitute m n a x.

(** slopecalibrationdialog.cpp:323-351: the sums [X], the right-hand side
    [Y] and the normal augmented matrix [B] built from them. *)
Definition normal_matrix (n : nat) (xList yList : list F) : matrix :=
  (* N, Sig xi, Sig xi^2, ... *)
  let X :=
    map (fun i =>
           fold_left
             (fun acc xj => acc + t_pow FA (t_widen FA xj) (Z.of_nat i))
             xList (t_zero FA))
        (seq 0 (2 * n + 1)) in
  (* rhs *)
  let Y :=
    map (fun i =>
           fold_left
             (fun acc p =>
                acc + t_pow FA (t_widen FA (fst p)) (Z.of_nat i)
                      * t_widen FA (snd p))
             (combine xList yList) (t_zero FA))
        (seq 0 (n + 1)) in
  map (fun i =>
         map (fun j => nth (i + j)%nat X (t_unset FA)) (seq 0 (n + 1))
         ++ [nth i Y (t_unset FA)])
      (seq 0 (n + 1)).

(** slopecalibrationdialog.cpp:308-363 *)
Definition polyfit (xList yList : list F) : F * F * F :=
  if Nat.eqb (length xList) 0
     || negb (Nat.eqb (length xList) (length yList))
  then (t_nan FA, t_nan FA, t_nan FA)
  else
    (* Degree of polynomial *)
    let n := 2%nat in
    (* The normal augmented matrix *)
    let B := normal_matrix n xList yList in
    let A :=
      gaussEliminationLS (n + 1) (n + 2) B (repeat (t_unset FA) (n + 1)) in
    (t_narrow FA (nth 0 A (t_unset FA)),
     t_narrow FA (nth 1 A (t_unset FA)),
     t_narrow FA (nth 2 A (t_unset FA))).
End LeastSquares.

(** *** Vocabulary for statements about the fit in exact arithmetic *)

(** The determinant of a 3 x 3 matrix, by rows. *)
Definition det3 (a00 a01 a02 a10 a11 a12 a20 a21 a22 : R) : R :=
  (a00 * (a11 * a22 - a12 * a21) - a01 * (a10 * a22 - a12 * a20)
   + a02 * (a10 * a21 - a11 * a20))%R.

(** The sum of [f] over a list. *)
Definition Rsum {A : Type} (f : A -> R) (l : list A) : R :=
  fold_right (fun a acc => (f a + acc)%R) 0%R l.

(** The determinant of the matrix of the normal equations of a quadratic
    fit to the abscissas [xs]: entry (i, j) is the sum of the x^(i+j). *)
Definition normal_det (xs : list R) : R :=
  let X k := Rsum (fun x => pow x k) xs in
  det3 (X 0%nat) (X 1%nat) (X 2%nat)
       (X 1%nat) (X 2%nat) (X 3%nat)
       (X 2%nat) (X 3%nat) (X 4%nat).

(** The quadratic with coefficients [c], lowest degree first. *)
Definition quadratic (c : R * R * R) (x : R) : R :=
  let '(c0, c1, c2) := c in (c0 + c1 * x + c2 * (x * x))%R.

(** The sum over the points (x, y) of the squared distance between the
    quadratic [c] at x and y. *)
Definition squared_error (c : R * R * R) (xs ys : list R) : R :=
  Rsum (fun p => Rsqr (quadratic c (fst p) - snd p)) (combine xs ys).

Section SlopeCalibrationDialog.
Context {L : Libm}.

(** slopecalibrationdialog.cpp:429-442 *)
Definition itemValueAsFloat (d : dialog) (row col : nat) : float :=
  match nth_error (model_ d) row with
  | Some (c0, c1) =>
      match (if Nat.eqb col 0 then c0 else c1) with
      | Some value => value
      | None => qQNaN
      end
  | None => qQNaN
  end.

(** The [for] loop of slopecalibrationdialog.cpp:272-293, with [n] rows
    still to visit starting at [row]. *)
Fixpoint collect_rows (d : dialog) (n row : nat)
    (xList yList : list float) (base_measurement : float)
  : list float * list float :=
  match n with
  | O => (xList, yList)
  | S n' =>
      let density := itemValueAsFloat d row 0 in
      let measurement := itemValueAsFloat d row 1 in
      if F32.isnanf density || F32.isnanf measurement
      then (xList, yList)
      else if Nat.eqb row 0 then
        if F32.ltb density (F32.lit 0 1)
           || F32.gtb density (F32.lit 1 1000)
        then (xList, yList)
        else
          let x := log10f measurement in
          collect_rows d n' (S row) (xList ++ [x]) (yList ++ [x])
            measurement
      else
        let x := log10f measurement in
        let y := log10f (F32.div base_measurement
                           (powf (F32.lit 10 1) density)) in
        collect_rows d n' (S row) (xList ++ [x]) (yList ++ [y])
          base_measurement
  end.

(** slopecalibrationdialog.cpp:265-306 *)
Definition onCalculateResults (d : dialog) : dialog :=
  let '(xList, yList) :=
    collect_rows d (length (model_ d)) 0 [] [] F32.NAN in
  if (length xList <? 5)%nat then d
  else
    let beta := polyfit f64_fit xList yList in
    {| model_ := model_ d; calValues_ := beta; okEnabled := true |}.

(** *** Vocabulary for statements about the fit *)

Definition cell_value (c : cell) : float :=
match c with Some value => value | None => qQNaN end.

(** Both the density and the reading of a row are present. *)
Definition row_present (r : cell * cell) : bool :=
negb (F32.isnanf (cell_value (fst r)))
&& negb (F32.isnanf (cell_value (snd r))).

(** The (density, reading) pairs of the longest run of rows, from the top
    of the table, in which both values are present. *)
Fixpoint present_prefix (rows : list (cell * cell)) : list (float * float) :=
match rows with
| [] => []
| r :: rest =>
    if row_present r
    then (cell_value (fst r), cell_value (snd r)) :: present_prefix rest
    else []
end.

(** The two series handed to the fit, in the specification's words: row 0
    must have a density within [0, 0.001] and anchors both series at the
    logarithm of its reading; row i > 0 contributes x = log10(reading_i)
    and y = log10(row0_reading / 10^density_i). *)
Definition fit_series (rows : list (cell * cell))
  : list float * list float :=
match present_prefix rows with
| [] => ([], [])
| (density0, reading0) :: rest =>
    if F32.ltb density0 (F32.lit 0 1) || F32.gtb density0 (F32.lit 1 1000)
    then ([], [])
    else
      (log10f reading0 :: map (fun r => log10f (snd r)) rest,
       log10f reading0
         :: map (fun r =>
                   log10f (F32.div reading0 (powf (F32.lit 10 1) (fst r))))
              rest)
end.
End SlopeCalibrationDialog.

(* ================================================================= *)
(** ** Sample parameters

    Concrete values for the parameters of the model, used to run the code
    on examples.  light.h and tsl2591.h are not among the sources: the
    idle level is an arbitrary non-zero brightness, the sensor constants
    are the figures of the TSL2591 data sheet. *)

Definition sample_light : LightConsts := {|
  LIGHT_REFLECTION_IDLE := 8;
  LIGHT_TRANSMISSION_IDLE := 8
|}.

Definition sample_consts : Tsl2591Consts := {|
  TSL2591_ANALOG_SATURATION := 36863;
  TSL2591_DIGITAL_SATURATION := 65535;
  TSL2591_GAIN_MEDIUM_MIN := F32.lit 22 1;
  TSL2591_GAIN_MEDIUM_TYP := F32.lit 245 10;
  TSL2591_GAIN_MEDIUM_MAX := F32.lit 27 1;
  TSL2591_GAIN_HIGH_MIN := F32.lit 360 1;
  TSL2591_GAIN_HIGH_TYP := F32.lit 400 1;
  TSL2591_GAIN_HIGH_MAX := F32.lit 440 1;
  TSL2591_GAIN_MAXIMUM_CH0_MIN := F32.lit 8500 1;
  TSL2591_GAIN_MAXIMUM_CH0_TYP := F32.lit 9200 1;
  TSL2591_GAIN_MAXIMUM_CH0_MAX := F32.lit 9900 1;
  TSL2591_GAIN_MAXIMUM_CH1_MIN := F32.lit 9100 1;
  TSL2591_GAIN_MAXIMUM_CH1_TYP := F32.lit 9900 1;
  TSL2591_GAIN_MAXIMUM_CH1_MAX := F32.lit 10700 1
|}.

(** A settings store holding the given calibration points. *)
Definition settings_of (lo hi : float * float) (zero : float)
    (thi : float * float) : settings_t := {|
  cal_reflection_lo := lo;
  cal_reflection_hi := hi;
  cal_transmission_zero := zero;
  cal_transmission_hi := thi
|}.

(** A [sensor_read] that succeeds with the given basic counts, and one
    that fails. *)
Definition sensor_read_ok (ch0 ch1 : float)
  : Z -> HAL_StatusTypeDef * (float * float) :=
  fun _ => (HAL_OK, (ch0, ch1)).
Definition sensor_read_fail
  : Z -> HAL_StatusTypeDef * (float * float) :=
  fun _ => (HAL_ERROR, (F32.NAN, F32.NAN)).

(** Section 8 of the specification: reflection lo = (0.00, 500000),
    hi = (2.00, 5000); transmission zero = 1000000, hi = (3.00, 1000). *)
Definition scenario_settings : settings_t :=
  settings_of (F32.lit 0 100, F32.of_Z 500000) (F32.lit 200 100, F32.of_Z 5000)
    (F32.of_Z 1000000) (F32.lit 300 100, F32.of_Z 1000).

(** A reflection calibration whose CAL-HI reading is negative:
    lo = (0.00, 5), hi = (1.00, -1). *)
Definition negative_hi_settings : settings_t :=
  settings_of (F32.lit 0 100, F32.of_Z 5) (F32.lit 100 100, F32.of_Z (-1))
    F32.NAN (F32.NAN, F32.NAN).

(** A reflection calibration whose two readings are neighbouring floats:
    lo = (0.00, 500000), hi = (2.00, 499999.96875). *)
Definition adjacent_settings : settings_t :=
  settings_of (F32.lit 0 100, F32.of_Z 500000)
    (F32.lit 200 100, S754_finite false 15999999 (-5))
    F32.NAN (F32.NAN, F32.NAN).

(** A store in which nothing has been calibrated: every value zero. *)
Definition blank_settings : settings_t :=
  settings_of (F32.zero, F32.zero) (F32.zero, F32.zero)
    F32.zero (F32.zero, F32.zero).

(** A device that has measured before: valid calibration, both stored
    readings at 1.50, lights at idle. *)
Definition used_state : dstate := {|
  settings := scenario_settings;
  densitometer_reflection_d := F32.lit 150 100;
  densitometer_transmission_d := F32.lit 150 100;
  light_reflection := 8;
  light_transmission := 8;
  light_calls := []
|}.

(** The world before sensor.c has done anything; the persisted tables hold
    the given values. *)
Definition world_init (light : settings_cal_light_t)
    (gains : settings_cal_gain_t) : world := {|
  w_readings := 0; w_configs := 0; w_starts := 0; w_callbacks := 0;
  w_trace := [];
  w_cal_light := light;
  w_cal_gain := gains
|}.

Definition factory_light : settings_cal_light_t :=
  {| cal_light_reflection := 128; cal_light_transmission := 128 |}.

(** The typical gains of [sample_consts]. *)
Definition factory_gains : settings_cal_gain_t := {|
  ch0_medium := F32.lit 245 10; ch1_medium := F32.lit 245 10;
  ch0_high := F32.lit 400 1; ch1_high := F32.lit 400 1;
  ch0_maximum := F32.lit 9200 1; ch1_maximum := F32.lit 9900 1
|}.

Definition sample_reading (ch0 ch1 : Z) : sensor_reading_t := {|
  ch0_val := ch0; ch1_val := ch1;
  gain := TSL2591_GAIN_HIGH; time := TSL2591_TIME_200MS;
  reading_ticks := 0; reading_count := 0
|}.

(** A well-behaved environment: every driver call succeeds, there is no
    progress callback, the settings store accepts writes, and the k-th
    reading carries the channel values [counts k]. *)
Definition env_of (counts : nat -> Z * Z) : env := {|
  env_next_reading := fun k =>
    (osOK, sample_reading (fst (counts k)) (snd (counts k)));
  env_set_config := fun _ _ _ => osOK;
  env_start := fun _ => osOK;
  env_callback := None;
  env_settings_write := true;
  env_indeterminate := F32.zero
|}.

(** Steady light: every reading is (3000, 1000). *)
Definition steady_env : env := env_of (fun _ => (3000, 1000)).

(** Steady light except for one glare: the reading answered to call
    [k] is saturated at (65535, 65535). *)
Definition glare_env (k : nat) : env :=
  env_of (fun i => if Nat.eqb i k then (65535, 65535) else (3000, 1000)).

(** Light that fades from saturation: the k-th reading is
    (65535 - 1000 k, 1000). *)
Definition fading_env : env :=
  env_of (fun k => (65535 - Z.of_nat k * 1000, 1000)).

(** A sensor that never answers: every wait for a reading times out. *)
Definition timeout_env : env := {|
  env_next_reading := fun _ => (osErrorTimeout, sample_reading 0 0);
  env_set_config := fun _ _ _ => osOK;
  env_start := fun _ => osOK;
  env_callback := None;
  env_settings_write := true;
  env_indeterminate := F32.zero
|}.

Definition NAN_gains : settings_cal_gain_t := {|
  ch0_medium := F32.NAN; ch1_medium := F32.NAN;
  ch0_high := F32.NAN; ch1_high := F32.NAN;
  ch0_maximum := F32.NAN; ch1_maximum := F32.NAN
|}.

(** A table row holding the density [n/100] and the reading [r]. *)
Definition wedge_row (n r : Z) : cell * cell :=
  (Some (F32.lit n 100), Some (F32.of_Z r)).

(** A 22-row table starting with the given rows, the rest empty. *)
Definition wedge_table (rows : list (cell * cell)) : list (cell * cell) :=
  rows ++ repeat (None, None) (22 - length rows).

(** Section 8 of the specification: a perfectly log-linear step wedge of
    five rows, and the same without its last row. *)
Definition wedge5 : list (cell * cell) :=
  wedge_table [wedge_row 0 1000000; wedge_row 30 501187;
               wedge_row 60 251189; wedge_row 100 100000;
               wedge_row 150 31623].
Definition wedge4 : list (cell * cell) :=
  wedge_table [wedge_row 0 1000000; wedge_row 30 501187;
               wedge_row 60 251189; wedge_row 100 100000].

(* ================================================================= *)
(** * Properties *)

(** ** Comparisons of floats *)

Lemma SFcompare_antisym (x y : float) :
  SFcompare y x = option_map CompOpp (SFcompare x y).
Proof.
  destruct x as [sx | sx | | sx mx ex], y as [sy | sy | | sy my ey];
    simpl; try reflexivity;
    try (destruct sx; reflexivity); try (destruct sy; reflexivity);
    try (destruct sx, sy; reflexivity).
  destruct sx, sy; simpl; try reflexivity;
    rewrite (Z.compare_antisym ex ey);
    destruct (ex ?= ey) eqn:He; simpl; try reflexivity;
    rewrite (Pos.compare_cont_antisym mx my Eq); simpl;
    try reflexivity;
    destruct (Pos.compare_cont Eq mx my); reflexivity.
Qed.

Lemma geb_not_ltb (x y : float) : F32.geb x y = true -> F32.ltb x y = false.
Proof.
  unfold F32.geb, F32.ltb, SFleb, SFltb.
  rewrite (SFcompare_antisym x y).
  destruct (SFcompare x y) as [[]|]; simpl; congruence.
Qed.

Lemma gtb_not_leb (x y : float) : F32.gtb x y = true -> F32.leb x y = false.
Proof.
  unfold F32.gtb, F32.leb, SFleb, SFltb.
  rewrite (SFcompare_antisym x y).
  destruct (SFcompare x y) as [[]|]; simpl; congruence.
Qed.

Lemma ltb_not_geb (x y : float) : F32.ltb x y = true -> F32.geb x y = false.
Proof.
  unfold F32.geb, F32.ltb, SFleb, SFltb.
  rewrite (SFcompare_antisym x y).
  destruct (SFcompare x y) as [[]|]; simpl; congruence.
Qed.

Lemma ltb_leb (x y : float) : F32.ltb x y = true -> F32.leb x y = true.
Proof.
  unfold F32.ltb, F32.leb, SFleb, SFltb.
  destruct (SFcompare x y) as [[]|]; congruence.
Qed.

(** With NaN on either side every comparison is false. *)
Lemma compare_nan_l (x : float) :
  F32.ltb F32.NAN x = false /\ F32.leb F32.NAN x = false
  /\ F32.gtb F32.NAN x = false /\ F32.geb F32.NAN x = false.
Proof. destruct x; repeat split; reflexivity. Qed.

(** A value whose magnitude is below a positive bound is itself below it. *)
Lemma fabsf_ltb (v c : float) :
  F32.ltb (F32.fabsf v) c = true -> F32.ltb v c = true.
Proof.
  unfold F32.ltb, F32.fabsf, SFltb.
  destruct v as [s | s | | s m e], c as [sc | sc | | sc mc ec];
    simpl; try discriminate; try (destruct s; simpl; congruence);
    try (destruct sc; simpl; congruence).
  all: destruct s, sc; simpl; try congruence.
Qed.

(** ** Logarithms in exact arithmetic *)

Lemma ln_10_pos : (0 < ln 10)%R.
Proof. rewrite <- ln_1. apply ln_increasing; lra. Qed.

Lemma Rlog10_increasing (x y : R) :
  (0 < x)%R -> (x < y)%R -> (Rlog10 x < Rlog10 y)%R.
Proof.
  intros Hx Hxy. unfold Rlog10.
  apply Rmult_lt_compat_r.
  - apply Rinv_0_lt_compat, ln_10_pos.
  - now apply ln_increasing.
Qed.

Lemma Rlog10_neg (x : R) : (0 < x)%R -> (x < 1)%R -> (Rlog10 x < 0)%R.
Proof.
  intros Hx Hx1.
  replace 0%R with (Rlog10 1).
  - now apply Rlog10_increasing.
  - unfold Rlog10. rewrite ln_1. unfold Rdiv. ring.
Qed.

(** In exact arithmetic the reflection line passes through both
    calibration points. *)
Lemma reflection_density_R_lo (lo_d lo hi_d hi : R) :
  reflection_density R_arith lo_d lo hi_d hi lo = lo_d.
Proof. unfold reflection_density; simpl. unfold Rdiv. ring. Qed.

Lemma reflection_density_R_hi (lo_d lo hi_d hi : R) :
  (0 < hi)%R -> (hi < lo)%R ->
  reflection_density R_arith lo_d lo hi_d hi hi = hi_d.
Proof.
  intros Hhi Hlt. unfold reflection_density; simpl.
  pose proof (Rlog10_increasing Hhi Hlt) as Hll.
  field. lra.
Qed.

(** In exact arithmetic a reading equal to the CAL-HI reading is reported
    at the CAL-HI density. *)
Lemma transmission_density_R_hi (zero hi_d hi : R) :
  (0 < hi)%R -> (hi < zero)%R ->
  transmission_density R_arith zero hi_d hi hi = hi_d.
Proof.
  intros Hhi Hlt. unfold transmission_density; simpl.
  assert (Hq : (Rlog10 (hi / zero) < 0)%R).
  { apply Rlog10_neg.
    - apply Rdiv_lt_0_compat; lra.
    - apply (Rmult_lt_reg_r zero); [lra|].
      unfold Rdiv. rewrite Rmult_assoc, Rinv_l; lra. }
  field. lra.
Qed.

(** ** Rounding error of the binary32 operations *)

Section RoundingError.
Local Open Scope R_scope.

Lemma pow2_pos (e : Z) : 0 < pow2 e.
Proof. apply powerRZ_lt. lra. Qed.

Lemma pow2_add (a b : Z) : pow2 (a + b) = pow2 a * pow2 b.
Proof. apply powerRZ_add. lra. Qed.

Lemma pow2_IZR (k : Z) : (0 <= k)%Z -> pow2 k = IZR (2 ^ k).
Proof.
  intros Hk. unfold pow2. destruct k as [| p | p]; [reflexivity | | lia].
  change (2 ^ Z.pos p)%Z with (Z.pow_pos 2 p).
  now rewrite Zpower_pos_powerRZ.
Qed.

Lemma pow2_ge_1 (k : Z) : (0 <= k)%Z -> 1 <= pow2 k.
Proof.
  intros Hk. rewrite pow2_IZR by assumption. apply IZR_le.
  pose proof (Z.pow_pos_nonneg 2 k). lia.
Qed.

Lemma pow2_le (a b : Z) : (a <= b)%Z -> pow2 a <= pow2 b.
Proof.
  intros H. replace b with (a + (b - a))%Z by lia. rewrite pow2_add.
  pose proof (pow2_pos a). pose proof (@pow2_ge_1 (b - a) ltac:(lia)). nra.
Qed.

Lemma pow2_opp (a : Z) : pow2 (- a) = / pow2 a.
Proof. apply powerRZ_neg'. Qed.

Lemma pow2_1 : pow2 1 = 2.
Proof. unfold pow2. simpl. lra. Qed.

Lemma pow2_succ (a : Z) : pow2 (a + 1) = 2 * pow2 a.
Proof. rewrite pow2_add, pow2_1. ring. Qed.

(** *** Number of binary digits *)

Lemma digits2_pos_bounds (m : positive) :
  (2 ^ (Zpos (digits2_pos m) - 1) <= Zpos m < 2 ^ Zpos (digits2_pos m))%Z.
Proof.
  induction m as [m IH | m IH |]; cbn [digits2_pos].
  - rewrite Pos2Z.inj_succ.
    replace (Z.succ (Zpos (digits2_pos m)) - 1)%Z
      with (Z.succ (Zpos (digits2_pos m) - 1)) by lia.
    rewrite !Z.pow_succ_r by lia. lia.
  - rewrite Pos2Z.inj_succ.
    replace (Z.succ (Zpos (digits2_pos m)) - 1)%Z
      with (Z.succ (Zpos (digits2_pos m) - 1)) by lia.
    rewrite !Z.pow_succ_r by lia. lia.
  - simpl. lia.
Qed.

Lemma digits2_lower (m : positive) :
  pow2 (Zpos (digits2_pos m) - 1) <= IZR (Zpos m).
Proof.
  rewrite pow2_IZR by lia. apply IZR_le. apply digits2_pos_bounds.
Qed.

Lemma digits2_upper (m : positive) :
  IZR (Zpos m) < pow2 (Zpos (digits2_pos m)).
Proof.
  rewrite pow2_IZR by lia. apply IZR_lt. apply digits2_pos_bounds.
Qed.

(** *** Shifting right *)

Lemma shr_1_located (x : R) (mrs : shr_record) :
  (0 <= shr_m mrs)%Z -> located x mrs ->
  located (x / 2) (shr_1 mrs) /\ (0 <= shr_m (shr_1 mrs))%Z.
Proof.
  destruct mrs as [m r s]. unfold located. cbn [shr_m shr_r shr_s].
  intros Hm H.
  destruct m as [| p | p]; [| | lia].
  - destruct r, s; cbn [shr_1 orb shr_m shr_r shr_s]; split; try lia; lra.
  - destruct p as [p | p |];
      cbn [shr_1 shr_m shr_r shr_s];
      try rewrite (Pos2Z.inj_xI p) in H;
      try rewrite (Pos2Z.inj_xO p) in H;
      try rewrite plus_IZR in H; try rewrite mult_IZR in H;
      destruct r, s; cbn [orb]; split; try lia; lra.
Qed.

Lemma iter_shr_1_located (p : positive) :
  forall (x : R) (mrs : shr_record),
    (0 <= shr_m mrs)%Z -> located x mrs ->
    located (x * pow2 (- Zpos p)) (iter_pos shr_1 p mrs)
    /\ (0 <= shr_m (iter_pos shr_1 p mrs))%Z.
Proof.
  assert (Hhalf : forall x, x / 2 = x * pow2 (- 1)).
  { intros x. unfold pow2. simpl. field. }
  induction p as [p IH | p IH |]; intros x mrs Hm H; cbn [iter_pos].
  - destruct (@shr_1_located _ _ Hm H) as [H1 Hm1].
    destruct (IH _ _ Hm1 H1) as [H2 Hm2].
    destruct (IH _ _ Hm2 H2) as [H3 Hm3].
    split; [| assumption].
    replace (x * pow2 (- Z.pos p~1))
      with (x / 2 * pow2 (- Z.pos p) * pow2 (- Z.pos p)); [assumption |].
    rewrite Hhalf, !Rmult_assoc, <- !pow2_add. f_equal. f_equal. lia.
  - destruct (IH _ _ Hm H) as [H2 Hm2].
    destruct (IH _ _ Hm2 H2) as [H3 Hm3].
    split; [| assumption].
    replace (x * pow2 (- Z.pos p~0))
      with (x * pow2 (- Z.pos p) * pow2 (- Z.pos p)); [assumption |].
    rewrite !Rmult_assoc, <- !pow2_add. f_equal. f_equal. lia.
  - rewrite <- Hhalf. now apply shr_1_located.
Qed.

(** A located real is within one unit above its mantissa. *)
Lemma located_bounds (x : R) (mrs : shr_record) :
  located x mrs -> IZR (shr_m mrs) <= x < IZR (shr_m mrs) + 1.
Proof.
  destruct mrs as [m r s]. unfold located. cbn [shr_m shr_r shr_s].
  destruct r, s; lra.
Qed.

Lemma round_nearest_even_error (x : R) (mrs : shr_record) :
  (0 <= shr_m mrs)%Z -> located x mrs ->
  let m1 := round_nearest_even (shr_m mrs) (loc_of_shr_record mrs) in
  Rabs (IZR m1 - x) <= / 2 /\ (shr_m mrs <= m1)%Z.
Proof.
  destruct mrs as [m r s]. unfold located. cbn [shr_m shr_r shr_s].
  intros Hm H.
  destruct r, s; cbn [loc_of_shr_record round_nearest_even];
    try destruct (Z.even m); try rewrite plus_IZR;
    (split; [apply Rabs_le; lra | lia]).
Qed.

(** *** Rounding a located mantissa to binary32 *)

Lemma shr_record_of_loc_m (m : Z) (l : location) :
  shr_m (shr_record_of_loc m l) = m.
Proof. destruct l as [| []]; reflexivity. Qed.

Lemma pow2_0 : pow2 0 = 1.
Proof. reflexivity. Qed.

Lemma shr_fexp_located (m e : Z) (l : location) (X : R) :
  (0 <= m)%Z -> located X (shr_record_of_loc m l) ->
  located (X * pow2 (e - snd (shr_fexp 24 128 m e l)))
    (fst (shr_fexp 24 128 m e l))
  /\ (0 <= shr_m (fst (shr_fexp 24 128 m e l)))%Z
  /\ snd (shr_fexp 24 128 m e l)
     = Z.max e (fexp 24 128 (Zdigits2 m + e)).
Proof.
  intros Hm H. unfold shr_fexp, shr.
  destruct (fexp 24 128 (Zdigits2 m + e) - e)%Z as [| n | n] eqn:Hn;
    cbn [fst snd].
  - rewrite Z.sub_diag, pow2_0, Rmult_1_r, shr_record_of_loc_m.
    repeat split; [assumption | assumption | lia].
  - rewrite <- (shr_record_of_loc_m m l) in Hm.
    destruct (@iter_shr_1_located n _ _ Hm H) as [H1 Hm1].
    replace (e - (e + Z.pos n))%Z with (- Z.pos n)%Z by lia.
    repeat split; [assumption | assumption | lia].
  - rewrite Z.sub_diag, pow2_0, Rmult_1_r, shr_record_of_loc_m.
    repeat split; [assumption | assumption | lia].
Qed.

Lemma fexp_ge_emin (k : Z) : (-149 <= fexp 24 128 k)%Z.
Proof. unfold fexp, emin. lia. Qed.

Lemma Zdigits2_nonneg (m : Z) : (0 <= Zdigits2 m)%Z.
Proof. destruct m; simpl; lia. Qed.

Lemma Zdigits2_lower (m : Z) :
  (0 < m)%Z -> pow2 (Zdigits2 m - 1) <= IZR m.
Proof.
  destruct m as [| p | p]; try lia. intros _. apply digits2_lower.
Qed.

(** The unit of the first rounding step against the rounded value [v]:
    unless the mantissa was exact and needed no shift, the unit is at most
    2^-23 v, or the smallest unit 2^-149. *)
Lemma first_unit_bound (mx ex : Z) (X : R) :
  (0 <= mx)%Z -> IZR mx <= X ->
  let e' := fexp 24 128 (Zdigits2 mx + ex) in
  (ex <= e')%Z ->
  pow2 e' <= pow2 (-149) + pow2 (-23) * (X * pow2 ex).
Proof.
  intros Hmx HX e' He.
  pose proof (pow2_pos (-149)) as Ha. pose proof (pow2_pos (-23)) as Hu.
  pose proof (pow2_pos ex) as Hex.
  assert (HX0 : 0 <= X) by (apply Rle_trans with (IZR mx); [apply IZR_le|]; assumption).
  assert (Hv0 : 0 <= X * pow2 ex) by nra.
  destruct (Z.eq_dec e' (-149)) as [Heq | Hne].
  - rewrite Heq. nra.
  - assert (He' : e' = (Zdigits2 mx + ex - 24)%Z).
    { unfold e', fexp, emin in *. lia. }
    assert (Hpos : (0 < mx)%Z).
    { destruct mx as [| p | p]; [| lia | lia]. simpl in He'. lia. }
    pose proof (@Zdigits2_lower _ Hpos) as Hd.
    replace e' with (-23 + ((Zdigits2 mx - 1) + ex))%Z by lia.
    rewrite !pow2_add.
    assert (pow2 (Zdigits2 mx - 1) * pow2 ex <= X * pow2 ex) by nra.
    nra.
Qed.

Lemma Rabs_le_bounds (a b : R) : Rabs a <= b -> - b <= a <= b.
Proof. unfold Rabs. destruct (Rcase_abs a); lra. Qed.

Lemma cond_Ropp_minus (s : bool) (x y : R) :
  Rabs (cond_Ropp s x - cond_Ropp s y) = Rabs (x - y).
Proof.
  destruct s; simpl; [| reflexivity].
  replace (- x - - y) with (- (x - y)) by ring. apply Rabs_Ropp.
Qed.

(** [binary_round_aux] on a mantissa [mx] located at [X], scaled by
    2^[ex]: a finite result is within 2^-22 X 2^ex + 2^-149 of the value it
    rounds. *)
Lemma binary_round_aux_error (sx : bool) (mx ex : Z) (lx : location)
    (X : R) :
  (0 <= mx)%Z -> located X (shr_record_of_loc mx lx) ->
  lx = loc_Exact \/ (ex <= fexp 24 128 (Zdigits2 mx + ex))%Z ->
  F32.is_finite (binary_round_aux 24 128 sx mx ex lx) = true ->
  Rabs (real_of_float (binary_round_aux 24 128 sx mx ex lx)
        - cond_Ropp sx (X * pow2 ex))
  <= pow2 (-22) * (X * pow2 ex) + pow2 (-149).
Proof.
  intros Hmx HX Hshape Hfin.
  pose proof (@located_bounds _ _ HX) as HXb.
  rewrite shr_record_of_loc_m in HXb.
  assert (HX0 : 0 <= X).
  { apply Rle_trans with (IZR mx); [apply IZR_le; assumption | lra]. }
  unfold binary_round_aux in *.
  destruct (@shr_fexp_located _ ex _ _ Hmx HX) as (H1 & Hm1 & He1).
  destruct (shr_fexp 24 128 mx ex lx) as [mrs' e'] eqn:E1.
  cbn [fst snd] in H1, Hm1, He1.
  destruct (@round_nearest_even_error _ _ Hm1 H1) as [Hr Hle].
  set (m1 := round_nearest_even (shr_m mrs') (loc_of_shr_record mrs')) in *.
  cbv zeta in Hr, Hle.
  assert (Hm1' : (0 <= m1)%Z) by lia.
  assert (Hm1x : located (IZR m1) (shr_record_of_loc m1 loc_Exact))
    by reflexivity.
  destruct (@shr_fexp_located _ e' _ _ Hm1' Hm1x) as (H2 & Hm2 & He2).
  destruct (shr_fexp 24 128 m1 e' loc_Exact) as [mrs'' e''] eqn:E2.
  cbn [fst snd] in H2, Hm2, He2.
  pose proof (@located_bounds _ _ H2) as H2b.
  set (m2 := shr_m mrs'') in *.
  (* the value of the result *)
  match goal with
  | |- context [real_of_float ?z] =>
      assert (Hval : real_of_float z = cond_Ropp sx (IZR m2 * pow2 e''))
  end.
  { destruct m2 as [| p | p]; [| | lia].
    - simpl. destruct sx; simpl; ring.
    - destruct (e'' <=? 128 - 24)%Z; [reflexivity | discriminate Hfin]. }
  rewrite Hval, cond_Ropp_minus. clear Hval Hfin.
  pose proof (pow2_pos e') as Pe'. pose proof (pow2_pos e'') as Pe''.
  pose proof (pow2_pos ex) as Pex.
  pose proof (pow2_pos (-149)) as Pa. pose proof (pow2_pos (-23)) as Pu.
  assert (Hu1 : pow2 (-23) <= / 8).
  { unfold pow2. simpl. lra. }
  assert (H22 : pow2 (-22) = 2 * pow2 (-23)).
  { change (-22)%Z with (-23 + 1)%Z. apply pow2_succ. }
  (* the value in units of 2^e' *)
  set (v := X * pow2 ex) in *.
  assert (Hv : v = X * pow2 (ex - e') * pow2 e').
  { unfold v. rewrite Rmult_assoc, <- pow2_add. do 2 f_equal. lia. }
  set (X' := X * pow2 (ex - e')) in *.
  (* first rounding *)
  assert (HE1 : Rabs (IZR m1 * pow2 e' - v)
                <= / 2 * (pow2 (-149) + pow2 (-23) * v)).
  { assert (Hdiff : IZR m1 * pow2 e' - v = (IZR m1 - X') * pow2 e').
    { rewrite Hv. ring. }
    rewrite Hdiff, Rabs_mult, (Rabs_pos_eq (pow2 e')) by lra.
    pose proof (Rabs_pos (IZR m1 - X')) as Hr0.
    assert (Hv0 : 0 <= v) by (unfold v; nra).
    assert (Hshift : (ex <= fexp 24 128 (Zdigits2 mx + ex))%Z ->
                     Rabs (IZR m1 - X') * pow2 e'
                     <= / 2 * (pow2 (-149) + pow2 (-23) * v)).
    { intros Hs.
      pose proof (@first_unit_bound _ ex _ Hmx (proj1 HXb) Hs) as Hb.
      cbv zeta in Hb. fold v in Hb.
      replace (fexp 24 128 (Zdigits2 mx + ex)) with e' in Hb by lia.
      nra. }
    destruct Hshape as [-> | Hsh]; [| now apply Hshift].
    destruct (Z_le_gt_dec ex (fexp 24 128 (Zdigits2 mx + ex))) as [Hs | Hs];
      [now apply Hshift |].
    (* no shift, exact: nothing is rounded *)
    unfold shr_fexp, shr in E1.
    destruct (fexp 24 128 (Zdigits2 mx + ex) - ex)%Z eqn:Hn; try lia.
    injection E1 as <- <-.
    unfold m1, X'.
    cbn [shr_record_of_loc shr_m loc_of_shr_record round_nearest_even].
    cbn in HX. rewrite HX, Z.sub_diag, pow2_0, Rmult_1_r.
    replace (IZR mx - IZR mx) with 0 by ring. rewrite Rabs_R0. nra. }
  (* second shift *)
  assert (HE2 : Rabs (IZR m2 * pow2 e'' - IZR m1 * pow2 e')
                <= pow2 (-23) * (IZR m1 * pow2 e')).
  { assert (Hm1e : IZR m1 * pow2 e'
                   = IZR m1 * pow2 (e' - e'') * pow2 e'').
    { rewrite Rmult_assoc, <- pow2_add. do 2 f_equal. lia. }
    assert (0 <= IZR m1) by (apply IZR_le; assumption).
    assert (0 <= IZR m1 * pow2 e') by nra.
    destruct (Z_le_gt_dec e'' e') as [Hs | Hs].
    - assert (Hee : e'' = e') by lia.
      assert (Hm2eq : m2 = m1).
      { unfold m2. unfold shr_fexp, shr in E2.
        destruct (fexp 24 128 (Zdigits2 m1 + e') - e')%Z eqn:Hn; try lia;
          injection E2 as <-; reflexivity. }
      rewrite Hee.
      rewrite Hm2eq.
      replace (IZR m1 * pow2 e' - IZR m1 * pow2 e') with 0 by ring.
      rewrite Rabs_R0. nra.
    - assert (He'' : e'' = (Zdigits2 m1 + e' - 24)%Z).
      { pose proof (fexp_ge_emin (Zdigits2 mx + ex)).
        unfold fexp, emin in *. lia. }
      assert (Hpos : (0 < m1)%Z).
      { destruct m1 as [| p | p]; [| lia | lia]. simpl in He''. lia. }
      pose proof (@Zdigits2_lower _ Hpos) as Hd.
      assert (Hunit : pow2 e'' <= pow2 (-23) * (IZR m1 * pow2 e')).
      { replace e'' with (-23 + ((Zdigits2 m1 - 1) + e'))%Z by lia.
        rewrite !pow2_add.
        assert (pow2 (Zdigits2 m1 - 1) * pow2 e' <= IZR m1 * pow2 e')
          by nra.
        nra. }
      rewrite Hm1e.
      replace (IZR m2 * pow2 e'' - IZR m1 * pow2 (e' - e'') * pow2 e'')
        with ((IZR m2 - IZR m1 * pow2 (e' - e'')) * pow2 e'') by ring.
      rewrite Rabs_mult, (Rabs_pos_eq (pow2 e'')) by lra.
      assert (Rabs (IZR m2 - IZR m1 * pow2 (e' - e'')) <= 1).
      { apply Rabs_le. lra. }
      rewrite <- Hm1e. nra. }
  (* together *)
  assert (Hv0 : 0 <= v) by (unfold v; nra).
  apply Rabs_le_bounds in HE1.
  assert (Hm1v : 0 <= IZR m1 * pow2 e').
  { assert (0 <= IZR m1) by (apply IZR_le; assumption). nra. }
  apply Rabs_le_bounds in HE2.
  apply Rabs_le. rewrite H22.
  split; nra.
Qed.

(** *** The four operations *)

Lemma cond_Ropp_mul (s1 s2 : bool) (x y : R) :
  cond_Ropp s1 x * cond_Ropp s2 y = cond_Ropp (xorb s1 s2) (x * y).
Proof. destruct s1, s2; simpl; ring. Qed.

Lemma Rabs_cond_Ropp (s : bool) (x : R) : Rabs (cond_Ropp s x) = Rabs x.
Proof. destruct s; simpl; [apply Rabs_Ropp | reflexivity]. Qed.

Lemma cond_Ropp_IZR (s : bool) (m : Z) :
  cond_Ropp s (IZR m) = IZR (cond_Zopp s m).
Proof. destruct s; simpl; [now rewrite opp_IZR | reflexivity]. Qed.

Lemma SFmul_error (x y : float) :
  F32.is_finite (SFmul 24 128 x y) = true ->
  Rabs (real_of_float (SFmul 24 128 x y) - real_of_float x * real_of_float y)
  <= pow2 (-22) * Rabs (real_of_float x * real_of_float y) + pow2 (-149).
Proof.
  pose proof (pow2_pos (-149)) as Pa.
  destruct x as [sx | sx | | sx mx ex], y as [sy | sy | | sy my ey];
    try discriminate; cbn [SFmul real_of_float];
    try (intros _; rewrite ?Rmult_0_l, ?Rmult_0_r, Rminus_diag, Rabs_R0;
         lra).
  intros Hfin.
  rewrite cond_Ropp_mul, Rabs_cond_Ropp.
  replace (IZR (Z.pos mx) * pow2 ex * (IZR (Z.pos my) * pow2 ey))
    with (IZR (Z.pos (mx * my)) * pow2 (ex + ey)).
  2:{ rewrite Pos2Z.inj_mul, mult_IZR, pow2_add. ring. }
  rewrite (Rabs_pos_eq (IZR (Z.pos (mx * my)) * pow2 (ex + ey))).
  2:{ pose proof (pow2_pos (ex + ey)).
      assert (0 < IZR (Z.pos (mx * my))) by (apply IZR_lt; lia). nra. }
  apply binary_round_aux_error; try assumption.
  - lia.
  - reflexivity.
  - now left.
Qed.

(** Aligning a mantissa to a smaller exponent keeps the value. *)
Lemma iter_xO (m d : positive) :
  Zpos (Pos.iter xO m d) = (Zpos m * 2 ^ Zpos d)%Z.
Proof.
  induction d as [| d IH] using Pos.peano_ind.
  - simpl. lia.
  - rewrite Pos.iter_succ, Pos2Z.inj_xO, IH, Pos2Z.inj_succ,
      Z.pow_succ_r by lia. ring.
Qed.

Lemma shl_align_value (m : positive) (e e' : Z) :
  IZR (Zpos (fst (shl_align m e e'))) * pow2 (snd (shl_align m e e'))
  = IZR (Zpos m) * pow2 e.
Proof.
  unfold shl_align.
  destruct (e' - e)%Z as [| d | d] eqn:Hd; cbn [fst snd]; try reflexivity.
  rewrite iter_xO, mult_IZR, <- pow2_IZR by lia.
  rewrite Rmult_assoc, <- pow2_add. do 2 f_equal. lia.
Qed.

Lemma shl_align_exponent (m : positive) (e e' : Z) :
  (e' <= e)%Z -> snd (shl_align m e e') = e'.
Proof.
  intros H. unfold shl_align.
  destruct (e' - e)%Z as [| d | d] eqn:Hd; cbn [snd]; lia.
Qed.

Lemma binary_round_error (s : bool) (m : positive) (e : Z) :
  F32.is_finite (binary_round 24 128 s m e) = true ->
  Rabs (real_of_float (binary_round 24 128 s m e)
        - cond_Ropp s (IZR (Zpos m) * pow2 e))
  <= pow2 (-22) * (IZR (Zpos m) * pow2 e) + pow2 (-149).
Proof.
  unfold binary_round.
  pose proof (shl_align_value m e
                (fexp 24 128 (Z.pos (digits2_pos m) + e))) as Hv.
  destruct (shl_align m e (fexp 24 128 (Z.pos (digits2_pos m) + e)))
    as [mz ez].
  cbn [fst snd] in Hv. rewrite <- Hv. intros Hfin.
  apply binary_round_aux_error; try assumption.
  - lia.
  - reflexivity.
  - now left.
Qed.

Lemma binary_normalize_error (m e : Z) (sz : bool) :
  F32.is_finite (binary_normalize 24 128 m e sz) = true ->
  Rabs (real_of_float (binary_normalize 24 128 m e sz) - IZR m * pow2 e)
  <= pow2 (-22) * Rabs (IZR m * pow2 e) + pow2 (-149).
Proof.
  pose proof (pow2_pos (-149)) as Pa. pose proof (pow2_pos e) as Pe.
  destruct m as [| p | p]; cbn [binary_normalize].
  - intros _. cbn [real_of_float]. rewrite Rmult_0_l, Rminus_diag, Rabs_R0. lra.
  - intros Hfin.
    assert (0 < IZR (Z.pos p)) by (apply IZR_lt; lia).
    rewrite (Rabs_pos_eq (IZR (Z.pos p) * pow2 e)) by nra.
    apply (binary_round_error false p e Hfin).
  - intros Hfin.
    assert (0 < IZR (Z.pos p)) by (apply IZR_lt; lia).
    change (Z.neg p) with (- Z.pos p)%Z. rewrite opp_IZR.
    replace (- IZR (Z.pos p) * pow2 e) with (- (IZR (Z.pos p) * pow2 e))
      by ring.
    rewrite Rabs_Ropp, (Rabs_pos_eq (IZR (Z.pos p) * pow2 e)) by nra.
    apply (binary_round_error true p e Hfin).
Qed.

Lemma aligned_value (s : bool) (m : positive) (e ez : Z) :
  (ez <= e)%Z ->
  IZR (cond_Zopp s (Zpos (fst (shl_align m e ez)))) * pow2 ez
  = real_of_float (S754_finite s m e).
Proof.
  intros H. cbn [real_of_float].
  rewrite <- cond_Ropp_IZR, <- (shl_align_value m e ez),
    (shl_align_exponent m H).
  destruct s; simpl; ring.
Qed.

Lemma SFadd_error (x y : float) :
  F32.is_finite (SFadd 24 128 x y) = true ->
  Rabs (real_of_float (SFadd 24 128 x y) - (real_of_float x + real_of_float y))
  <= pow2 (-22) * Rabs (real_of_float x + real_of_float y) + pow2 (-149).
Proof.
  pose proof (pow2_pos (-149)) as Pa. pose proof (pow2_pos (-22)) as Pu.
  assert (Hexact : forall a : R, Rabs (a - a)
                                 <= pow2 (-22) * Rabs a + pow2 (-149)).
  { intros a. rewrite Rminus_diag, Rabs_R0.
    pose proof (Rabs_pos a). nra. }
  destruct x as [sx | sx | | sx mx ex], y as [sy | sy | | sy my ey];
    try discriminate; cbn [SFadd].
  - destruct sx, sy; intros _; cbn [real_of_float]; rewrite Rplus_0_l; apply Hexact.
  - intros _. replace (real_of_float (S754_zero sx) + real_of_float (S754_finite sy my ey))
      with (real_of_float (S754_finite sy my ey)) by (cbn [real_of_float]; ring).
    apply Hexact.
  - destruct sx, sy; discriminate.
  - intros _. replace (real_of_float (S754_finite sx mx ex) + real_of_float (S754_zero sy))
      with (real_of_float (S754_finite sx mx ex)) by (cbn [real_of_float]; ring).
    apply Hexact.
  - intros Hfin.
    rewrite <- (@aligned_value sx mx ex (Z.min ex ey) ltac:(lia)),
      <- (@aligned_value sy my ey (Z.min ex ey) ltac:(lia)).
    rewrite <- Rmult_plus_distr_r, <- plus_IZR.
    now apply binary_normalize_error.
Qed.

Lemma SFsub_error (x y : float) :
  F32.is_finite (SFsub 24 128 x y) = true ->
  Rabs (real_of_float (SFsub 24 128 x y) - (real_of_float x - real_of_float y))
  <= pow2 (-22) * Rabs (real_of_float x - real_of_float y) + pow2 (-149).
Proof.
  pose proof (pow2_pos (-149)) as Pa. pose proof (pow2_pos (-22)) as Pu.
  assert (Hexact : forall a : R, Rabs (a - a)
                                 <= pow2 (-22) * Rabs a + pow2 (-149)).
  { intros a. rewrite Rminus_diag, Rabs_R0.
    pose proof (Rabs_pos a). nra. }
  destruct x as [sx | sx | | sx mx ex], y as [sy | sy | | sy my ey];
    try discriminate; cbn [SFsub].
  - destruct sx, sy; intros _; cbn [real_of_float]; rewrite Rminus_diag;
      apply Hexact.
  - intros _.
    replace (real_of_float (S754_zero sx) - real_of_float (S754_finite sy my ey))
      with (real_of_float (S754_finite (negb sy) my ey))
      by (cbn [real_of_float]; destruct sy; simpl; ring).
    apply Hexact.
  - destruct sx, sy; discriminate.
  - intros _. replace (real_of_float (S754_finite sx mx ex) - real_of_float (S754_zero sy))
      with (real_of_float (S754_finite sx mx ex)) by (cbn [real_of_float]; ring).
    apply Hexact.
  - intros Hfin.
    rewrite <- (@aligned_value sx mx ex (Z.min ex ey) ltac:(lia)),
      <- (@aligned_value sy my ey (Z.min ex ey) ltac:(lia)).
    rewrite <- Rmult_minus_distr_r, <- minus_IZR.
    now apply binary_normalize_error.
Qed.

(** *** Division *)

Lemma new_location_located (q r my : Z) :
  (0 < my)%Z -> (0 <= r < my)%Z ->
  located (IZR q + IZR r / IZR my) (shr_record_of_loc q (new_location my r)).
Proof.
  intros Hmy Hr.
  assert (Pmy : 0 < IZR my) by (apply IZR_lt; assumption).
  set (rho := IZR r / IZR my).
  assert (Hrho : rho * IZR my = IZR r) by (unfold rho; field; lra).
  assert (Hcases :
    (r = 0%Z -> rho = 0)
    /\ ((0 < r)%Z -> 0 < rho)
    /\ ((2 * r < my)%Z -> rho < / 2)
    /\ ((2 * r = my)%Z -> rho = / 2)
    /\ ((2 * r > my)%Z -> / 2 < rho)
    /\ rho < 1).
  { repeat split.
    - intros ->. unfold rho, Rdiv. ring.
    - intros H. apply IZR_lt in H. nra.
    - intros H. apply IZR_lt in H. rewrite mult_IZR in H. nra.
    - intros H. apply (f_equal IZR) in H. rewrite mult_IZR in H. nra.
    - intros H. apply Z.gt_lt, IZR_lt in H. rewrite mult_IZR in H. nra.
    - destruct Hr as [_ H]. apply IZR_lt in H. nra. }
  destruct Hcases as (H0 & Hpos & Hlt & Heq & Hgt & H1).
  unfold new_location.
  destruct (Z.even my) eqn:Heven;
    unfold new_location_even, new_location_odd;
    destruct (Z.eqb_spec r 0) as [Hr0 | Hr0].
  - unfold located; cbn. rewrite (H0 Hr0). ring.
  - assert (Hrp : 0 < rho) by (apply Hpos; lia).
    destruct (Z.compare_spec (2 * r) my) as [Hc | Hc | Hc];
      unfold located; cbn.
    + rewrite (Heq Hc). ring.
    + specialize (Hlt Hc). lra.
    + specialize (Hgt ltac:(lia)). lra.
  - unfold located; cbn. rewrite (H0 Hr0). ring.
  - assert (Hrp : 0 < rho) by (apply Hpos; lia).
    assert (Hodd : (2 * r <> my)%Z).
    { intros <-. rewrite Z.even_mul in Heven. discriminate Heven. }
    destruct (Z.compare_spec (2 * r + 1) my) as [Hc | Hc | Hc];
      unfold located; cbn.
    + specialize (Hlt ltac:(lia)). lra.
    + specialize (Hlt ltac:(lia)). lra.
    + specialize (Hgt ltac:(lia)). lra.
Qed.

Lemma fexp_monotone (a b : Z) :
  (a <= b)%Z -> (fexp 24 128 a <= fexp 24 128 b)%Z.
Proof. unfold fexp. lia. Qed.

Lemma Zdigits2_ge (q k : Z) :
  (0 <= q)%Z -> (1 <= k)%Z -> (2 ^ (k - 1) <= q)%Z -> (k <= Zdigits2 q)%Z.
Proof.
  intros Hq Hk H.
  destruct q as [| p | p]; [| | lia].
  - pose proof (Z.pow_pos_nonneg 2 (k - 1)). lia.
  - cbn [Zdigits2]. pose proof (digits2_pos_bounds p) as [_ Hu].
    assert (Hlt : (2 ^ (k - 1) < 2 ^ Z.pos (digits2_pos p))%Z) by lia.
    apply Z.pow_lt_mono_r_iff in Hlt; lia.
Qed.

Lemma SFdiv_core_binary_spec (mx my : positive) (ex ey : Z) :
  let '(q, e', l) := SFdiv_core_binary 24 128 (Zpos mx) ex (Zpos my) ey in
  (0 <= q)%Z
  /\ located (IZR (Zpos mx) * pow2 (ex - ey - e') / IZR (Zpos my))
       (shr_record_of_loc q l)
  /\ (e' <= fexp 24 128 (Zdigits2 q + e'))%Z.
Proof.
  unfold SFdiv_core_binary.
  set (d1 := Zdigits2 (Z.pos mx)). set (d2 := Zdigits2 (Z.pos my)).
  set (e' := Z.min (fexp 24 128 (d1 + ex - (d2 + ey))) (ex - ey)).
  set (s := (ex - ey - e')%Z).
  assert (Hs : (0 <= s)%Z) by (unfold s, e'; lia).
  set (m' := match s with
             | 0%Z => Z.pos mx
             | Z.pos _ => Z.shiftl (Z.pos mx) s
             | Z.neg _ => 0%Z
             end).
  assert (Hm' : m' = (Z.pos mx * 2 ^ s)%Z).
  { unfold m'. destruct s as [| p | p] eqn:Hsp; [simpl; lia | | lia].
    apply Z.shiftl_mul_pow2. lia. }
  pose proof (Z_div_mod m' (Z.pos my) ltac:(lia)) as Hdiv.
  destruct (Z.div_eucl m' (Z.pos my)) as [q r].
  destruct Hdiv as [Hqr Hr].
  assert (Hpow : (0 < 2 ^ s)%Z) by (apply Z.pow_pos_nonneg; lia).
  assert (Hq : (0 <= q)%Z) by nia.
  split; [assumption |]. split.
  - fold s.
    replace (IZR (Z.pos mx) * pow2 s / IZR (Z.pos my))
      with (IZR q + IZR r / IZR (Z.pos my)).
    + apply new_location_located; lia.
    + rewrite pow2_IZR, <- mult_IZR, <- Hm', Hqr, plus_IZR, mult_IZR
        by assumption.
      field. apply not_0_IZR. lia.
  - apply Z.le_trans with (fexp 24 128 (d1 + ex - (d2 + ey)));
      [unfold e'; lia |].
    apply fexp_monotone.
    destruct (Z_le_gt_dec (d1 - d2 + s) 0) as [Hk | Hk].
    + pose proof (Zdigits2_nonneg q). unfold s in *. lia.
    + assert (Hdq : (d1 - d2 + s <= Zdigits2 q)%Z); [| unfold s in *; lia].
      apply Zdigits2_ge; [assumption | lia |].
      pose proof (digits2_pos_bounds mx) as [Hl1 _].
      pose proof (digits2_pos_bounds my) as [_ Hu2].
      fold (Zdigits2 (Z.pos mx)) in Hl1. fold d1 in Hl1.
      fold (Zdigits2 (Z.pos my)) in Hu2. fold d2 in Hu2.
      assert (Hd2 : (0 < d2)%Z) by (unfold d2; simpl; lia).
      assert (Hd1 : (0 < d1)%Z) by (unfold d1; simpl; lia).
      set (k := (d1 - d2 + s - 1)%Z) in *.
      replace (d1 - d2 + s - 1)%Z with k by reflexivity.
      assert (Hk0 : (0 <= k)%Z) by (unfold k; lia).
      assert (Hsplit : (2 ^ (d1 - 1) * 2 ^ s = 2 ^ d2 * 2 ^ k)%Z).
      { rewrite <- !Z.pow_add_r by lia. f_equal. unfold k. lia. }
      assert (Pk : (0 < 2 ^ k)%Z) by (apply Z.pow_pos_nonneg; lia).
      assert (Hlt : (Z.pos my * 2 ^ k < Z.pos my * (q + 1))%Z) by nia.
      apply Z.mul_lt_mono_pos_l in Hlt; lia.
Qed.

Lemma SFdiv_error (x : float) (sy : bool) (my : positive) (ey : Z) :
  F32.is_finite (SFdiv 24 128 x (S754_finite sy my ey)) = true ->
  Rabs (real_of_float (SFdiv 24 128 x (S754_finite sy my ey))
        - real_of_float x / real_of_float (S754_finite sy my ey))
  <= pow2 (-22) * Rabs (real_of_float x / real_of_float (S754_finite sy my ey)) + pow2 (-149).
Proof.
  pose proof (pow2_pos (-149)) as Pa.
  destruct x as [sx | sx | | sx mx ex]; try discriminate; cbn [SFdiv].
  - intros _. cbn [real_of_float]. unfold Rdiv. rewrite Rmult_0_l, Rminus_diag, Rabs_R0.
    lra.
  - pose proof (SFdiv_core_binary_spec mx my ex ey) as Hspec.
    destruct (SFdiv_core_binary 24 128 (Z.pos mx) ex (Z.pos my) ey)
      as [[q e'] l].
    destruct Hspec as (Hq & Hloc & Hshape).
    intros Hfin.
    pose proof (pow2_pos ex). pose proof (pow2_pos ey). pose proof (pow2_pos e').
    assert (Pmx : 0 < IZR (Z.pos mx)) by (apply IZR_lt; lia).
    assert (Pmy : 0 < IZR (Z.pos my)) by (apply IZR_lt; lia).
    set (X := IZR (Z.pos mx) * pow2 (ex - ey - e') / IZR (Z.pos my)) in *.
    assert (HX : X * pow2 e'
                 = IZR (Z.pos mx) * pow2 ex / (IZR (Z.pos my) * pow2 ey)).
    { unfold X. replace (ex - ey - e')%Z with (ex + (- ey + - e'))%Z by lia.
      rewrite !pow2_add, !pow2_opp. field. lra. }
    assert (HXpos : 0 <= X * pow2 e').
    { rewrite HX. apply Rlt_le, Rdiv_lt_0_compat; nra. }
    replace (real_of_float (S754_finite sx mx ex) / real_of_float (S754_finite sy my ey))
      with (cond_Ropp (xorb sx sy) (X * pow2 e')).
    2:{ rewrite HX. cbn [real_of_float]. destruct sx, sy; simpl; field; lra. }
    rewrite Rabs_cond_Ropp, (Rabs_pos_eq _ HXpos).
    apply binary_round_aux_error; try assumption.
    now right.
Qed.

(** *** A line through two points, evaluated at the second *)

Lemma SFadd_finite (x y : float) :
  F32.is_finite (SFadd 24 128 x y) = true ->
  F32.is_finite x = true /\ F32.is_finite y = true.
Proof.
  destruct x as [sx | sx | | sx mx ex], y as [sy | sy | | sy my ey];
    cbn [SFadd F32.is_finite]; try (intros; split; reflexivity);
    try discriminate; destruct sx, sy; discriminate.
Qed.

Lemma SFmul_finite (x y : float) :
  F32.is_finite (SFmul 24 128 x y) = true ->
  F32.is_finite x = true /\ F32.is_finite y = true.
Proof.
  destruct x as [sx | sx | | sx mx ex], y as [sy | sy | | sy my ey];
    cbn [SFmul F32.is_finite]; try (intros; split; reflexivity);
    discriminate.
Qed.

Lemma SFdiv_finite (x y : float) :
  F32.is_finite (SFdiv 24 128 x y) = true -> F32.is_finite y = true ->
  exists sy my ey, y = S754_finite sy my ey.
Proof.
  destruct x as [sx | sx | | sx mx ex], y as [sy | sy | | sy my ey];
    cbn [SFdiv F32.is_finite]; try discriminate; intros _ _; eauto.
Qed.

Lemma Rabs_minus_le (x y : R) : Rabs (x - y) <= Rabs x + Rabs y.
Proof. unfold Rminus. rewrite <- (Rabs_Ropp y). apply Rabs_triang. Qed.

Lemma Rabs_le_add (x y : R) : Rabs x <= Rabs (x - y) + Rabs y.
Proof. replace x with (x - y + y) at 1 by ring. apply Rabs_triang. Qed.

Lemma line_through_hi (lo_d hi_d D : float) :
  let r := F32.add (F32.mul (F32.div (F32.sub hi_d lo_d) D) D) lo_d in
  F32.is_finite r = true ->
  Rabs (real_of_float r - real_of_float hi_d)
  <= pow2 (-19) * (Rabs (real_of_float hi_d) + Rabs (real_of_float lo_d))
     + pow2 (-146) * (1 + Rabs (real_of_float D)).
Proof.
  cbv zeta. unfold F32.add, F32.mul, F32.div, F32.sub, F32.prec, F32.emax.
  intros Hr.
  set (A := SFsub 24 128 hi_d lo_d) in *.
  set (m := SFdiv 24 128 A D) in *.
  set (p := SFmul 24 128 m D) in *.
  destruct (SFadd_finite _ _ Hr) as [Hp Hlo].
  destruct (SFmul_finite _ _ Hp) as [Hm HD].
  destruct (SFdiv_finite _ _ Hm HD) as (sD & mD & eD & HDeq).
  assert (HA : F32.is_finite A = true).
  { unfold m in Hm. rewrite HDeq in Hm.
    destruct A; try discriminate; reflexivity. }
  pose proof (SFadd_error _ _ Hr) as E3.
  pose proof (SFmul_error _ _ Hp) as E2. fold p in E2.
  pose proof Hm as Hm'. unfold m in Hm'. rewrite HDeq in Hm'.
  pose proof (SFdiv_error _ _ _ _ Hm') as E1. rewrite <- HDeq in E1.
  fold m in E1.
  pose proof (SFsub_error _ _ HA) as E0. fold A in E0.
  fold p in E3.
  (* the divisor is not zero *)
  assert (Hd : real_of_float D <> 0).
  { rewrite HDeq. cbn [real_of_float]. pose proof (pow2_pos eD).
    assert (0 < IZR (Z.pos mD)) by (apply IZR_lt; lia).
    destruct sD; simpl; nra. }
  set (hd := real_of_float hi_d) in *. set (ld := real_of_float lo_d) in *.
  set (alpha := real_of_float A) in *. set (delta := real_of_float D) in *.
  set (mu := real_of_float m) in *. set (pi' := real_of_float p) in *.
  set (rho := real_of_float (SFadd 24 128 p lo_d)) in *.
  (* the error of the quotient, scaled by the divisor *)
  assert (E1' : Rabs (mu * delta - alpha)
                <= pow2 (-22) * Rabs alpha + pow2 (-149) * Rabs delta).
  { assert (Pd : 0 < Rabs delta) by (apply Rabs_pos_lt; assumption).
    replace (mu * delta - alpha) with ((mu - alpha / delta) * delta)
      by (field; assumption).
    replace alpha with (alpha / delta * delta) at 2 by (field; assumption).
    rewrite !Rabs_mult. nra. }
  clear E1.
  pose proof (Rabs_minus_le hd ld) as T0.
  pose proof (Rabs_le_add alpha (hd - ld)) as T1.
  pose proof (Rabs_le_add (mu * delta) alpha) as T2.
  pose proof (Rabs_le_add (pi' + ld) (mu * delta)) as T3.
  replace (pi' + ld - mu * delta) with ((pi' - mu * delta) + ld) in T3
    by ring.
  pose proof (Rabs_triang (pi' - mu * delta) ld) as T3'.
  assert (Hgoal : Rabs (rho - hd)
                  <= Rabs (rho - (pi' + ld)) + Rabs (pi' - mu * delta)
                     + Rabs (mu * delta - alpha)
                     + Rabs (alpha - (hd - ld))).
  { replace (rho - hd)
      with ((rho - (pi' + ld)) + (pi' - mu * delta)
            + (mu * delta - alpha) + (alpha - (hd - ld))) by ring.
    eapply Rle_trans; [apply Rabs_triang |].
    apply Rplus_le_compat_r.
    eapply Rle_trans; [apply Rabs_triang |].
    apply Rplus_le_compat_r. apply Rabs_triang. }
  assert (Hu : pow2 (-22) = / 4194304) by (unfold pow2; simpl; lra).
  assert (H19 : pow2 (-19) = 8 * pow2 (-22)).
  { change (-19)%Z with (3 + -22)%Z. rewrite pow2_add.
    unfold pow2 at 1. simpl. ring. }
  assert (H146 : pow2 (-146) = 8 * pow2 (-149)).
  { change (-146)%Z with (3 + -149)%Z. rewrite pow2_add.
    unfold pow2 at 1. simpl. ring. }
  rewrite H19, H146, Hu in *.
  pose proof (pow2_pos (-149)) as Pa.
  pose proof (Rabs_pos delta) as Pd.
  assert (Pad : 0 <= pow2 (-149) * Rabs delta) by nra.
  pose proof (Rabs_pos hd). pose proof (Rabs_pos ld).
  pose proof (Rabs_pos alpha). pose proof (Rabs_pos (mu * delta)).
  pose proof (Rabs_pos (pi' + ld)).
  lra.
Qed.
(** *** A ratio taken and multiplied back *)

Lemma ratio_through_hi (h c : float) :
  F32.is_finite (F32.mul c (F32.div h c)) = true ->
  Rabs (real_of_float (F32.mul c (F32.div h c)) - real_of_float h)
  <= pow2 (-20) * Rabs (real_of_float h)
     + pow2 (-147) * (1 + Rabs (real_of_float c)).
Proof.
  unfold F32.mul, F32.div, F32.prec, F32.emax. intros Hr.
  set (q := SFdiv 24 128 h c) in *.
  destruct (SFmul_finite _ _ Hr) as [Hc Hq].
  destruct (SFdiv_finite _ _ Hq Hc) as (sc & mc & ec & Hceq).
  pose proof (SFmul_error _ _ Hr) as E2.
  pose proof Hq as Hq'. unfold q in Hq'. rewrite Hceq in Hq'.
  pose proof (SFdiv_error _ _ _ _ Hq') as E1. rewrite <- Hceq in E1.
  fold q in E1.
  assert (Hd : real_of_float c <> 0).
  { rewrite Hceq. cbn [real_of_float]. pose proof (pow2_pos ec).
    assert (0 < IZR (Z.pos mc)) by (apply IZR_lt; lia).
    destruct sc; simpl; nra. }
  set (hd := real_of_float h) in *. set (gamma := real_of_float c) in *.
  set (mu := real_of_float q) in *.
  set (rho := real_of_float (SFmul 24 128 c q)) in *.
  assert (E1' : Rabs (gamma * mu - hd)
                <= pow2 (-22) * Rabs hd + pow2 (-149) * Rabs gamma).
  { assert (Pd : 0 < Rabs gamma) by (apply Rabs_pos_lt; assumption).
    replace (gamma * mu - hd) with ((mu - hd / gamma) * gamma)
      by (field; assumption).
    replace hd with (hd / gamma * gamma) at 2 by (field; assumption).
    rewrite !Rabs_mult. nra. }
  clear E1.
  pose proof (Rabs_le_add (gamma * mu) hd) as T1.
  assert (Hgoal : Rabs (rho - hd)
                  <= Rabs (rho - gamma * mu) + Rabs (gamma * mu - hd)).
  { replace (rho - hd) with ((rho - gamma * mu) + (gamma * mu - hd))
      by ring.
    apply Rabs_triang. }
  assert (Hu : pow2 (-22) = / 4194304) by (unfold pow2; simpl; lra).
  assert (H20 : pow2 (-20) = 4 * pow2 (-22)).
  { change (-20)%Z with (2 + -22)%Z. rewrite pow2_add.
    unfold pow2 at 1. simpl. ring. }
  assert (H147 : pow2 (-147) = 4 * pow2 (-149)).
  { change (-147)%Z with (2 + -149)%Z. rewrite pow2_add.
    unfold pow2 at 1. simpl. ring. }
  rewrite H20, H147, Hu in *.
  pose proof (pow2_pos (-149)) as Pa.
  pose proof (Rabs_pos gamma) as Pd.
  assert (Pad : 0 <= pow2 (-149) * Rabs gamma) by nra.
  pose proof (Rabs_pos hd). pose proof (Rabs_pos (gamma * mu)).
  lra.
Qed.
End RoundingError.

(** ** Reflection and transmission density (densitometer.c) *)

(** The guard of [densitometer_reflection_measure] lets through every
    calibration the specification calls valid. *)
Lemma reflection_cal_usable (lo_d lo hi_d hi : float) :
  F32.gtb hi_d lo_d = true -> F32.geb lo_d (F32.lit 0 1) = true ->
  F32.geb lo (F32.lit 0 1) = true -> F32.ltb hi lo = true ->
  reflection_cal_unusable lo_d lo hi_d hi = false.
Proof.
  intros Hd Hlo_d Hlo Hr. unfold reflection_cal_unusable.
  rewrite (geb_not_ltb _ _ Hlo_d), (gtb_not_leb _ _ Hd),
    (geb_not_ltb _ _ Hlo), (ltb_not_geb _ _ Hr).
  reflexivity.
Qed.

Lemma transmission_cal_usable (zero hi_d hi : float) :
  F32.gtb zero (F32.lit 0 1) = true -> F32.gtb hi_d (F32.lit 0 1) = true ->
  F32.gtb hi (F32.lit 0 1) = true -> F32.ltb hi zero = true ->
  transmission_cal_unusable zero hi_d hi = false.
Proof.
  intros Hz Hd Hh Hr. unfold transmission_cal_unusable.
  rewrite (gtb_not_leb _ _ Hz), (gtb_not_leb _ _ Hd),
    (gtb_not_leb _ _ Hh), (ltb_not_geb _ _ Hr).
  reflexivity.
Qed.

(** On the device, a reading equal to the CAL-LO reading is reported at
    exactly the CAL-LO density as soon as the logarithm of that reading and
    the slope are finite. *)
Lemma reflection_density_f32_lo {L : Libm} (lo_d lo hi_d hi : float) :
  F32.is_finite lo_d = true ->
  F32.is_finite (log10f lo) = true ->
  F32.is_finite
    (F32.div (F32.sub hi_d lo_d) (F32.sub (log10f hi) (log10f lo))) = true ->
  SFeqb (reflection_density f32_arith lo_d lo hi_d hi lo) lo_d = true.
Proof.
  intros Hlo_d Hll Hm. unfold reflection_density; simpl.
  set (m := F32.div _ _) in *.
  assert (Hz : F32.sub (log10f lo) (log10f lo) = S754_zero false).
  { destruct (log10f lo) as [s | s | | s mm e]; try discriminate.
    - destruct s; reflexivity.
    - unfold F32.sub, SFsub. rewrite Z.sub_diag. reflexivity. }
  rewrite Hz.
  destruct m as [sm | sm | | sm mm em]; try discriminate;
    destruct lo_d as [sd | sd | | sd md ed]; try discriminate;
    simpl; try (destruct sm, sd; reflexivity).
  all: unfold SFeqb; simpl; destruct sd; simpl;
    rewrite Z.compare_refl, ?Pos.compare_cont_refl; simpl;
    try rewrite Pos.compare_cont_refl; reflexivity.
Qed.

(** On the device, a reading equal to the CAL-HI reading is reported
    within 2^-19 (|hi_density| + |lo_density|) of the CAL-HI density, up to
    an underflow term, whenever the result is a finite number. *)
Lemma reflection_density_f32_hi {L : Libm} (lo_d lo hi_d hi : float) :
  F32.is_finite (reflection_density f32_arith lo_d lo hi_d hi hi) = true ->
  (Rabs (real_of_float (reflection_density f32_arith lo_d lo hi_d hi hi)
         - real_of_float hi_d)
   <= pow2 (-19) * (Rabs (real_of_float hi_d) + Rabs (real_of_float lo_d))
      + pow2 (-146)
        * (1 + Rabs (real_of_float (F32.sub (log10f hi) (log10f lo)))))%R.
Proof.
  unfold reflection_density; simpl. apply line_through_hi.
Qed.

(** If the logarithms of the two calibration readings round to the same
    float, the slope is not a number and neither is any density computed
    from it. *)
Lemma reflection_density_collision {L : Libm}
    (lo_d lo hi_d hi value : float) :
  log10f hi = log10f lo ->
  F32.is_finite
    (reflection_density f32_arith lo_d lo hi_d hi value) = false.
Proof.
  intros Hll. unfold reflection_density; simpl. rewrite Hll.
  assert (Hz : forall x, F32.sub x x = S754_zero false
                         \/ F32.sub x x = S754_nan).
  { intros [s | s | | s mm e]; cbn.
    - left. destruct s; reflexivity.
    - right. destruct s; reflexivity.
    - right. reflexivity.
    - left. unfold F32.sub, SFsub. rewrite Z.sub_diag. reflexivity. }
  assert (Hm : forall a d, d = S754_zero false \/ d = S754_nan ->
                           F32.is_finite (F32.div a d) = false).
  { intros [s | s | | s mm e] d [-> | ->]; reflexivity. }
  assert (Hmul : forall a b, F32.is_finite a = false ->
                             F32.is_finite (F32.mul a b) = false).
  { intros [s | s | | s mm e] [s' | s' | | s' mm' e']; cbn;
      try discriminate; reflexivity. }
  assert (Hadd : forall a b, F32.is_finite a = false ->
                             F32.is_finite (F32.add a b) = false).
  { intros [s | s | | s mm e] [s' | s' | | s' mm' e']; cbn;
      try discriminate; try reflexivity; destruct s, s'; reflexivity. }
  apply Hadd, Hmul, Hm, Hz.
Qed.

Lemma reflection_density_collision_witness :
  F32.is_finite
    (reflection_density (f32_arith (L := RefLibm.ref_libm))
       (F32.lit 0 100) (F32.of_Z 500000)
       (F32.lit 200 100) (S754_finite false 15999999 (-5))
       (F32.of_Z 1000)) = false.
Proof.
  apply (@reflection_density_collision RefLibm.ref_libm).
  vm_compute. reflexivity.
Defined.

(** C1 (amended).  With calibration points satisfying
    hi_density > lo_density >= 0 and 0 < hi_reading < lo_reading, and a
    successful sensor read, the measurement succeeds and the stored density
    is the binary32 value of
    m*(log10(value) - log10(lo_reading)) + lo_density, where
    value = ch0 - ch1 (ch1 replaced by 0 when ch1 >= ch0) and
    m = (hi_density - lo_density)/(log10(hi_reading) - log10(lo_reading)).
    A value equal to lo_reading is stored as exactly lo_density whenever
    log10f(lo_reading) and m are finite.  A value equal to hi_reading is
    stored, whenever what is stored is a finite number, within
    2^-19 (|hi_density| + |lo_density|)
    + 2^-146 (1 + |log10f(hi_reading) - log10f(lo_reading)|)
    of hi_density. *)
Theorem reflection_measure_density
    {L : Libm} {LC : LightConsts}
    (sensor_read : Z -> HAL_StatusTypeDef * (float * float)) (s : dstate)
    (lo_d lo hi_d hi ch0 ch1 : float) :
  cal_reflection_lo (settings s) = (lo_d, lo) ->
  cal_reflection_hi (settings s) = (hi_d, hi) ->
  F32.gtb hi_d lo_d = true ->
  F32.geb lo_d (F32.lit 0 1) = true ->
  F32.gtb hi (F32.lit 0 1) = true ->
  F32.ltb hi lo = true ->
  sensor_read 2 = (HAL_OK, (ch0, ch1)) ->
  let value := F32.sub ch0 (if F32.geb ch1 ch0 then F32.of_Z 0 else ch1) in
  let m := F32.div (F32.sub hi_d lo_d) (F32.sub (log10f hi) (log10f lo)) in
  let stored :=
    densitometer_reflection_get_last_reading
      (snd (densitometer_reflection_measure sensor_read s)) in
  fst (densitometer_reflection_measure sensor_read s) = DENSITOMETER_OK
  /\ stored = F32.add (F32.mul m (F32.sub (log10f value) (log10f lo))) lo_d
  /\ (value = lo ->
      F32.is_finite (log10f lo) = true -> F32.is_finite m = true ->
      SFeqb stored lo_d = true)
  /\ (value = hi ->
      F32.is_finite stored = true ->
      (Rabs (real_of_float stored - real_of_float hi_d)
       <= pow2 (-19)
          * (Rabs (real_of_float hi_d) + Rabs (real_of_float lo_d))
          + pow2 (-146)
            * (1 + Rabs (real_of_float
                           (F32.sub (log10f hi) (log10f lo)))))%R).
Proof.
  intros Hlo Hhi Hd Hlo_d Hhi_r Hr Hread value m stored.
  assert (Hlo_r : F32.geb lo (F32.lit 0 1) = true).
  { destruct hi as [sh | sh | | sh mh eh], lo as [sl | sl | | sl ml el];
      try discriminate Hr; try reflexivity;
      try (destruct sh; discriminate Hhi_r);
      destruct sh; try discriminate Hhi_r;
      destruct sl; try reflexivity; discriminate Hr. }
  assert (Hstored : stored
                    = reflection_density f32_arith lo_d lo hi_d hi value).
  { unfold stored, densitometer_reflection_measure.
    rewrite Hlo, Hhi, (reflection_cal_usable _ _ _ _ Hd Hlo_d Hlo_r Hr),
      Hread.
    reflexivity. }
  split; [| split; [| split]].
  - unfold densitometer_reflection_measure.
    rewrite Hlo, Hhi, (reflection_cal_usable _ _ _ _ Hd Hlo_d Hlo_r Hr),
      Hread.
    reflexivity.
  - rewrite Hstored. reflexivity.
  - intros Hv Hll Hm. rewrite Hstored, Hv.
    apply reflection_density_f32_lo; try assumption.
    destruct lo_d as [sd | sd | | sd md ed]; try reflexivity.
    + destruct sd; [discriminate Hlo_d |].
      destruct hi_d as [? | [] | | [] ? ?]; discriminate Hd.
    + discriminate Hlo_d.
  - intros Hv Hfin. rewrite Hstored, Hv in *.
    now apply reflection_density_f32_hi.
Qed.

(** The specification's calibration lo = (0.00, 500000), hi = (2.00, 5000)
    with a reading of 5000: the stored density is within the tolerance of
    2.00. *)
Lemma reflection_measure_density_witness :
  let stored :=
    densitometer_reflection_get_last_reading
      (snd (densitometer_reflection_measure (L := RefLibm.ref_libm)
              (LC := sample_light)
              (sensor_read_ok (F32.of_Z 5000) (F32.of_Z 0))
              (dstate_init scenario_settings 0 0))) in
  fst (densitometer_reflection_measure (L := RefLibm.ref_libm)
         (LC := sample_light)
         (sensor_read_ok (F32.of_Z 5000) (F32.of_Z 0))
         (dstate_init scenario_settings 0 0)) = DENSITOMETER_OK
  /\ (Rabs (real_of_float stored - real_of_float (F32.lit 200 100))
      <= pow2 (-19)
         * (Rabs (real_of_float (F32.lit 200 100))
            + Rabs (real_of_float (F32.lit 0 100)))
         + pow2 (-146)
           * (1 + Rabs (real_of_float
                          (F32.sub
                             (log10f (Libm := RefLibm.ref_libm)
                                (F32.of_Z 5000))
                             (log10f (Libm := RefLibm.ref_libm)
                                (F32.of_Z 500000))))))%R.
Proof.
  pose proof
    (@reflection_measure_density RefLibm.ref_libm sample_light
       (sensor_read_ok (F32.of_Z 5000) (F32.of_Z 0))
       (dstate_init scenario_settings 0 0)
       (F32.lit 0 100) (F32.of_Z 500000) (F32.lit 200 100) (F32.of_Z 5000)
       (F32.of_Z 5000) (F32.of_Z 0)
       eq_refl eq_refl eq_refl eq_refl eq_refl eq_refl eq_refl) as H.
  cbv zeta in H.
  destruct H as (Hok & _ & _ & Hhi).
  exact (conj Hok (Hhi ltac:(vm_compute; reflexivity)
                       ltac:(vm_compute; reflexivity))).
Defined.

(** C1, as stated, fails.  lo = (0.00, 500000) and hi = (2.00,
    499999.96875) satisfy hi_density > lo_density >= 0, lo_reading >= 0 and
    hi_reading < lo_reading, with both readings positive; the logarithms of
    the two readings round to the same float, the slope is 2/0, and a
    measurement of a value equal to lo_reading, or to hi_reading, succeeds
    and stores NaN: neither lo_density nor anything near hi_density. *)
Lemma reflection_adjacent_readings :
  let hi := S754_finite false 15999999 (-5) in
  let measured (value : float) :=
    densitometer_reflection_measure (L := RefLibm.ref_libm)
      (LC := sample_light) (sensor_read_ok value (F32.of_Z 0))
      (dstate_init adjacent_settings 0 0) in
  (F32.gtb (F32.lit 200 100) (F32.lit 0 100) = true
   /\ F32.geb (F32.lit 0 100) (F32.lit 0 1) = true
   /\ F32.geb (F32.of_Z 500000) (F32.lit 0 1) = true
   /\ F32.gtb hi (F32.lit 0 1) = true
   /\ F32.ltb hi (F32.of_Z 500000) = true)
  /\ channel_difference (F32.of_Z 500000) (F32.of_Z 0) = F32.of_Z 500000
  /\ channel_difference hi (F32.of_Z 0) = hi
  /\ fst (measured (F32.of_Z 500000)) = DENSITOMETER_OK
  /\ densitometer_reflection_get_last_reading
       (snd (measured (F32.of_Z 500000))) = F32.NAN
  /\ fst (measured hi) = DENSITOMETER_OK
  /\ densitometer_reflection_get_last_reading (snd (measured hi)) = F32.NAN
  /\ SFeqb F32.NAN (F32.lit 0 100) = false
  /\ SFeqb F32.NAN (F32.lit 200 100) = false.
Proof. vm_compute. repeat split. Qed.

(** The guard of densitometer.c:32-33 has no test for a CAL-HI reading
    that is zero or negative (its transmission sibling at line 106 has):
    with lo = (0.00, 5), hi = (1.00, -1) the measurement goes ahead and
    stores NaN.  The statement above says nothing about such
    calibrations. *)
Lemma reflection_negative_hi_reading :
  (F32.gtb (F32.lit 100 100) (F32.lit 0 100) = true
   /\ F32.geb (F32.lit 0 100) (F32.lit 0 1) = true
   /\ F32.geb (F32.of_Z 5) (F32.lit 0 1) = true
   /\ F32.ltb (F32.of_Z (-1)) (F32.of_Z 5) = true)
  /\ channel_difference (F32.of_Z 5) (F32.of_Z 0) = F32.of_Z 5
  /\ fst (densitometer_reflection_measure (L := RefLibm.ref_libm)
            (LC := sample_light)
            (sensor_read_ok (F32.of_Z 5) (F32.of_Z 0))
            (dstate_init negative_hi_settings 0 0)) = DENSITOMETER_OK
  /\ densitometer_reflection_get_last_reading
       (snd (densitometer_reflection_measure (L := RefLibm.ref_libm)
               (LC := sample_light)
               (sensor_read_ok (F32.of_Z 5) (F32.of_Z 0))
               (dstate_init negative_hi_settings 0 0))) = F32.NAN
  /\ SFeqb F32.NAN (F32.lit 0 100) = false.
Proof. vm_compute. repeat split. Qed.

(** The specification's reflection scenario on the reference libm: a
    reading of 50000 against lo = (0.00, 500000), hi = (2.00, 5000) comes
    out within 2^-20 of 1.00. *)
Example reflection_scenario :
  let d := densitometer_reflection_get_last_reading
             (snd (densitometer_reflection_measure (L := RefLibm.ref_libm)
                     (LC := sample_light)
                     (sensor_read_ok (F32.of_Z 50000) (F32.of_Z 0))
                     (dstate_init scenario_settings 0 0))) in
  F32.ltb (F32.fabsf (F32.sub d (F32.lit 100 100)))
          (binary_normalize F32.prec F32.emax 1 (-20) false) = true.
Proof. vm_compute. reflexivity. Qed.

(** C2.  With calibration values satisfying zero_reading > 0,
    hi_density > 0, hi_reading > 0 and hi_reading < zero_reading, and a
    successful sensor read, the measurement succeeds and the stored density
    is the binary32 value of
    (-log10(v/zero_reading)) * (hi_density / (-log10(hi_reading/zero_reading))),
    v = ch0 - ch1 (ch1 replaced by 0 when ch1 >= ch0), each negation being
    the product with -1.0F of the source.  In exact arithmetic a reading
    equal to hi_reading gives hi_density; for zero_reading = 1000000,
    hi = (3.00, 1000) and reading 1000 that is 3. *)
Theorem transmission_measure_density
    {L : Libm} {LC : LightConsts}
    (sensor_read : Z -> HAL_StatusTypeDef * (float * float)) (s : dstate)
    (zero hi_d hi ch0 ch1 : float) (rzero rhi_d rhi : R) :
  cal_transmission_zero (settings s) = zero ->
  cal_transmission_hi (settings s) = (hi_d, hi) ->
  F32.gtb zero (F32.lit 0 1) = true ->
  F32.gtb hi_d (F32.lit 0 1) = true ->
  F32.gtb hi (F32.lit 0 1) = true ->
  F32.ltb hi zero = true ->
  sensor_read 2 = (HAL_OK, (ch0, ch1)) ->
  (0 < rhi)%R -> (rhi < rzero)%R ->
  let v := F32.sub ch0 (if F32.geb ch1 ch0 then F32.of_Z 0 else ch1) in
  let neg (x : float) := F32.mul (F32.of_Z (-1)) x in
  fst (densitometer_transmission_measure sensor_read s) = DENSITOMETER_OK
  /\ densitometer_transmission_get_last_reading
       (snd (densitometer_transmission_measure sensor_read s))
     = F32.mul (neg (log10f (F32.div v zero)))
               (F32.div hi_d (neg (log10f (F32.div hi zero))))
  /\ transmission_density R_arith rzero rhi_d rhi rhi = rhi_d
  /\ (transmission_density R_arith 1000000 3 1000 1000 = 3)%R.
Proof.
  intros Hz Hhi Hzp Hdp Hhp Hr Hread Hpos Hlt v neg.
  unfold densitometer_transmission_measure.
  rewrite Hz, Hhi, (transmission_cal_usable _ _ _ Hzp Hdp Hhp Hr), Hread.
  simpl. repeat split.
  - now apply transmission_density_R_hi.
  - apply transmission_density_R_hi; lra.
Qed.

Lemma transmission_measure_density_witness :
  fst (densitometer_transmission_measure (L := RefLibm.ref_libm)
         (LC := sample_light)
         (sensor_read_ok (F32.of_Z 1000) (F32.of_Z 0))
         (dstate_init scenario_settings 0 0)) = DENSITOMETER_OK
  /\ (transmission_density R_arith 1000000 3 1000 1000 = 3)%R.
Proof.
  pose proof
    (@transmission_measure_density RefLibm.ref_libm sample_light
       (sensor_read_ok (F32.of_Z 1000) (F32.of_Z 0))
       (dstate_init scenario_settings 0 0)
       (F32.of_Z 1000000) (F32.lit 300 100) (F32.of_Z 1000)
       (F32.of_Z 1000) (F32.of_Z 0) 1000000%R 3%R 1000%R
       eq_refl eq_refl eq_refl eq_refl eq_refl eq_refl eq_refl
       ltac:(lra) ltac:(lra)) as H.
  cbv zeta in H.
  destruct H as (Hok & _ & _ & H3).
  exact (conj Hok H3).
Defined.

(** The specification's transmission scenario on the reference libm: the
    device result is 3.00 exactly. *)
Example transmission_scenario :
  densitometer_transmission_get_last_reading
    (snd (densitometer_transmission_measure (L := RefLibm.ref_libm)
            (LC := sample_light)
            (sensor_read_ok (F32.of_Z 1000) (F32.of_Z 0))
            (dstate_init scenario_settings 0 0))) = F32.lit 300 100.
Proof. vm_compute. reflexivity. Qed.

(** A transmission reading equal to the CAL-HI reading: on the device the
    stored density, when it is a finite number, is within
    2^-20 |hi_density| of the CAL-HI density, up to an underflow term. *)
Theorem transmission_hi_reading
    {L : Libm} {LC : LightConsts}
    (sensor_read : Z -> HAL_StatusTypeDef * (float * float)) (s : dstate)
    (zero hi_d hi ch0 ch1 : float) :
  cal_transmission_zero (settings s) = zero ->
  cal_transmission_hi (settings s) = (hi_d, hi) ->
  transmission_cal_unusable zero hi_d hi = false ->
  sensor_read 2 = (HAL_OK, (ch0, ch1)) ->
  channel_difference ch0 ch1 = hi ->
  let stored :=
    densitometer_transmission_get_last_reading
      (snd (densitometer_transmission_measure sensor_read s)) in
  F32.is_finite stored = true ->
  (Rabs (real_of_float stored - real_of_float hi_d)
   <= pow2 (-20) * Rabs (real_of_float hi_d)
      + pow2 (-147)
        * (1 + Rabs (real_of_float
                       (F32.mul (F32.of_Z (-1))
                          (log10f (F32.div hi zero))))))%R.
Proof.
  intros Hz Hhi Hok Hread Hv stored.
  assert (Hstored : stored
                    = transmission_density f32_arith zero hi_d hi hi).
  { unfold stored, densitometer_transmission_measure.
    rewrite Hz, Hhi, Hok, Hread, Hv. reflexivity. }
  rewrite Hstored. unfold transmission_density; simpl.
  apply ratio_through_hi.
Qed.

Lemma transmission_hi_reading_witness :
  let stored :=
    densitometer_transmission_get_last_reading
      (snd (densitometer_transmission_measure (L := RefLibm.ref_libm)
              (LC := sample_light)
              (sensor_read_ok (F32.of_Z 1000) (F32.of_Z 0))
              (dstate_init scenario_settings 0 0))) in
  (Rabs (real_of_float stored - real_of_float (F32.lit 300 100))
   <= pow2 (-20) * Rabs (real_of_float (F32.lit 300 100))
      + pow2 (-147)
        * (1 + Rabs (real_of_float
                       (F32.mul (F32.of_Z (-1))
                          (log10f (Libm := RefLibm.ref_libm)
                             (F32.div (F32.of_Z 1000)
                                (F32.of_Z 1000000)))))))%R.
Proof.
  exact (@transmission_hi_reading RefLibm.ref_libm sample_light
           (sensor_read_ok (F32.of_Z 1000) (F32.of_Z 0))
           (dstate_init scenario_settings 0 0)
           (F32.of_Z 1000000) (F32.lit 300 100) (F32.of_Z 1000)
           (F32.of_Z 1000) (F32.of_Z 0)
           eq_refl eq_refl
           ltac:(vm_compute; reflexivity) eq_refl
           ltac:(vm_compute; reflexivity)
           ltac:(vm_compute; reflexivity)).
Defined.

(** ** The stored last readings (densitometer.c) *)

Lemma calibrate_point_frame {LC : LightConsts}
    (sensor_read : Z -> HAL_StatusTypeDef * (float * float))
    (src : light_source) (save : float -> dstate -> dstate) (s : dstate) :
  (forall v st,
      densitometer_reflection_d (save v st) = densitometer_reflection_d st
      /\ densitometer_transmission_d (save v st)
         = densitometer_transmission_d st) ->
  densitometer_reflection_d (snd (calibrate_point sensor_read src save s))
  = densitometer_reflection_d s
  /\ densitometer_transmission_d (snd (calibrate_point sensor_read src save s))
     = densitometer_transmission_d s.
Proof.
  intros Hsave. unfold calibrate_point.
  destruct (sensor_read CAL_READ_ITERATIONS) as [[] [ch0 ch1]];
    try (destruct src; split; reflexivity).
  destruct (F32.ltb _ _).
  - destruct src; split; reflexivity.
  - destruct src; simpl;
      specialize (Hsave (channel_difference ch0 ch1));
      match goal with
      | |- context [save _ ?st] => destruct (Hsave st) as [-> ->]
      end; split; reflexivity.
Qed.

(** C10.  Both stored last readings start as NaN.  A reflection or
    transmission measurement that does not return success (that is, returns
    a calibration or a sensor error) leaves its stored reading as it was.
    Neither measurement touches the other reading, and no point-calibration
    helper touches either, so only a successful measurement updates a
    stored reading. *)
Theorem last_reading_frame
    {L : Libm} {LC : LightConsts}
    (sensor_read : Z -> HAL_StatusTypeDef * (float * float))
    (s : dstate) (cfg : settings_t) (refl tran : Z) (d : float) :
  (densitometer_reflection_get_last_reading (dstate_init cfg refl tran)
   = F32.NAN
   /\ densitometer_transmission_get_last_reading (dstate_init cfg refl tran)
      = F32.NAN)
  /\ (fst (densitometer_reflection_measure sensor_read s) <> DENSITOMETER_OK ->
      densitometer_reflection_get_last_reading
        (snd (densitometer_reflection_measure sensor_read s))
      = densitometer_reflection_get_last_reading s)
  /\ (fst (densitometer_transmission_measure sensor_read s)
      <> DENSITOMETER_OK ->
      densitometer_transmission_get_last_reading
        (snd (densitometer_transmission_measure sensor_read s))
      = densitometer_transmission_get_last_reading s)
  /\ (densitometer_transmission_get_last_reading
        (snd (densitometer_reflection_measure sensor_read s))
      = densitometer_transmission_get_last_reading s
      /\ densitometer_reflection_get_last_reading
           (snd (densitometer_transmission_measure sensor_read s))
         = densitometer_reflection_get_last_reading s)
  /\ (forall helper,
         In helper
           [densitometer_calibrate_reflection_lo sensor_read d;
            densitometer_calibrate_reflection_hi sensor_read d;
            densitometer_calibrate_transmission_zero sensor_read;
            densitometer_calibrate_transmission_hi sensor_read d] ->
         densitometer_reflection_get_last_reading (snd (helper s))
         = densitometer_reflection_get_last_reading s
         /\ densitometer_transmission_get_last_reading (snd (helper s))
            = densitometer_transmission_get_last_reading s).
Proof.
  unfold densitometer_reflection_get_last_reading,
    densitometer_transmission_get_last_reading.
  split; [split; reflexivity |].
  split; [| split; [| split]].
  - unfold densitometer_reflection_measure.
    destruct (cal_reflection_lo (settings s)) as [lo_d lo].
    destruct (cal_reflection_hi (settings s)) as [hi_d hi].
    destruct (reflection_cal_unusable _ _ _ _); [reflexivity |].
    destruct (sensor_read 2) as [[] [ch0 ch1]]; simpl;
      intros H; try reflexivity; now elim H.
  - unfold densitometer_transmission_measure.
    destruct (cal_transmission_hi (settings s)) as [hi_d hi].
    destruct (transmission_cal_unusable _ _ _); [reflexivity |].
    destruct (sensor_read 2) as [[] [ch0 ch1]]; simpl;
      intros H; try reflexivity; now elim H.
  - split.
    + unfold densitometer_reflection_measure.
      destruct (cal_reflection_lo (settings s)) as [lo_d lo].
      destruct (cal_reflection_hi (settings s)) as [hi_d hi].
      destruct (reflection_cal_unusable _ _ _ _); [reflexivity |].
      destruct (sensor_read 2) as [[] [ch0 ch1]]; reflexivity.
    + unfold densitometer_transmission_measure.
      destruct (cal_transmission_hi (settings s)) as [hi_d hi].
      destruct (transmission_cal_unusable _ _ _); [reflexivity |].
      destruct (sensor_read 2) as [[] [ch0 ch1]]; reflexivity.
  - intros helper Hin. simpl in Hin.
    destruct Hin as [<- | [<- | [<- | [<- | []]]]];
      unfold densitometer_calibrate_reflection_lo,
        densitometer_calibrate_reflection_hi,
        densitometer_calibrate_transmission_zero,
        densitometer_calibrate_transmission_hi;
      try (destruct (_ || _); [split; reflexivity |]);
      apply calibrate_point_frame; intros v st; split; reflexivity.
Qed.

Lemma last_reading_frame_witness :
  fst (densitometer_reflection_measure (L := RefLibm.ref_libm)
         (LC := sample_light) sensor_read_fail used_state)
  = DENSITOMETER_SENSOR_ERROR
  /\ densitometer_reflection_get_last_reading
       (snd (densitometer_reflection_measure (L := RefLibm.ref_libm)
               (LC := sample_light) sensor_read_fail used_state))
     = F32.lit 150 100.
Proof.
  split; [reflexivity |].
  refine (proj1 (proj2 (@last_reading_frame RefLibm.ref_libm sample_light
                          sensor_read_fail used_state blank_settings 0 0
                          F32.zero)) _).
  discriminate.
Defined.

(** ** Light handling on exit (densitometer.c) *)

Lemma calibrate_point_idle {LC : LightConsts}
    (sensor_read : Z -> HAL_StatusTypeDef * (float * float))
    (src : light_source) (save : float -> dstate -> dstate) (s : dstate) :
  (forall v st,
      light_calls (save v st) = light_calls st
      /\ light_reflection (save v st) = light_reflection st
      /\ light_transmission (save v st) = light_transmission st) ->
  fst (calibrate_point sensor_read src save s) <> DENSITOMETER_CAL_ERROR ->
  left_idle src (snd (calibrate_point sensor_read src save s)).
Proof.
  intros Hsave. unfold calibrate_point.
  destruct (sensor_read CAL_READ_ITERATIONS) as [[] [ch0 ch1]];
    try (intros _; destruct src; simpl;
         (split; [eexists |]; reflexivity)).
  destruct (F32.ltb _ _); [intros H; now elim H |].
  intros _. destruct src; simpl; (split; [eexists |]; reflexivity).
Qed.

(** C9 (amended).  Every exit of the two measurement procedures and of the
    four point-calibration helpers that returns success or a sensor error
    has set the active light source to its idle level as its last light
    call.  The calibration-error exit of the two measurement procedures is
    taken before any hardware access and leaves the whole state, lights
    included, as it was. *)
Theorem light_idle_on_exit
    {L : Libm} {LC : LightConsts}
    (sensor_read : Z -> HAL_StatusTypeDef * (float * float))
    (s : dstate) (d : float) :
  (fst (densitometer_reflection_measure sensor_read s)
   <> DENSITOMETER_CAL_ERROR ->
   left_idle Reflection (snd (densitometer_reflection_measure sensor_read s)))
  /\ (fst (densitometer_reflection_measure sensor_read s)
      = DENSITOMETER_CAL_ERROR ->
      snd (densitometer_reflection_measure sensor_read s) = s)
  /\ (fst (densitometer_transmission_measure sensor_read s)
      <> DENSITOMETER_CAL_ERROR ->
      left_idle Transmission
        (snd (densitometer_transmission_measure sensor_read s)))
  /\ (fst (densitometer_transmission_measure sensor_read s)
      = DENSITOMETER_CAL_ERROR ->
      snd (densitometer_transmission_measure sensor_read s) = s)
  /\ (forall src helper,
         In (src, helper)
           [(Reflection, densitometer_calibrate_reflection_lo sensor_read d);
            (Reflection, densitometer_calibrate_reflection_hi sensor_read d);
            (Transmission,
              densitometer_calibrate_transmission_zero sensor_read);
            (Transmission,
              densitometer_calibrate_transmission_hi sensor_read d)] ->
         fst (helper s) <> DENSITOMETER_CAL_ERROR ->
         left_idle src (snd (helper s))).
Proof.
  split; [| split; [| split; [| split]]].
  - unfold densitometer_reflection_measure.
    destruct (cal_reflection_lo (settings s)) as [lo_d lo].
    destruct (cal_reflection_hi (settings s)) as [hi_d hi].
    destruct (reflection_cal_unusable _ _ _ _); [intros H; now elim H |].
    destruct (sensor_read 2) as [[] [ch0 ch1]]; intros _; simpl;
      (split; [eexists |]; reflexivity).
  - unfold densitometer_reflection_measure.
    destruct (cal_reflection_lo (settings s)) as [lo_d lo].
    destruct (cal_reflection_hi (settings s)) as [hi_d hi].
    destruct (reflection_cal_unusable _ _ _ _); [reflexivity |].
    destruct (sensor_read 2) as [[] [ch0 ch1]]; simpl; discriminate.
  - unfold densitometer_transmission_measure.
    destruct (cal_transmission_hi (settings s)) as [hi_d hi].
    destruct (transmission_cal_unusable _ _ _); [intros H; now elim H |].
    destruct (sensor_read 2) as [[] [ch0 ch1]]; intros _; simpl;
      (split; [eexists |]; reflexivity).
  - unfold densitometer_transmission_measure.
    destruct (cal_transmission_hi (settings s)) as [hi_d hi].
    destruct (transmission_cal_unusable _ _ _); [reflexivity |].
    destruct (sensor_read 2) as [[] [ch0 ch1]]; simpl; discriminate.
  - intros src helper Hin. simpl in Hin.
    destruct Hin as [H | [H | [H | [H | []]]]];
      injection H as <- <-;
      unfold densitometer_calibrate_reflection_lo,
        densitometer_calibrate_reflection_hi,
        densitometer_calibrate_transmission_zero,
        densitometer_calibrate_transmission_hi;
      try (destruct (_ || _); [intros H; now elim H |]);
      apply calibrate_point_idle; intros v st; repeat split; reflexivity.
Qed.

Lemma light_idle_on_exit_witness :
  left_idle (LC := sample_light) Reflection
    (snd (densitometer_reflection_measure (L := RefLibm.ref_libm)
            (LC := sample_light) sensor_read_fail
            (dstate_init scenario_settings 0 0))).
Proof.
  refine (proj1 (@light_idle_on_exit RefLibm.ref_libm sample_light
                   sensor_read_fail (dstate_init scenario_settings 0 0)
                   F32.zero) _).
  discriminate.
Defined.

(** C9, as stated, fails: with nothing calibrated and the reflection light
    at 128, [densitometer_reflection_measure] returns a calibration error
    without a single light call, the light still at 128 and not at its idle
    level. *)
Lemma calibration_error_exit_skips_idle :
  fst (densitometer_reflection_measure (L := RefLibm.ref_libm)
         (LC := sample_light) (sensor_read_ok (F32.of_Z 50000) (F32.of_Z 0))
         (dstate_init blank_settings 128 0)) = DENSITOMETER_CAL_ERROR
  /\ light_calls
       (snd (densitometer_reflection_measure (L := RefLibm.ref_libm)
               (LC := sample_light)
               (sensor_read_ok (F32.of_Z 50000) (F32.of_Z 0))
               (dstate_init blank_settings 128 0))) = []
  /\ light_reflection
       (snd (densitometer_reflection_measure (L := RefLibm.ref_libm)
               (LC := sample_light)
               (sensor_read_ok (F32.of_Z 50000) (F32.of_Z 0))
               (dstate_init blank_settings 128 0))) = 128
  /\ 128 <> LIGHT_REFLECTION_IDLE (LightConsts := sample_light).
Proof. vm_compute. repeat split. discriminate. Qed.

(** The point-calibration helpers have one more exit, which the amended
    statement leaves out: a reading under the 0.01 floor returns with the
    light still at the measurement level this call set.  Here a reading of
    0.001 during [densitometer_calibrate_reflection_lo]. *)
Lemma floor_exit_leaves_light_on :
  fst (densitometer_calibrate_reflection_lo
         (LC := sample_light) (sensor_read_ok (F32.lit 1 1000) (F32.of_Z 0))
         (F32.lit 0 100) (dstate_init blank_settings 8 8))
  = DENSITOMETER_CAL_ERROR
  /\ light_calls
       (snd (densitometer_calibrate_reflection_lo
               (LC := sample_light)
               (sensor_read_ok (F32.lit 1 1000) (F32.of_Z 0))
               (F32.lit 0 100) (dstate_init blank_settings 8 8)))
     = [LightTransmission 0; LightReflection 128].
Proof. vm_compute. split; reflexivity. Qed.

(** *** The order of the light calls *)

Lemma calibrate_point_sequence {LC : LightConsts}
    (sensor_read : Z -> HAL_StatusTypeDef * (float * float))
    (src : light_source) (save : float -> dstate -> dstate) (s : dstate) :
  (forall v st, light_calls (save v st) = light_calls st) ->
  fst (calibrate_point sensor_read src save s) <> DENSITOMETER_CAL_ERROR ->
  light_calls (snd (calibrate_point sensor_read src save s))
  = match src with
    | Reflection =>
        [LightReflection LIGHT_REFLECTION_IDLE;
         LightTransmission 0; LightReflection 128]
    | Transmission =>
        [LightTransmission LIGHT_TRANSMISSION_IDLE;
         LightTransmission 128; LightReflection 0]
    end ++ light_calls s.
Proof.
  intros Hsave. unfold calibrate_point.
  destruct (sensor_read CAL_READ_ITERATIONS) as [[] [ch0 ch1]];
    try (intros _; destruct src; reflexivity).
  destruct (F32.ltb _ _); [intros H; now elim H |].
  intros _. destruct src; simpl; rewrite Hsave; reflexivity.
Qed.

(** Every run of a measurement procedure or of a point-calibration helper
    that returns success or a sensor error has made exactly three light
    calls: the reflection light first (on for a reflection reading, off
    for a transmission one), then the transmission light, and last the
    active light to its idle level.  The calls are listed most recent
    first. *)
Theorem light_call_sequence
    {L : Libm} {LC : LightConsts}
    (sensor_read : Z -> HAL_StatusTypeDef * (float * float))
    (s : dstate) (d : float) :
  forall (src : light_source)
         (run : dstate -> densitometer_result_t * dstate),
    In (src, run)
      [(Reflection, densitometer_reflection_measure sensor_read);
       (Transmission, densitometer_transmission_measure sensor_read);
       (Reflection, densitometer_calibrate_reflection_lo sensor_read d);
       (Reflection, densitometer_calibrate_reflection_hi sensor_read d);
       (Transmission, densitometer_calibrate_transmission_zero sensor_read);
       (Transmission, densitometer_calibrate_transmission_hi sensor_read d)]
    ->
    fst (run s) <> DENSITOMETER_CAL_ERROR ->
    light_calls (snd (run s))
    = match src with
      | Reflection =>
          [LightReflection LIGHT_REFLECTION_IDLE;
           LightTransmission 0; LightReflection 128]
      | Transmission =>
          [LightTransmission LIGHT_TRANSMISSION_IDLE;
           LightTransmission 128; LightReflection 0]
      end ++ light_calls s.
Proof.
  intros src run Hin. simpl in Hin.
  destruct Hin as [H | [H | [H | [H | [H | [H | []]]]]]];
    injection H as <- <-.
  - unfold densitometer_reflection_measure.
    destruct (cal_reflection_lo (settings s)) as [lo_d lo].
    destruct (cal_reflection_hi (settings s)) as [hi_d hi].
    destruct (reflection_cal_unusable _ _ _ _); [intros H; now elim H |].
    destruct (sensor_read 2) as [[] [ch0 ch1]]; intros _; reflexivity.
  - unfold densitometer_transmission_measure.
    destruct (cal_transmission_hi (settings s)) as [hi_d hi].
    destruct (transmission_cal_unusable _ _ _); [intros H; now elim H |].
    destruct (sensor_read 2) as [[] [ch0 ch1]]; intros _; reflexivity.
  - unfold densitometer_calibrate_reflection_lo.
    destruct (_ || _); [intros H; now elim H |].
    refine (@calibrate_point_sequence _ _ Reflection _ _ _). reflexivity.
  - unfold densitometer_calibrate_reflection_hi.
    destruct (_ || _); [intros H; now elim H |].
    refine (@calibrate_point_sequence _ _ Reflection _ _ _). reflexivity.
  - unfold densitometer_calibrate_transmission_zero.
    refine (@calibrate_point_sequence _ _ Transmission _ _ _). reflexivity.
  - unfold densitometer_calibrate_transmission_hi.
    destruct (_ || _); [intros H; now elim H |].
    refine (@calibrate_point_sequence _ _ Transmission _ _ _). reflexivity.
Qed.

Lemma light_call_sequence_witness :
  light_calls
    (snd (densitometer_calibrate_transmission_zero (LC := sample_light)
            (sensor_read_ok (F32.of_Z 1000000) (F32.of_Z 0))
            (dstate_init blank_settings 8 8)))
  = [LightTransmission 8; LightTransmission 128; LightReflection 0].
Proof.
  refine (@light_call_sequence RefLibm.ref_libm sample_light
            (sensor_read_ok (F32.of_Z 1000000) (F32.of_Z 0))
            (dstate_init blank_settings 8 8) F32.zero
            Transmission _ _ _).
  - simpl. do 4 right. left. reflexivity.
  - vm_compute. discriminate.
Defined.

(** ** The 0.01 floor of the point-calibration helpers (densitometer.c) *)

Lemma calibrate_point_floor {LC : LightConsts}
    (sensor_read : Z -> HAL_StatusTypeDef * (float * float))
    (src : light_source) (save : float -> dstate -> dstate) (s : dstate)
    (ch0 ch1 : float) :
  sensor_read CAL_READ_ITERATIONS = (HAL_OK, (ch0, ch1)) ->
  F32.ltb (F32.fabsf (channel_difference ch0 ch1)) (F32.lit 1 100) = true ->
  fst (calibrate_point sensor_read src save s) = DENSITOMETER_CAL_ERROR
  /\ settings (snd (calibrate_point sensor_read src save s)) = settings s.
Proof.
  intros Hread Hsmall. unfold calibrate_point.
  rewrite Hread, (fabsf_ltb _ _ Hsmall).
  destruct src; split; reflexivity.
Qed.

(** C8 (amended).  In each of the four point-calibration helpers, when the
    sensor read succeeds and the measured value ch0 - ch1 (ch1 replaced by
    0 when ch1 >= ch0) has magnitude below 0.01, the helper returns a
    calibration error and the stored calibration is left as it was. *)
Theorem calibration_floor
    {LC : LightConsts}
    (sensor_read : Z -> HAL_StatusTypeDef * (float * float))
    (s : dstate) (d ch0 ch1 : float) :
  sensor_read CAL_READ_ITERATIONS = (HAL_OK, (ch0, ch1)) ->
  F32.ltb (F32.fabsf
             (F32.sub ch0 (if F32.geb ch1 ch0 then F32.of_Z 0 else ch1)))
          (F32.lit 1 100) = true ->
  forall helper,
    In helper
      [densitometer_calibrate_reflection_lo sensor_read d;
       densitometer_calibrate_reflection_hi sensor_read d;
       densitometer_calibrate_transmission_zero sensor_read;
       densitometer_calibrate_transmission_hi sensor_read d] ->
    fst (helper s) = DENSITOMETER_CAL_ERROR
    /\ settings (snd (helper s)) = settings s.
Proof.
  intros Hread Hsmall helper Hin. simpl in Hin.
  destruct Hin as [<- | [<- | [<- | [<- | []]]]];
    unfold densitometer_calibrate_reflection_lo,
      densitometer_calibrate_reflection_hi,
      densitometer_calibrate_transmission_zero,
      densitometer_calibrate_transmission_hi;
    try (destruct (_ || _); [split; reflexivity |]);
    now apply calibrate_point_floor with (ch0 := ch0) (ch1 := ch1).
Qed.

Lemma calibration_floor_witness :
  fst (densitometer_calibrate_transmission_hi
         (LC := sample_light) (sensor_read_ok (F32.lit 1 1000) (F32.of_Z 0))
         (F32.lit 300 100) used_state) = DENSITOMETER_CAL_ERROR
  /\ settings
       (snd (densitometer_calibrate_transmission_hi
               (LC := sample_light)
               (sensor_read_ok (F32.lit 1 1000) (F32.of_Z 0))
               (F32.lit 300 100) used_state)) = settings used_state.
Proof.
  apply (@calibration_floor sample_light
           (sensor_read_ok (F32.lit 1 1000) (F32.of_Z 0)) used_state
           (F32.lit 300 100) (F32.lit 1 1000) (F32.of_Z 0)
           eq_refl eq_refl).
  simpl. tauto.
Defined.

(** C8, as stated, fails: a reading of 0.001 makes
    [densitometer_calibrate_reflection_lo] return a calibration error, not
    a sensor error. *)
Lemma floor_is_calibration_error :
  F32.ltb (F32.fabsf (channel_difference (F32.lit 1 1000) (F32.of_Z 0)))
          (F32.lit 1 100) = true
  /\ fst (densitometer_calibrate_reflection_lo
            (LC := sample_light)
            (sensor_read_ok (F32.lit 1 1000) (F32.of_Z 0))
            (F32.lit 0 100) (dstate_init blank_settings 8 8))
     = DENSITOMETER_CAL_ERROR
  /\ DENSITOMETER_CAL_ERROR <> DENSITOMETER_SENSOR_ERROR.
Proof. vm_compute. repeat split. discriminate. Qed.

(** ** Slope correction (sensor.c) *)

(** C7.  A strictly positive, finite reading with a valid stored
    calibration is corrected to
    powf(10, b0 + b1*log10f(reading) + b2*powf(log10f(reading), 2));
    every other reading (NaN, infinite, zero or negative) and every reading
    met without a valid calibration is returned unchanged.  The two cases
    cover every input. *)
Theorem slope_calibration_cases
    {L : Libm} (valid : bool) (cal : settings_cal_slope_t) (r : float) :
  (F32.gtb r (F32.lit 0 1) && F32.is_finite r && valid = true ->
   sensor_apply_slope_calibration (valid, cal) r
   = powf (F32.lit 10 1)
       (F32.add (F32.add (b0 cal) (F32.mul (b1 cal) (log10f r)))
                (F32.mul (b2 cal) (powf (log10f r) (F32.lit 2 1)))))
  /\ (F32.gtb r (F32.lit 0 1) && F32.is_finite r && valid = false ->
      sensor_apply_slope_calibration (valid, cal) r = r).
Proof.
  unfold sensor_apply_slope_calibration.
  destruct r as [s | s | | s m e]; simpl.
  - split; [destruct s; discriminate | reflexivity].
  - split; [destruct s; discriminate | reflexivity].
  - split; [discriminate | reflexivity].
  - destruct s; simpl.
    + split; [discriminate | reflexivity].
    + destruct valid; simpl; split; intros H;
        try discriminate; reflexivity.
Qed.

Lemma slope_calibration_cases_witness :
  sensor_apply_slope_calibration (L := RefLibm.ref_libm)
    (true, {| b0 := F32.lit 0 1; b1 := F32.lit 1 1; b2 := F32.lit 0 1 |})
    (F32.of_Z 50000)
  = powf (Libm := RefLibm.ref_libm) (F32.lit 10 1)
      (F32.add
         (F32.add (F32.lit 0 1)
            (F32.mul (F32.lit 1 1)
               (log10f (Libm := RefLibm.ref_libm) (F32.of_Z 50000))))
         (F32.mul (F32.lit 0 1)
            (powf (Libm := RefLibm.ref_libm)
               (log10f (Libm := RefLibm.ref_libm) (F32.of_Z 50000))
               (F32.lit 2 1)))).
Proof.
  apply (proj1 (@slope_calibration_cases RefLibm.ref_libm true
                  {| b0 := F32.lit 0 1; b1 := F32.lit 1 1;
                     b2 := F32.lit 0 1 |}
                  (F32.of_Z 50000))).
  reflexivity.
Defined.

(** NaN, an infinity, zero and a negative reading all pass through, valid
    calibration or not. *)
Example slope_calibration_passthrough :
  forall {L : Libm} (cal : settings_cal_slope_t),
    map (sensor_apply_slope_calibration (true, cal))
      [F32.NAN; S754_infinity false; F32.zero; F32.of_Z (-7)]
    = [F32.NAN; S754_infinity false; F32.zero; F32.of_Z (-7)].
Proof. intros L cal. reflexivity. Qed.

(** ** The read loop and the saturation detector (sensor.c) *)

Lemma first_saturated_ge {TC : Tsl2591Consts} (E : env) (n k j : nat) :
  first_saturated E n k = Some j -> (k <= j)%nat.
Proof.
  revert k. induction n as [| n IH]; intros k; cbn [first_saturated];
    [discriminate |].
  destruct (sensor_is_reading_saturated (Some (snd (env_next_reading E k)))).
  - intros H. inversion H. lia.
  - intros H. apply IH in H. lia.
Qed.

Lemma raw_read_iter_run {L : Libm} {TC : Tsl2591Consts} (E : env) (n : nat) :
  forall (w : world) (r : osStatus_t) (s0 s1 : float),
    (forall k, (w_readings w <= k < run_end E n (w_readings w))%nat ->
               fst (env_next_reading E k) = osOK) ->
    w_readings (snd (raw_read_iter E n r s0 s1 w))
    = run_end E n (w_readings w)
    /\ match first_saturated E n (w_readings w) with
       | Some _ =>
           exists p0 p1,
             fst (raw_read_iter E n r s0 s1 w) = (osOK, true, p0, p1)
       | None =>
           fst (raw_read_iter E n r s0 s1 w)
           = (match n with O => r | S _ => osOK end, false,
              log_sum E ch0_val n (w_readings w) s0,
              log_sum E ch1_val n (w_readings w) s1)
       end.
Proof.
  induction n as [| n IH]; intros w r s0 s1 Hok.
  - unfold run_end; simpl. split; [lia | reflexivity].
  - unfold run_end in *. cbn [raw_read_iter first_saturated log_sum] in *.
    unfold bind, sensor_get_next_reading.
    assert (Hd : fst (env_next_reading E (w_readings w)) = osOK).
    { apply Hok. split; [lia |].
      destruct (sensor_is_reading_saturated _); [lia |].
      destruct (first_saturated E n (S (w_readings w))) as [j |] eqn:Hj;
        [apply first_saturated_ge in Hj |]; lia. }
    destruct (env_next_reading E (w_readings w)) as [st rd].
    simpl in Hd. subst st. cbn [is_osOK negb snd] in *.
    destruct (sensor_is_reading_saturated (Some rd)).
    + split; [reflexivity | now exists s0, s1].
    + match goal with
      | |- context [raw_read_iter E n osOK ?a ?b ?w'] =>
          specialize (IH w' osOK a b)
      end.
      cbn [w_readings] in IH.
      replace (w_readings w + S n)%nat with (S (w_readings w) + n)%nat
        by lia.
      destruct IH as [IHw IHr].
      { intros k Hk. apply Hok.
        replace (w_readings w + S n)%nat with (S (w_readings w) + n)%nat
          by lia.
        lia. }
      split; [exact IHw |].
      destruct (first_saturated E n (S (w_readings w))); [exact IHr |].
      rewrite IHr. destruct n; reflexivity.
Qed.

(** C3.  For a count n between 1 and 255 and a driver that delivers every
    reading the loop asks for: if none of the n readings is saturated, each
    channel's result is expf of (the sum of logf over the n raw channel
    values, added in order from 0, divided by n) and n readings are
    consumed; if one is saturated, the loop consumes nothing beyond the
    first saturated reading and both results are NaN.  A reading is
    saturated exactly when one of its channels is at or above the analog
    ceiling at the 100 ms integration time, the digital ceiling at any
    other (the ceilings being 16-bit counts). *)
Theorem read_average_geometric_mean
    {L : Libm} {TC : Tsl2591Consts} (E : env) (w : world) (count : Z)
    (a b : float) :
  1 <= count <= 255 ->
  0 <= TSL2591_ANALOG_SATURATION < 65536 ->
  0 <= TSL2591_DIGITAL_SATURATION < 65536 ->
  (forall k,
      (w_readings w <= k < run_end E (Z.to_nat count) (w_readings w))%nat ->
      fst (env_next_reading E k) = osOK) ->
  fst (sensor_raw_read_loop E count (Some a) (Some b) w)
  = match first_saturated E (Z.to_nat count) (w_readings w) with
    | None =>
        (osOK,
         Some (expf (F32.div
                       (log_sum E ch0_val (Z.to_nat count) (w_readings w)
                          (F32.of_Z 0))
                       (F32.of_Z count))),
         Some (expf (F32.div
                       (log_sum E ch1_val (Z.to_nat count) (w_readings w)
                          (F32.of_Z 0))
                       (F32.of_Z count))))
    | Some _ => (osOK, Some F32.NAN, Some F32.NAN)
    end
  /\ w_readings (snd (sensor_raw_read_loop E count (Some a) (Some b) w))
     = run_end E (Z.to_nat count) (w_readings w)
  /\ (forall reading,
         sensor_is_reading_saturated (Some reading) = true
         <-> (saturation_ceiling reading <= ch0_val reading
              \/ saturation_ceiling reading <= ch1_val reading)).
Proof.
  intros Hcount Ha Hd Hok.
  unfold sensor_raw_read_loop.
  destruct (count =? 0) eqn:Hz; [apply Z.eqb_eq in Hz; lia |].
  unfold bind.
  destruct (raw_read_iter_run E (Z.to_nat count) w osOK
              (F32.of_Z 0) (F32.of_Z 0) Hok) as [Hw Hr].
  destruct (raw_read_iter E (Z.to_nat count) osOK (F32.of_Z 0) (F32.of_Z 0) w)
    as [[[[r sat] s0] s1] w'].
  cbn [fst snd] in Hw, Hr.
  split; [| split].
  - destruct (first_saturated E (Z.to_nat count) (w_readings w)).
    + destruct Hr as (p0 & p1 & Hr). inversion Hr; subst. reflexivity.
    + inversion Hr; subst.
      destruct (Z.to_nat count) eqn:Hn; [lia |]. reflexivity.
  - destruct (first_saturated E (Z.to_nat count) (w_readings w)).
    + destruct Hr as (p0 & p1 & Hr). inversion Hr; subst. exact Hw.
    + inversion Hr; subst.
      destruct (Z.to_nat count) eqn:Hn; [lia |]. exact Hw.
  - intros reading. unfold sensor_is_reading_saturated, saturation_ceiling.
    destruct (is_TIME_100MS (time reading));
      rewrite Z.mod_small by assumption;
      match goal with
      | |- context [(?x >=? ?l) || (?y >=? ?l)] =>
          destruct (Z.geb_spec x l), (Z.geb_spec y l)
      end; simpl; split; intros Hsat; try reflexivity; try discriminate;
      lia.
Qed.

Lemma read_average_geometric_mean_witness :
  fst (sensor_raw_read_loop (L := RefLibm.ref_libm) (TC := sample_consts)
         steady_env 5 (Some F32.NAN) (Some F32.NAN)
         (world_init factory_light factory_gains))
  = (osOK,
     Some (expf (Libm := RefLibm.ref_libm)
             (F32.div
                (log_sum (L := RefLibm.ref_libm) steady_env ch0_val 5 0
                   (F32.of_Z 0))
                (F32.of_Z 5))),
     Some (expf (Libm := RefLibm.ref_libm)
             (F32.div
                (log_sum (L := RefLibm.ref_libm) steady_env ch1_val 5 0
                   (F32.of_Z 0))
                (F32.of_Z 5))))
  /\ w_readings
       (snd (sensor_raw_read_loop (L := RefLibm.ref_libm)
               (TC := sample_consts) steady_env 5
               (Some F32.NAN) (Some F32.NAN)
               (world_init factory_light factory_gains))) = 5%nat.
Proof.
  assert (Hrange : 0 <= 36863 < 65536 /\ 0 <= 65535 < 65536) by lia.
  destruct
    (@read_average_geometric_mean RefLibm.ref_libm sample_consts steady_env
       (world_init factory_light factory_gains) 5 F32.NAN F32.NAN
       ltac:(lia) (proj1 Hrange) (proj2 Hrange) (fun k _ => eq_refl))
    as (Hres & Hw & _).
  exact (conj Hres Hw).
Defined.

(** With the third of five readings saturated the loop stops after three
    readings and reports NaN on both channels. *)
Example read_average_saturated_run :
  sensor_raw_read_loop (L := RefLibm.ref_libm) (TC := sample_consts)
    (glare_env 2) 5 (Some F32.zero) (Some F32.zero)
    (world_init factory_light factory_gains)
  = ((osOK, Some F32.NAN, Some F32.NAN),
     {| w_readings := 3; w_configs := 0; w_starts := 0; w_callbacks := 0;
        w_trace := [EvNextReading 2000; EvNextReading 2000;
                    EvNextReading 2000];
        w_cal_light := factory_light; w_cal_gain := factory_gains |}).
Proof. vm_compute. reflexivity. Qed.

(** The geometric mean of five readings of 3000 comes back as 3000 to
    within one count on the reference libm. *)
Example read_average_steady_run :
  match fst (sensor_raw_read_loop (L := RefLibm.ref_libm)
               (TC := sample_consts) steady_env 5
               (Some F32.zero) (Some F32.zero)
               (world_init factory_light factory_gains)) with
  | (osOK, Some ch0, Some ch1) =>
      F32.ltb (F32.fabsf (F32.sub ch0 (F32.of_Z 3000))) (F32.of_Z 1)
      && F32.ltb (F32.fabsf (F32.sub ch1 (F32.of_Z 1000))) (F32.of_Z 1)
  | _ => false
  end = true.
Proof. vm_compute. reflexivity. Qed.

(** ** The brightness search terminates (sensor.c) *)

Lemma scan_distance_step (count_upward : bool) (i e : Z) :
  0 <= i <= 255 -> 0 <= e <= 255 -> i <> e ->
  let i' := if count_upward then u8_incr i else u8_decr i in
  0 <= i' <= 255
  /\ scan_distance count_upward i e = S (scan_distance count_upward i' e).
Proof.
  intros Hi He Hne. unfold scan_distance, u8_incr, u8_decr.
  destruct count_upward; cbv zeta;
    (split;
     [ Z.div_mod_to_equations; lia
     | rewrite <- Z2Nat.inj_succ by (apply Z.mod_pos_bound; lia);
       f_equal; Z.div_mod_to_equations; lia ]).
Qed.

Lemma brightness_scan_fuel {L : Libm} {TC : Tsl2591Consts} (E : env)
    (count_upward : bool) (end_brightness : Z) (target_ch0 : float) :
  0 <= end_brightness <= 255 ->
  forall (fuel1 fuel2 : nat) (ret_ : osStatus_t) (i : Z)
         (ch0_avg closest_ch0 : float) (closest_led : Z) (w : world),
    0 <= i <= 255 ->
    (scan_distance count_upward i end_brightness <= fuel1)%nat ->
    (scan_distance count_upward i end_brightness <= fuel2)%nat ->
    brightness_scan E fuel1 count_upward end_brightness target_ch0
      ret_ i ch0_avg closest_ch0 closest_led w
    = brightness_scan E fuel2 count_upward end_brightness target_ch0
        ret_ i ch0_avg closest_ch0 closest_led w.
Proof.
  intros He fuel1.
  induction fuel1 as [| fuel1 IH];
    intros fuel2 ret_ i ch0_avg closest_ch0 closest_led w Hi H1 H2.
  - destruct fuel2; cbn [brightness_scan];
      destruct (i =? end_brightness) eqn:Hie; try reflexivity.
    apply Z.eqb_neq in Hie.
    destruct (scan_distance_step count_upward Hi He Hie) as [_ Hd]. lia.
  - destruct fuel2; cbn [brightness_scan];
      destruct (i =? end_brightness) eqn:Hie; try reflexivity;
      apply Z.eqb_neq in Hie;
      destruct (scan_distance_step count_upward Hi He Hie) as [Hi' Hd];
      [lia |].
    unfold bind.
    destruct (sensor_set_light_mode SENSOR_LIGHT_TRANSMISSION true i w)
      as [[] w1].
    destruct (sensor_get_next_reading E 2000 w1) as [[r1 rd1] w2].
    destruct (negb (is_osOK r1)); [reflexivity |].
    destruct (sensor_get_next_reading E 2000 w2) as [[r2 rd2] w3].
    destruct (negb (is_osOK r2)); [reflexivity |].
    destruct (sensor_raw_read_loop E SENSOR_GAIN_LED_CHECK_READ_ITERATIONS
                (Some ch0_avg) None w3) as [[[r3 p0] p1] w4].
    destruct (negb (is_osOK r3)); [reflexivity |].
    destruct count_upward; cbv zeta in Hi', Hd.
    + destruct (F32.isnanf (deref p0 ch0_avg)); [reflexivity |].
      destruct (closest_led =? 0);
        [| destruct (F32.ltb _ _); [| reflexivity]];
        destruct (sensor_set_light_mode SENSOR_LIGHT_OFF false 0 w4)
          as [[] w5];
        destruct (gain_status_callback E SENSOR_GAIN_CALIBRATION_STATUS_LED
                    (u8_incr i) w5) as [go w6];
        destruct (negb go); try reflexivity;
        destruct (osDelay _ w6) as [[] w7];
        apply IH; try assumption; lia.
    + destruct (negb (F32.isnanf (deref p0 ch0_avg)) && F32.leb _ _);
        [reflexivity |].
      destruct (sensor_set_light_mode SENSOR_LIGHT_OFF false 0 w4)
        as [[] w5].
      destruct (gain_status_callback E SENSOR_GAIN_CALIBRATION_STATUS_LED
                  (u8_decr i) w5) as [go w6].
      destruct (negb go); try reflexivity.
      destruct (osDelay _ w6) as [[] w7].
      apply IH; try assumption; lia.
Qed.

(** The 256 iterations [sensor_find_gain_brightness] allows for are never
    used up: more fuel gives the same run. *)
Lemma brightness_scan_256 {L : Libm} {TC : Tsl2591Consts} (E : env)
    (count_upward : bool) (end_brightness : Z) (target_ch0 : float)
    (extra : nat) (ret_ : osStatus_t) (i : Z)
    (ch0_avg closest_ch0 : float) (closest_led : Z) (w : world) :
  0 <= end_brightness <= 255 -> 0 <= i <= 255 ->
  brightness_scan E (256 + extra) count_upward end_brightness target_ch0
    ret_ i ch0_avg closest_ch0 closest_led w
  = brightness_scan E 256 count_upward end_brightness target_ch0
      ret_ i ch0_avg closest_ch0 closest_led w.
Proof.
  intros He Hi.
  assert (Hd : (scan_distance count_upward i end_brightness <= 255)%nat).
  { unfold scan_distance.
    assert (H := Z.mod_pos_bound
                   (if count_upward then end_brightness - i
                    else i - end_brightness) 256 ltac:(lia)).
    lia. }
  apply brightness_scan_fuel; try assumption; lia.
Qed.

Lemma brightness_scan_256_witness :
  brightness_scan (L := RefLibm.ref_libm) (TC := sample_consts) steady_env
    (256 + 1) false 0 (F32.of_Z 30000) osOK 128 F32.zero F32.NAN 0
    (world_init factory_light factory_gains)
  = brightness_scan (L := RefLibm.ref_libm) (TC := sample_consts) steady_env
      256 false 0 (F32.of_Z 30000) osOK 128 F32.zero F32.NAN 0
      (world_init factory_light factory_gains).
Proof.
  refine (@brightness_scan_256 RefLibm.ref_libm sample_consts steady_env
            false 0 (F32.of_Z 30000) 1 osOK 128 F32.zero F32.NAN 0
            (world_init factory_light factory_gains) _ _); lia.
Defined.

(** ** Gain ratios and their validation (sensor.c) *)

(** What the ratio guard does deliver: 0 when an average compares at or
    below 0, the quotient otherwise, and never a negative value. *)
Lemma round_positive_not_negative (m e : Z) (l : location) :
  F32.ltb (binary_round_aux F32.prec F32.emax false m e l) (F32.of_Z 0)
  = false.
Proof.
  unfold binary_round_aux.
  destruct (shr_fexp F32.prec F32.emax m e l) as [mrs' e'].
  destruct (shr_fexp F32.prec F32.emax _ e' loc_Exact) as [mrs'' e''].
  destruct (shr_m mrs''); try reflexivity.
  destruct (e'' <=? F32.emax - F32.prec); reflexivity.
Qed.

Lemma gain_ratio_cases (avg_high avg_low : float) :
  (F32.leb avg_high (F32.of_Z 0) || F32.leb avg_low (F32.of_Z 0) = true ->
   gain_ratio avg_high avg_low = F32.of_Z 0)
  /\ (F32.leb avg_high (F32.of_Z 0) || F32.leb avg_low (F32.of_Z 0) = false ->
      gain_ratio avg_high avg_low = F32.div avg_high avg_low)
  /\ F32.ltb (gain_ratio avg_high avg_low) (F32.of_Z 0) = false.
Proof.
  unfold gain_ratio. split; [| split].
  - intros ->. reflexivity.
  - intros ->. reflexivity.
  - destruct (F32.leb avg_high (F32.of_Z 0) || F32.leb avg_low (F32.of_Z 0))
      eqn:Hg; [reflexivity |].
    apply orb_false_elim in Hg. destruct Hg as [Hh Hl].
    destruct avg_high as [sh | sh | | sh mh eh];
      destruct avg_low as [sl | sl | | sl ml el];
      try discriminate; try reflexivity;
      try (destruct sh; discriminate); try (destruct sl; discriminate);
      try (destruct sh, sl; try discriminate; reflexivity).
    destruct sh; [discriminate |]. destruct sl; [discriminate |].
    unfold F32.div, SFdiv.
    destruct (SFdiv_core_binary _ _ _ _ _ _) as [[mz ez] lz].
    apply round_positive_not_negative.
Qed.

(** What it does not deliver: a NaN average is not "at or below 0", so it
    goes into the quotient. *)
Lemma gain_ratio_nan (avg_low : float) :
  F32.leb avg_low (F32.of_Z 0) = false ->
  gain_ratio F32.NAN avg_low = F32.NAN.
Proof.
  intros Hl. unfold gain_ratio. rewrite Hl. reflexivity.
Qed.

(** The range check keeps a NaN: NaN is neither below the minimum nor
    above the maximum. *)
Lemma gain_in_range_or_typ_nan (min typ max : float) :
  gain_in_range_or_typ F32.NAN min typ max = F32.NAN.
Proof.
  unfold gain_in_range_or_typ.
  destruct (compare_nan_l min) as (-> & _).
  destruct max; reflexivity.
Qed.

Lemma compare_defined (x y : float) :
  F32.isnanf x = false -> F32.isnanf y = false ->
  exists c, SFcompare x y = Some c.
Proof.
  destruct x, y; try discriminate; intros _ _; simpl; eexists; reflexivity.
Qed.

Lemma compare_total (x y : float) :
  F32.isnanf x = false -> F32.isnanf y = false ->
  F32.ltb x y = false -> F32.leb y x = true.
Proof.
  unfold F32.ltb, F32.leb, SFltb, SFleb. intros Hx Hy.
  rewrite (SFcompare_antisym x y).
  destruct (compare_defined x y Hx Hy) as [c ->].
  destruct c; simpl; congruence.
Qed.

(** For every value other than NaN the range check does what the
    specification says: the result lies within the bounds. *)
Lemma gain_in_range_or_typ_bounds (g min typ max : float) :
  F32.isnanf g = false ->
  F32.leb min typ = true -> F32.leb typ max = true ->
  F32.leb min (gain_in_range_or_typ g min typ max) = true
  /\ F32.leb (gain_in_range_or_typ g min typ max) max = true.
Proof.
  intros Hg Hmin Hmax. unfold gain_in_range_or_typ.
  destruct (F32.ltb g min || F32.gtb g max) eqn:Hout; [now split |].
  apply orb_false_elim in Hout. destruct Hout as [Hlo Hhi].
  assert (Hnmin : F32.isnanf min = false) by (destruct min; easy).
  assert (Hnmax : F32.isnanf max = false)
    by (destruct max; try easy; destruct typ; discriminate).
  split.
  - now apply compare_total.
  - apply compare_total; assumption.
Qed.

Lemma range_check_within_or_nan (g min typ max : float) :
  F32.leb min typ = true /\ F32.leb typ max = true ->
  within_or_nan (gain_in_range_or_typ g min typ max) min max.
Proof.
  intros [Hmin Hmax]. unfold within_or_nan.
  destruct (F32.isnanf g) eqn:Hg.
  - left. destruct g; try discriminate.
    now rewrite gain_in_range_or_typ_nan.
  - right. now apply gain_in_range_or_typ_bounds.
Qed.

Lemma nan_within_or_nan (min max : float) : within_or_nan F32.NAN min max.
Proof. now left. Qed.

(** On every path through the body of [sensor_gain_calibration] that ends
    with [ret] at [osOK], each multiplier is still the NaN it was
    initialised with or has been through its range check. *)
Lemma gain_calibration_block_ok {L : Libm} {TC : Tsl2591Consts} (E : env)
    (w : world) :
  typical_within ->
  fst (fst (gain_calibration_block E w)) = osOK ->
  let l := snd (fst (gain_calibration_block E w)) in
  gains_within_or_nan
    {| ch0_medium := gain_med_ch0 l; ch1_medium := gain_med_ch1 l;
       ch0_high := gain_high_ch0 l; ch1_high := gain_high_ch1 l;
       ch0_maximum := gain_max_ch0 l; ch1_maximum := gain_max_ch1 l |}.
Proof.
  intros (Hmed & Hhigh & Hmax0 & Hmax1).
  unfold gain_calibration_block, bind, gains_within_or_nan.
  repeat match goal with
         | |- context [let (_, _) := ?m ?w0 in _] =>
             match m with
             | _ => destruct (m w0) as [? ?]
             end
         | |- context [match ?p with (_, _) => _ end] =>
             is_var p; destruct p
         | |- context [if negb (is_osOK ?r) || _ then _ else _] =>
             destruct r; cbn [is_osOK negb orb]
         | |- context [if negb (is_osOK ?r) then _ else _] =>
             destruct r; cbn [is_osOK negb]
         | |- context [if negb ?b then _ else _] =>
             is_var b; destruct b; cbn [negb]
         | |- context [if (?a =? ?b) then _ else _] =>
             destruct (a =? b)
         end;
    cbn [fst snd ret gain_med_ch0 gain_med_ch1 gain_high_ch0 gain_high_ch1
           gain_max_ch0 gain_max_ch1 ch0_medium ch1_medium ch0_high ch1_high
           ch0_maximum ch1_maximum];
    try discriminate.
  all: intros _; repeat split;
    first [ apply nan_within_or_nan
          | apply range_check_within_or_nan; assumption ].
Qed.

(** How far the validation does hold: in every run that reports success
    with a store that accepts writes, each persisted multiplier lies within
    the range of its tier or is NaN. *)
Lemma gain_calibration_persisted {L : Libm} {TC : Tsl2591Consts} (E : env)
    (w : world) :
  typical_within -> env_settings_write E = true ->
  fst (sensor_gain_calibration E w) = osOK ->
  gains_within_or_nan (w_cal_gain (snd (sensor_gain_calibration E w))).
Proof.
  intros Htyp Hwrite. unfold sensor_gain_calibration, bind.
  destruct (gain_status_callback E SENSOR_GAIN_CALIBRATION_STATUS_INIT 0 w)
    as [go w1].
  destruct go; cbn [negb]; [| discriminate].
  destruct (sensor_set_light_mode SENSOR_LIGHT_OFF false 0 w1) as [[] w2].
  pose proof (gain_calibration_block_ok E w2 Htyp) as Hblk.
  destruct (gain_calibration_block E w2) as [[r l] w3].
  cbn [fst snd] in Hblk.
  destruct r; cbn [is_osOK];
    match goal with
    | |- context [gain_status_callback E ?st 0 w3] =>
        destruct (gain_status_callback E st 0 w3) as [go w4]
    end;
    destruct go; cbn [negb ret is_osOK sensor_stop emit fst snd
                        sensor_set_light_mode];
    try discriminate.
  unfold settings_set_cal_light, settings_set_cal_gain.
  rewrite Hwrite. cbn [fst snd w_cal_gain]. intros _.
  now apply Hblk.
Qed.

Lemma gain_calibration_persisted_witness :
  gains_within_or_nan (TC := sample_consts)
    (w_cal_gain (snd (sensor_gain_calibration (L := RefLibm.ref_libm)
                        (TC := sample_consts) steady_env
                        (world_init factory_light NAN_gains)))).
Proof.
  refine (@gain_calibration_persisted RefLibm.ref_libm sample_consts
            steady_env (world_init factory_light NAN_gains) _ eq_refl _).
  - vm_compute. repeat split.
  - vm_compute. reflexivity.
Defined.

(** Whatever a completed gain-ratio measurement writes is the guarded
    ratio of two averages, and so is never negative. *)
Lemma gain_calibration_loop_ratio {L : Libm} {TC : Tsl2591Consts} (E : env)
    (gain_low gain_high : tsl2591_gain_t) (time : tsl2591_time_t)
    (led_brightness : Z) (g0 g1 : float)
    (callback_status : sensor_gain_calibration_status_t) (w : world) :
  fst (fst (fst (sensor_gain_calibration_loop E gain_low gain_high time
                   led_brightness (Some g0) (Some g1) callback_status w)))
  = osOK ->
  exists high0 low0 high1 low1,
    fst (sensor_gain_calibration_loop E gain_low gain_high time
           led_brightness (Some g0) (Some g1) callback_status w)
    = (osOK, Some (gain_ratio high0 low0), Some (gain_ratio high1 low1))
    /\ F32.ltb (gain_ratio high0 low0) (F32.of_Z 0) = false
    /\ F32.ltb (gain_ratio high1 low1) (F32.of_Z 0) = false.
Proof.
  unfold sensor_gain_calibration_loop, bind.
  destruct (gain_index gain_low >=? gain_index gain_high); [discriminate |].
  destruct (gain_calibration_loop_block E gain_low gain_high time
              led_brightness callback_status w)
    as [[r [[[high0 high1] low0] low1]] w'].
  destruct r; cbn [is_osOK ret fst snd store]; try discriminate.
  intros _. exists high0, low0, high1, low1.
  repeat split; apply gain_ratio_cases.
Qed.

Example sample_typical_within : typical_within (TC := sample_consts).
Proof. vm_compute. repeat split. Qed.

(** C4 (failing run).  Steady light with one saturated reading, the first
    of the high-gain averaging run (the third reading delivered, after the
    two discarded ones): the gain-ratio measurement between the low and the
    medium tier completes with [osOK] and returns NaN as the ratio of both
    channels. *)
Theorem gain_ratio_nan_after_saturation :
  fst (sensor_gain_calibration_loop (L := RefLibm.ref_libm)
         (TC := sample_consts) (glare_env 2)
         TSL2591_GAIN_LOW TSL2591_GAIN_MEDIUM TSL2591_TIME_600MS 128
         (Some F32.zero) (Some F32.zero)
         SENSOR_GAIN_CALIBRATION_STATUS_MEDIUM
         (world_init factory_light factory_gains))
  = (osOK, Some F32.NAN, Some F32.NAN).
Proof. vm_compute. reflexivity. Qed.

(** C5 (failing run).  Steady light with one saturated reading during the
    medium-gain measurement (the eighth reading delivered): the run
    reports success and the gain table it persists holds NaN in all six
    multipliers, none of them replaced by a typical constant. *)
Theorem gain_calibration_persists_nan :
  fst (sensor_gain_calibration (L := RefLibm.ref_libm) (TC := sample_consts)
         (glare_env 7) (world_init factory_light factory_gains)) = osOK
  /\ w_cal_gain
       (snd (sensor_gain_calibration (L := RefLibm.ref_libm)
               (TC := sample_consts) (glare_env 7)
               (world_init factory_light factory_gains))) = NAN_gains.
Proof. vm_compute. split; reflexivity. Qed.

(** A second way to the same end: when every reading is saturated the
    brightness search comes back with brightness 0, the [break] at
    sensor.c:99 leaves [ret] at [osOK], and the run persists the NaN the
    multipliers were initialised with, along with a transmission
    brightness of 0. *)
Example gain_calibration_all_saturated :
  fst (sensor_gain_calibration (L := RefLibm.ref_libm) (TC := sample_consts)
         (env_of (fun _ => (65535, 65535)))
         (world_init factory_light factory_gains)) = osOK
  /\ w_cal_gain
       (snd (sensor_gain_calibration (L := RefLibm.ref_libm)
               (TC := sample_consts) (env_of (fun _ => (65535, 65535)))
               (world_init factory_light factory_gains))) = NAN_gains
  /\ w_cal_light
       (snd (sensor_gain_calibration (L := RefLibm.ref_libm)
               (TC := sample_consts) (env_of (fun _ => (65535, 65535)))
               (world_init factory_light factory_gains)))
     = {| cal_light_reflection := 128; cal_light_transmission := 0 |}.
Proof. vm_compute. repeat split. Qed.

(** Without saturation the same run replaces each out-of-range ratio (here
    1, the light being steady across tiers) by the typical constant. *)
Example gain_calibration_steady :
  fst (sensor_gain_calibration (L := RefLibm.ref_libm) (TC := sample_consts)
         steady_env (world_init factory_light NAN_gains)) = osOK
  /\ w_cal_gain
       (snd (sensor_gain_calibration (L := RefLibm.ref_libm)
               (TC := sample_consts) steady_env
               (world_init factory_light NAN_gains))) = factory_gains.
Proof. vm_compute. split; reflexivity. Qed.

(** ** What a gain calibration run leaves alone (sensor.c) *)

Lemma preserves_ret {A X : Type} (f : world -> X) (a : A) :
  preserves f (ret a).
Proof. intros w. reflexivity. Qed.

Lemma preserves_bind {A B X : Type} (f : world -> X) (m : M A)
    (k : A -> M B) :
  preserves f m -> (forall a, preserves f (k a)) -> preserves f (bind m k).
Proof.
  intros Hm Hk w. unfold bind.
  specialize (Hm w). destruct (m w) as [a w1]. cbn [snd] in Hm.
  rewrite (Hk a w1). exact Hm.
Qed.

Create HintDb preserve.

(** One step of a proof that a computation preserves an observation:
    split a sequence, branch on a test, or close a leaf. *)
Ltac preserves_step :=
  match goal with
  | |- preserves _ (ret _) => apply preserves_ret
  | |- preserves _ (bind _ _) =>
      apply preserves_bind; [| intros ?; cbv beta zeta]
  | |- preserves _ (if ?b then _ else _) => destruct b
  | |- preserves _ (match ?x with _ => _ end) => destruct x
  | |- preserves _ _ => solve [auto with preserve]
  | |- preserves _ _ => progress cbv beta zeta
  end.
Ltac preserves_all := repeat preserves_step.

Section Frames.
Context {L : Libm} {TC : Tsl2591Consts}.
Variable E : env.

Lemma emit_tables ev : preserves tables (emit ev).
Proof. intros w. reflexivity. Qed.

Lemma next_reading_tables t : preserves tables (sensor_get_next_reading E t).
Proof. intros w. reflexivity. Qed.

Lemma set_config_tables g t : preserves tables (sensor_set_config E g t).
Proof. intros w. reflexivity. Qed.

Lemma start_tables : preserves tables (sensor_start E).
Proof. intros w. reflexivity. Qed.

Lemma callback_tables st p : preserves tables (gain_status_callback E st p).
Proof.
  intros w. unfold gain_status_callback.
  destruct (env_callback E); reflexivity.
Qed.

#[local] Hint Resolve emit_tables next_reading_tables set_config_tables
  start_tables callback_tables : preserve.
#[local] Hint Unfold sensor_stop sensor_set_light_mode osDelay : preserve.

Lemma cooldown_tables n i : preserves tables (cooldown_loop E n i).
Proof.
  revert i. induction n as [| n IH]; intros i; cbn [cooldown_loop];
    preserves_all.
Qed.

Lemma raw_read_iter_tables n r s0 s1 :
  preserves tables (raw_read_iter E n r s0 s1).
Proof.
  revert r s0 s1. induction n as [| n IH]; intros r s0 s1;
    cbn [raw_read_iter]; preserves_all.
Qed.

Lemma gain_cooldown_tables :
  preserves tables (sensor_gain_calibration_cooldown E).
Proof. apply cooldown_tables. Qed.

#[local] Hint Resolve cooldown_tables gain_cooldown_tables
  raw_read_iter_tables : preserve.

Lemma raw_read_loop_tables c p0 p1 :
  preserves tables (sensor_raw_read_loop E c p0 p1).
Proof. unfold sensor_raw_read_loop. preserves_all. Qed.

#[local] Hint Resolve raw_read_loop_tables : preserve.

Lemma gain_loop_tables gl gh t led g0 g1 st :
  preserves tables (sensor_gain_calibration_loop E gl gh t led g0 g1 st).
Proof.
  unfold sensor_gain_calibration_loop, gain_calibration_loop_block.
  preserves_all.
Qed.

Lemma scan_tables fuel up e tgt :
  forall r i c0 cc cl,
    preserves tables (brightness_scan E fuel up e tgt r i c0 cc cl).
Proof.
  induction fuel as [| fuel IH]; intros r i c0 cc cl;
    cbn [brightness_scan]; preserves_all.
Qed.

#[local] Hint Resolve gain_loop_tables scan_tables : preserve.

Lemma find_brightness_tables p g t s e f :
  preserves tables (sensor_find_gain_brightness E p g t s e f).
Proof. unfold sensor_find_gain_brightness. preserves_all. Qed.

#[local] Hint Resolve find_brightness_tables : preserve.

Lemma gain_block_tables : preserves tables (gain_calibration_block E).
Proof. unfold gain_calibration_block. preserves_all. Qed.

(** Gain calibration is all-or-nothing: a run that does not report success
    leaves both persisted tables as they were. *)
Theorem gain_calibration_all_or_nothing (w : world) :
  fst (sensor_gain_calibration E w) <> osOK ->
  w_cal_gain (snd (sensor_gain_calibration E w)) = w_cal_gain w
  /\ w_cal_light (snd (sensor_gain_calibration E w)) = w_cal_light w.
Proof.
  intros Hfail.
  assert (Hgoal : tables (snd (sensor_gain_calibration E w)) = tables w);
    [| now inversion Hgoal].
  revert Hfail. unfold sensor_gain_calibration, bind.
  pose proof (callback_tables SENSOR_GAIN_CALIBRATION_STATUS_INIT 0 w) as H1.
  destruct (gain_status_callback E SENSOR_GAIN_CALIBRATION_STATUS_INIT 0 w)
    as [go w1].
  cbn [snd] in H1. destruct go; cbn [negb ret snd]; [| now intros _].
  destruct (sensor_set_light_mode SENSOR_LIGHT_OFF false 0 w1) as [[] w2]
    eqn:H2.
  assert (H2' : tables w2 = tables w1) by (inversion H2; reflexivity).
  pose proof (gain_block_tables w2) as H3.
  destruct (gain_calibration_block E w2) as [[r l] w3]. cbn [snd] in H3.
  assert (Hchain : tables w3 = tables w) by congruence.
  destruct r; cbn [is_osOK];
    match goal with
    | |- context [gain_status_callback E ?st 0 w3] =>
        pose proof (callback_tables st 0 w3) as H4;
        destruct (gain_status_callback E st 0 w3) as [go w4]
    end;
    cbn [snd] in H4;
    destruct go; cbn [negb ret is_osOK sensor_stop emit fst snd
                        sensor_set_light_mode];
    intros Hfail;
    first [ exfalso; apply Hfail;
            unfold settings_set_cal_light, settings_set_cal_gain;
            destruct (env_settings_write E); reflexivity
          | unfold tables in *; cbn [w_cal_light w_cal_gain]; congruence ].
Qed.

(** Whatever happens after the INIT callback has been passed, a gain
    calibration run ends by stopping the sensor and then switching the
    light off. *)
Theorem gain_calibration_powers_down (w : world) :
  fst (gain_status_callback E SENSOR_GAIN_CALIBRATION_STATUS_INIT 0 w)
  = true ->
  exists earlier,
    w_trace (snd (sensor_gain_calibration E w))
    = EvLightMode SENSOR_LIGHT_OFF false 0 :: EvStop :: earlier.
Proof.
  unfold sensor_gain_calibration, bind.
  destruct (gain_status_callback E SENSOR_GAIN_CALIBRATION_STATUS_INIT 0 w)
    as [go w1].
  cbn [fst]. intros ->. cbn [negb].
  destruct (sensor_set_light_mode SENSOR_LIGHT_OFF false 0 w1) as [[] w2].
  destruct (gain_calibration_block E w2) as [[r l] w3].
  assert (Hdone : forall st,
             exists w4 r',
               (let (go, w') := gain_status_callback E st 0 w3 in
                ret (if negb go then osError else r) w') = (r', w4)).
  { intros st. destruct (gain_status_callback E st 0 w3) as [go w4].
    now exists w4, (if negb go then osError else r). }
  destruct (is_osOK r);
    [destruct (Hdone SENSOR_GAIN_CALIBRATION_STATUS_DONE) as (w4 & r' & ->)
    |destruct (Hdone SENSOR_GAIN_CALIBRATION_STATUS_FAILED)
       as (w4 & r' & ->)];
    cbn [sensor_stop emit sensor_set_light_mode fst snd];
    (destruct (is_osOK r'); [| now eexists]);
    unfold settings_set_cal_light, settings_set_cal_gain;
    destruct (env_settings_write E); cbn [fst snd w_trace ret];
    now eexists.
Qed.

(** *** The brightness search *)

Lemma next_reading_light t :
  preserves light_now (sensor_get_next_reading E t).
Proof. intros w. reflexivity. Qed.

Lemma set_config_light g t : preserves light_now (sensor_set_config E g t).
Proof. intros w. reflexivity. Qed.

Lemma delay_light ms : preserves light_now (osDelay ms).
Proof. intros w. reflexivity. Qed.

Lemma callback_light st p : preserves light_now (gain_status_callback E st p).
Proof.
  intros w. unfold gain_status_callback.
  destruct (env_callback E); reflexivity.
Qed.

#[local] Hint Resolve next_reading_light set_config_light delay_light
  callback_light : preserve.

Lemma raw_read_iter_light n r s0 s1 :
  preserves light_now (raw_read_iter E n r s0 s1).
Proof.
  revert r s0 s1. induction n as [| n IH]; intros r s0 s1;
    cbn [raw_read_iter]; preserves_all.
Qed.

#[local] Hint Resolve raw_read_iter_light : preserve.

Lemma raw_read_loop_light c p0 p1 :
  preserves light_now (sensor_raw_read_loop E c p0 p1).
Proof. unfold sensor_raw_read_loop. preserves_all. Qed.

(** The tail of the loop body: light off, callback, then either a
    [return] (with the light off) or the delay and the next iteration. *)
Ltac scan_tail :=
  cbn [sensor_set_light_mode emit];
  match goal with
  | |- context [gain_status_callback ?E0 ?st ?i ?w0] =>
      let Hcb := fresh "Hcb" in
      let go := fresh "go" in
      pose proof (callback_light st i w0) as Hcb;
      destruct (gain_status_callback E0 st i w0) as [go ?];
      cbn [snd w_trace] in Hcb; unfold light_now in Hcb;
      cbn [w_trace last_light] in Hcb;
      destruct go; cbn [negb ret];
      [cbn [osDelay emit] | split; [reflexivity | exact Hcb]]
  end.

(** A [return] from inside the scan carries [osError] and happens with the
    light switched off; a brightness the scan selects is one it has
    tested. *)
Lemma brightness_scan_exit (start_brightness end_brightness : Z)
    (target_ch0 : float) :
  0 <= start_brightness <= 255 -> 0 <= end_brightness <= 255 ->
  forall (fuel : nat) (ret_ : osStatus_t) (i : Z)
         (ch0_avg closest_ch0 : float) (closest_led : Z) (w : world),
    (if start_brightness <? end_brightness
     then start_brightness <= i <= end_brightness
     else end_brightness <= i <= start_brightness) ->
    closest_led = 0 \/ scanned start_brightness end_brightness closest_led ->
    match brightness_scan E fuel (start_brightness <? end_brightness)
            end_brightness target_ch0 ret_ i ch0_avg closest_ch0
            closest_led w with
    | (Fallthrough (_, _, led), _) =>
        led = 0 \/ scanned start_brightness end_brightness led
    | (Return _ r, w') =>
        r = osError /\ light_now w' = Some SENSOR_LIGHT_OFF
    end.
Proof.
  intros Hs He fuel.
  induction fuel as [| fuel IH];
    intros ret_ i ch0_avg closest_ch0 closest_led w Hi Hled;
    cbn [brightness_scan];
    destruct (i =? end_brightness) eqn:Hie; try exact Hled.
  apply Z.eqb_neq in Hie.
  assert (Hnow : scanned start_brightness end_brightness i).
  { unfold scanned. destruct (start_brightness <? end_brightness); lia. }
  assert (Hnext : if start_brightness <? end_brightness
                  then start_brightness <= u8_incr i <= end_brightness
                  else end_brightness <= u8_decr i <= start_brightness).
  { unfold u8_incr, u8_decr.
    destruct (start_brightness <? end_brightness);
      rewrite Z.mod_small by lia; lia. }
  unfold bind.
  destruct (sensor_set_light_mode SENSOR_LIGHT_TRANSMISSION true i w)
    as [[] w1].
  destruct (sensor_get_next_reading E 2000 w1) as [[r1 rd1] w2].
  destruct (negb (is_osOK r1)); [exact Hled |].
  destruct (sensor_get_next_reading E 2000 w2) as [[r2 rd2] w3].
  destruct (negb (is_osOK r2)); [exact Hled |].
  destruct (sensor_raw_read_loop E SENSOR_GAIN_LED_CHECK_READ_ITERATIONS
              (Some ch0_avg) None w3) as [[[r3 p0] p1] w4].
  destruct (negb (is_osOK r3)); [exact Hled |].
  destruct (start_brightness <? end_brightness) eqn:Hup.
  - destruct (F32.isnanf (deref p0 ch0_avg)); [exact Hled |].
    destruct (closest_led =? 0); [| destruct (F32.ltb _ _); [| exact Hled]];
      scan_tail; apply IH; try exact Hnext; now right.
  - destruct (negb (F32.isnanf (deref p0 ch0_avg)) && F32.leb _ _);
      [now right |].
    scan_tail; now apply IH.
Qed.

End Frames.

(** A sensor that never answers: the run fails and both tables are as they
    were. *)
Lemma gain_calibration_all_or_nothing_witness :
  w_cal_gain (snd (sensor_gain_calibration (L := RefLibm.ref_libm)
                     (TC := sample_consts) timeout_env
                     (world_init factory_light factory_gains)))
  = factory_gains
  /\ w_cal_light (snd (sensor_gain_calibration (L := RefLibm.ref_libm)
                         (TC := sample_consts) timeout_env
                         (world_init factory_light factory_gains)))
     = factory_light.
Proof.
  refine (@gain_calibration_all_or_nothing RefLibm.ref_libm sample_consts
            timeout_env (world_init factory_light factory_gains) _).
  vm_compute. discriminate.
Defined.


Lemma gain_calibration_powers_down_witness :
  exists earlier,
    w_trace (snd (sensor_gain_calibration (L := RefLibm.ref_libm)
                    (TC := sample_consts) timeout_env
                    (world_init factory_light factory_gains)))
    = EvLightMode SENSOR_LIGHT_OFF false 0 :: EvStop :: earlier.
Proof.
  exact (@gain_calibration_powers_down RefLibm.ref_libm sample_consts
           timeout_env (world_init factory_light factory_gains) eq_refl).
Defined.

(** ** The curve fit (slopecalibrationdialog.cpp) *)

Lemma skipn_cons_nth {A : Type} (l : list A) (k : nat) (x : A) (t : list A) :
  skipn k l = x :: t -> nth_error l k = Some x /\ skipn (S k) l = t.
Proof.
  revert l. induction k as [| k IH]; intros [| h l] H; simpl in *;
    try discriminate.
  - inversion H. now split.
  - now apply IH.
Qed.

(** Past row 0 the loop appends one point per present row and stops at the
    first row that is not. *)
Lemma collect_rows_tail {L : Libm} (d : dialog) (n : nat) :
  forall (row : nat) (rest : list (cell * cell))
         (xList yList : list float) (base : float),
    skipn row (model_ d) = rest -> length rest = n -> (1 <= row)%nat ->
    collect_rows d n row xList yList base
    = (xList ++ map (fun r => log10f (snd r)) (present_prefix rest),
       yList ++ map (fun r =>
                       log10f (F32.div base (powf (F32.lit 10 1) (fst r))))
                  (present_prefix rest)).
Proof.
  induction n as [| n IH]; intros row rest xList yList base Hskip Hlen Hrow.
  - destruct rest; [| discriminate]. simpl. now rewrite !app_nil_r.
  - destruct rest as [| [c0 c1] rest]; [discriminate |].
    destruct (skipn_cons_nth _ _ Hskip) as [Hnth Hnext].
    cbn [collect_rows present_prefix]. unfold itemValueAsFloat.
    rewrite Hnth. cbn [Nat.eqb]. unfold row_present. cbn [fst snd].
    fold (cell_value c0) (cell_value c1).
    destruct (F32.isnanf (cell_value c0)); cbn [orb negb andb];
      [now rewrite !app_nil_r |].
    destruct (F32.isnanf (cell_value c1)); cbn [orb negb andb];
      [now rewrite !app_nil_r |].
    destruct row as [| row]; [lia |]. cbn [Nat.eqb].
    rewrite (IH (S (S row)) rest) by (try assumption; simpl in Hlen; lia).
    cbn [map fst snd]. now rewrite <- !app_assoc.
Qed.

Lemma collect_rows_fit_series {L : Libm} (d : dialog) :
  collect_rows d (length (model_ d)) 0 [] [] F32.NAN = fit_series (model_ d).
Proof.
  unfold fit_series.
  destruct (model_ d) as [| [c0 c1] rest] eqn:Hrows; [reflexivity |].
  cbn [length collect_rows present_prefix]. unfold itemValueAsFloat.
  rewrite Hrows. cbn [nth_error Nat.eqb]. unfold row_present. cbn [fst snd].
  fold (cell_value c0) (cell_value c1).
  destruct (F32.isnanf (cell_value c0)); cbn [orb negb andb];
    [reflexivity |].
  destruct (F32.isnanf (cell_value c1)); cbn [orb negb andb];
    [reflexivity |].
  destruct (F32.ltb (cell_value c0) (F32.lit 0 1)
            || F32.gtb (cell_value c0) (F32.lit 1 1000)); [reflexivity |].
  rewrite (@collect_rows_tail L d (length rest) 1 rest);
    try reflexivity; try lia.
  rewrite Hrows. reflexivity.
Qed.

(** *** Gaussian elimination in exact arithmetic *)

Section ExactFit.
Local Open Scope R_scope.

Lemma Rltb_true (x y : R) : Rltb x y = true -> x < y.
Proof. unfold Rltb. destruct (Rlt_dec x y); [auto | discriminate]. Qed.

Lemma Rltb_false (x y : R) : Rltb x y = false -> y <= x.
Proof. unfold Rltb. destruct (Rlt_dec x y); [discriminate | lra]. Qed.

Lemma Rabs_le_zero (x y : R) : Rabs x <= Rabs y -> y = 0 -> x = 0.
Proof.
  intros H ->. rewrite Rabs_R0 in H.
  destruct (Req_dec x 0) as [|Hx]; [assumption|].
  apply Rabs_pos_lt in Hx. lra.
Qed.

(** For three equations the elimination loop runs two rounds. *)
Lemma gauss_stages (a : list (list R)) (x : list R) :
  gaussEliminationLS R_fit 3 4 a x
  = back_substitute R_fit 3 4
      (eliminate R_fit 3
         (pivot R_fit 3 (eliminate R_fit 3 (pivot R_fit 3 a 0) 0) 1) 1) x.
Proof. reflexivity. Qed.

Lemma pivot_0 (p q r : list R) (p0 q0 r0 : R) (pt qt rt : list R) :
  p = p0 :: pt -> q = q0 :: qt -> r = r0 :: rt ->
  pivot R_fit 3 [p; q; r] 0
  = if Rltb (Rabs p0) (Rabs q0)
    then if Rltb (Rabs q0) (Rabs r0) then [r; p; q] else [q; p; r]
    else if Rltb (Rabs p0) (Rabs r0) then [r; q; p] else [p; q; r].
Proof.
  intros -> -> ->. unfold pivot, mget, swap_rows.
  cbn -[Rltb Rabs].
  destruct (Rltb (Rabs p0) (Rabs q0)); cbn -[Rltb Rabs].
  - destruct (Rltb (Rabs q0) (Rabs r0)); reflexivity.
  - destruct (Rltb (Rabs p0) (Rabs r0)); reflexivity.
Qed.

Lemma eliminate_0 (p0 p1 p2 p3 q0 q1 q2 q3 r0 r1 r2 r3 : R) :
  eliminate R_fit 3
    [[p0; p1; p2; p3]; [q0; q1; q2; q3]; [r0; r1; r2; r3]] 0
  = [[p0; p1; p2; p3];
     [q0 - q0 / p0 * p0; q1 - q0 / p0 * p1; q2 - q0 / p0 * p2;
      q3 - q0 / p0 * p3];
     [r0 - r0 / p0 * p0; r1 - r0 / p0 * p1; r2 - r0 / p0 * p2;
      r3 - r0 / p0 * p3]].
Proof. reflexivity. Qed.

Lemma pivot_1 (p q r : list R) (q0 q1 r0 r1 : R) (qt rt : list R) :
  q = q0 :: q1 :: qt -> r = r0 :: r1 :: rt ->
  pivot R_fit 3 [p; q; r] 1
  = if Rltb (Rabs q1) (Rabs r1) then [p; r; q] else [p; q; r].
Proof.
  intros -> ->. unfold pivot, mget, swap_rows.
  cbn -[Rltb Rabs].
  destruct (Rltb (Rabs q1) (Rabs r1)); reflexivity.
Qed.

Lemma eliminate_1 (p : list R) (q0 q1 q2 q3 r0 r1 r2 r3 : R) :
  eliminate R_fit 3 [p; [q0; q1; q2; q3]; [r0; r1; r2; r3]] 1
  = [p; [q0; q1; q2; q3];
     [r0 - r1 / q1 * q0; r1 - r1 / q1 * q1; r2 - r1 / q1 * q2;
      r3 - r1 / q1 * q3]].
Proof. reflexivity. Qed.

Lemma back_substitute_3
    (p0 p1 p2 p3 q0 q1 q2 q3 r0 r1 r2 r3 u0 u1 u2 : R) :
  back_substitute R_fit 3 4
    [[p0; p1; p2; p3]; [q0; q1; q2; q3]; [r0; r1; r2; r3]] [u0; u1; u2]
  = let x2 := r3 / r2 in
    let x1 := (q3 - q2 * x2) / q1 in
    let x0 := (p3 - p1 * x1 - p2 * x2) / p0 in
    [x0; x1; x2].
Proof. reflexivity. Qed.

(** When the first column already has its largest entry on top, the
    elimination solves a system whose determinant is not zero. *)
Lemma gauss_pivoted (p0 p1 p2 p3 q0 q1 q2 q3 r0 r1 r2 r3 u0 u1 u2 : R) :
  Rabs q0 <= Rabs p0 -> Rabs r0 <= Rabs p0 ->
  det3 p0 p1 p2 q0 q1 q2 r0 r1 r2 <> 0 ->
  exists x0 x1 x2,
    back_substitute R_fit 3 4
      (eliminate R_fit 3
         (pivot R_fit 3
            (eliminate R_fit 3
               [[p0; p1; p2; p3]; [q0; q1; q2; q3]; [r0; r1; r2; r3]] 0) 1)
         1) [u0; u1; u2] = [x0; x1; x2]
    /\ p0 * x0 + p1 * x1 + p2 * x2 = p3
    /\ q0 * x0 + q1 * x1 + q2 * x2 = q3
    /\ r0 * x0 + r1 * x1 + r2 * x2 = r3.
Proof.
  intros Hq Hr Hdet.
  assert (Hp0 : p0 <> 0).
  { intros Hz. apply Hdet.
    rewrite (@Rabs_le_zero _ _ Hq Hz), (@Rabs_le_zero _ _ Hr Hz), Hz.
    unfold det3. ring. }
  rewrite eliminate_0.
  set (q1' := q1 - q0 / p0 * p1). set (q2' := q2 - q0 / p0 * p2).
  set (q3' := q3 - q0 / p0 * p3).
  set (r1' := r1 - r0 / p0 * p1). set (r2' := r2 - r0 / p0 * p2).
  set (r3' := r3 - r0 / p0 * p3).
  replace (q0 - q0 / p0 * p0) with 0 by (field; assumption).
  replace (r0 - r0 / p0 * p0) with 0 by (field; assumption).
  assert (Hdet' : det3 p0 p1 p2 q0 q1 q2 r0 r1 r2
                  = p0 * (q1' * r2' - q2' * r1')).
  { unfold det3, q1', q2', r1', r2'. field. assumption. }
  assert (Hq1 : q1 = q1' + q0 / p0 * p1) by (unfold q1'; ring).
  assert (Hq2 : q2 = q2' + q0 / p0 * p2) by (unfold q2'; ring).
  assert (Hq3 : q3 = q3' + q0 / p0 * p3) by (unfold q3'; ring).
  assert (Hr1 : r1 = r1' + r0 / p0 * p1) by (unfold r1'; ring).
  assert (Hr2 : r2 = r2' + r0 / p0 * p2) by (unfold r2'; ring).
  assert (Hr3 : r3 = r3' + r0 / p0 * p3) by (unfold r3'; ring).
  rewrite Hdet' in Hdet.
  assert (Hm : q1' * r2' - q2' * r1' <> 0).
  { intros Hz. apply Hdet. rewrite Hz. ring. }
  clear Hdet Hdet'.
  clearbody q1' q2' q3' r1' r2' r3'.
  rewrite (@pivot_1 [p0; p1; p2; p3] [0; q1'; q2'; q3'] [0; r1'; r2'; r3']
             _ _ _ _ _ _ eq_refl eq_refl).
  destruct (Rltb (Rabs q1') (Rabs r1')) eqn:Hcmp.
  - apply Rltb_true in Hcmp.
    assert (Hs : r1' <> 0).
    { intros Hz. rewrite Hz, Rabs_R0 in Hcmp.
      pose proof (Rabs_pos q1'). lra. }
    rewrite eliminate_1, back_substitute_3.
    do 3 eexists. split; [reflexivity|].
    cbv zeta. rewrite Hq1, Hq2, Hq3, Hr1, Hr2, Hr3.
    repeat split; field; repeat split; try assumption;
      intros Hz; apply Hm; lra.
  - apply Rltb_false in Hcmp.
    assert (Hs : q1' <> 0).
    { intros Hz. apply Hm.
      rewrite (@Rabs_le_zero _ _ Hcmp Hz), Hz. ring. }
    rewrite eliminate_1, back_substitute_3.
    do 3 eexists. split; [reflexivity|].
    cbv zeta. rewrite Hq1, Hq2, Hq3, Hr1, Hr2, Hr3.
    repeat split; field; repeat split; try assumption;
      intros Hz; apply Hm; lra.
Qed.

(** [gaussEliminationLS] on three equations in three unknowns returns the
    solution whenever the determinant of the system is not zero. *)
Lemma gauss_3x4 (a00 a01 a02 b0 a10 a11 a12 b1 a20 a21 a22 b2 u0 u1 u2 : R) :
  det3 a00 a01 a02 a10 a11 a12 a20 a21 a22 <> 0 ->
  exists x0 x1 x2,
    gaussEliminationLS R_fit 3 4
      [[a00; a01; a02; b0]; [a10; a11; a12; b1]; [a20; a21; a22; b2]]
      [u0; u1; u2] = [x0; x1; x2]
    /\ a00 * x0 + a01 * x1 + a02 * x2 = b0
    /\ a10 * x0 + a11 * x1 + a12 * x2 = b1
    /\ a20 * x0 + a21 * x1 + a22 * x2 = b2.
Proof.
  intros Hdet. rewrite gauss_stages.
  rewrite (@pivot_0 [a00; a01; a02; b0] [a10; a11; a12; b1]
             [a20; a21; a22; b2] _ _ _ _ _ _ eq_refl eq_refl eq_refl).
  destruct (Rltb (Rabs a00) (Rabs a10)) eqn:H1;
    [ destruct (Rltb (Rabs a10) (Rabs a20)) eqn:H2
    | destruct (Rltb (Rabs a00) (Rabs a20)) eqn:H2 ];
    repeat match goal with
           | H : Rltb _ _ = true |- _ => apply Rltb_true in H
           | H : Rltb _ _ = false |- _ => apply Rltb_false in H
           end.
  - destruct (@gauss_pivoted a20 a21 a22 b2 a00 a01 a02 b0 a10 a11 a12 b1
                u0 u1 u2) as (x0 & x1 & x2 & Hx & E0 & E1 & E2);
      [lra | lra | unfold det3 in *; intros Hz; apply Hdet; lra |].
    exists x0, x1, x2. auto.
  - destruct (@gauss_pivoted a10 a11 a12 b1 a00 a01 a02 b0 a20 a21 a22 b2
                u0 u1 u2) as (x0 & x1 & x2 & Hx & E0 & E1 & E2);
      [lra | lra | unfold det3 in *; intros Hz; apply Hdet; lra |].
    exists x0, x1, x2. auto.
  - destruct (@gauss_pivoted a20 a21 a22 b2 a10 a11 a12 b1 a00 a01 a02 b0
                u0 u1 u2) as (x0 & x1 & x2 & Hx & E0 & E1 & E2);
      [lra | lra | unfold det3 in *; intros Hz; apply Hdet; lra |].
    exists x0, x1, x2. auto.
  - destruct (@gauss_pivoted a00 a01 a02 b0 a10 a11 a12 b1 a20 a21 a22 b2
                u0 u1 u2) as (x0 & x1 & x2 & Hx & E0 & E1 & E2);
      [lra | lra | assumption |].
    exists x0, x1, x2. auto.
Qed.

(** *** Sums *)

Lemma fold_left_Rsum {A : Type} (f : A -> R) (l : list A) (a0 : R) :
  fold_left (fun acc a => acc + f a) l a0 = a0 + Rsum f l.
Proof.
  revert a0. induction l as [| a l IH]; intros a0; simpl.
  - ring.
  - rewrite IH. ring.
Qed.

Lemma Rsum_combine_fst (f : R -> R) (xs ys : list R) :
  length xs = length ys ->
  Rsum (fun p => f (fst p)) (combine xs ys) = Rsum f xs.
Proof.
  revert ys. induction xs as [| x xs IH]; intros [| y ys] H;
    simpl in *; try discriminate; try reflexivity.
  rewrite IH by congruence. reflexivity.
Qed.

Lemma Rsum_nonneg {A : Type} (f : A -> R) (l : list A) :
  (forall a, 0 <= f a) -> 0 <= Rsum f l.
Proof.
  intros Hf. induction l as [| a l IH]; simpl; [lra |].
  specialize (Hf a). lra.
Qed.

(** The residual of the quadratic [c] against the points, weighted by
    x^i, in terms of the sums the normal equations are made of. *)
Lemma residual_moment (c0 c1 c2 : R) (i : nat) (l : list (R * R)) :
  Rsum (fun p => (quadratic (c0, c1, c2) (fst p) - snd p) * fst p ^ i) l
  = c0 * Rsum (fun p => fst p ^ i) l
    + c1 * Rsum (fun p => fst p ^ (i + 1)) l
    + c2 * Rsum (fun p => fst p ^ (i + 2)) l
    - Rsum (fun p => fst p ^ i * snd p) l.
Proof.
  induction l as [| [x y] l IH]; simpl.
  - ring.
  - simpl in IH. rewrite IH. rewrite !pow_add. simpl. ring.
Qed.

(** The squared error of any quadratic [b], split around a quadratic [c]:
    the error of [c], the squared distance between the two, and the
    residual moments of [c]. *)
Lemma squared_error_split (b0 b1 b2 c0 c1 c2 : R) (l : list (R * R)) :
  Rsum (fun p => Rsqr (quadratic (b0, b1, b2) (fst p) - snd p)) l
  = Rsum (fun p => Rsqr (quadratic (c0, c1, c2) (fst p) - snd p)) l
    + Rsum (fun p => Rsqr (quadratic (b0, b1, b2) (fst p)
                           - quadratic (c0, c1, c2) (fst p))) l
    + 2 * ((b0 - c0)
           * Rsum (fun p => (quadratic (c0, c1, c2) (fst p) - snd p)
                            * fst p ^ 0) l
           + (b1 - c1)
             * Rsum (fun p => (quadratic (c0, c1, c2) (fst p) - snd p)
                              * fst p ^ 1) l
           + (b2 - c2)
             * Rsum (fun p => (quadratic (c0, c1, c2) (fst p) - snd p)
                              * fst p ^ 2) l).
Proof.
  induction l as [| [x y] l IH]; simpl.
  - ring.
  - simpl in IH. rewrite IH. unfold Rsqr. ring.
Qed.

(** In exact arithmetic [polyfit] returns coefficients that satisfy the
    normal equations: the residual is orthogonal to 1, x and x^2. *)
Lemma polyfit_normal_equations (xs ys : list R) :
  length xs = length ys -> xs <> [] -> normal_det xs <> 0 ->
  forall i, (i <= 2)%nat ->
    Rsum (fun p => (quadratic (polyfit R_fit xs ys) (fst p) - snd p)
                   * fst p ^ i) (combine xs ys) = 0.
Proof.
  intros Hlen Hne Hdet.
  unfold polyfit.
  assert (Hc : Nat.eqb (length xs) 0
               || negb (Nat.eqb (length xs) (length ys)) = false).
  { rewrite <- Hlen, Nat.eqb_refl. destruct xs; [congruence | reflexivity]. }
  rewrite Hc. clear Hc.
  unfold normal_matrix.
  cbn [Nat.add Nat.mul seq map app nth R_fit t_add t_mul t_pow t_widen
       t_zero t_unset t_narrow repeat].
  rewrite !Nat2Z.id, !fold_left_Rsum, !Rplus_0_l.
  rewrite <- !(@Rsum_combine_fst (fun x => x ^ _) xs ys Hlen).
  unfold normal_det in Hdet.
  rewrite <- !(@Rsum_combine_fst (fun x => x ^ _) xs ys Hlen) in Hdet.
  set (l := combine xs ys) in *.
  match goal with
  | |- context [gaussEliminationLS _ 3 4
                  [[_; _; _; ?b0]; [_; _; _; ?b1]; [_; _; _; ?b2]] _] =>
      destruct (@gauss_3x4 _ _ _ b0 _ _ _ b1 _ _ _ b2 0 0 0 Hdet)
        as (c0 & c1 & c2 & Hx & E0 & E1 & E2)
  end.
  rewrite Hx. cbn [nth].
  intros i Hi. rewrite residual_moment.
  destruct i as [| [| [| i]]]; [| | | lia]; cbn [Nat.add]; lra.
Qed.

(** In exact arithmetic [polyfit] returns the least-squares quadratic: no
    other coefficients have a smaller squared error. *)
Lemma polyfit_least_squares (xs ys : list R) (b : R * R * R) :
  length xs = length ys -> xs <> [] -> normal_det xs <> 0 ->
  squared_error (polyfit R_fit xs ys) xs ys <= squared_error b xs ys.
Proof.
  intros Hlen Hne Hdet.
  pose proof (@polyfit_normal_equations xs ys Hlen Hne Hdet) as Hn.
  destruct b as [[b0 b1] b2].
  destruct (polyfit R_fit xs ys) as [[c0 c1] c2].
  unfold squared_error.
  rewrite (squared_error_split b0 b1 b2 c0 c1 c2).
  rewrite (Hn 0%nat), (Hn 1%nat), (Hn 2%nat) by lia.
  pose proof (@Rsum_nonneg _
                (fun p : R * R => Rsqr (quadratic (b0, b1, b2) (fst p)
                                  - quadratic (c0, c1, c2) (fst p)))
                (combine xs ys) (fun p => Rle_0_sqr _)).
  lra.
Qed.
End ExactFit.
(** C6.  The fit consumes exactly the longest run of rows from the top of
    the table in which both density and reading are present, provided row
    0's density lies in [0, 0.001] (nothing otherwise); row 0 contributes
    x0 = y0 = log10(row0 reading) and row i > 0 contributes
    x = log10(reading_i), y = log10(row0_reading / 10^density_i).  With
    fewer than 5 such rows the dialog is left as it was (no result); with 5
    or more it holds the three coefficients [polyfit] computes in binary64
    for the two series, and the OK button is enabled.  Calculating again on
    the outcome changes nothing.  The coefficients are the fitted ones:
    run in exact arithmetic on series of equal, non-zero length whose
    normal equations are not singular, [polyfit] returns the quadratic of
    least squared error; and run in binary64 on the five-row step wedge of
    the specification (reference libm) it returns the line y = x to within
    0.001 in each coefficient. *)
Theorem curve_fit_rows {L : Libm} (d : dialog) :
  (length (fst (fit_series (model_ d)))
   = if match present_prefix (model_ d) with
        | [] => true
        | (density0, _) :: _ =>
            F32.ltb density0 (F32.lit 0 1)
            || F32.gtb density0 (F32.lit 1 1000)
        end
     then 0%nat
     else length (present_prefix (model_ d)))
  /\ onCalculateResults d
     = (if (length (fst (fit_series (model_ d))) <? 5)%nat
        then d
        else {| model_ := model_ d;
                calValues_ := polyfit f64_fit (fst (fit_series (model_ d)))
                                (snd (fit_series (model_ d)));
                okEnabled := true |})
  /\ onCalculateResults (onCalculateResults d) = onCalculateResults d
  /\ (forall (xs ys : list R) (b : R * R * R),
         length xs = length ys -> xs <> [] -> normal_det xs <> 0%R ->
         (squared_error (polyfit R_fit xs ys) xs ys
          <= squared_error b xs ys)%R)
  /\ (let '(c0, c1, c2) :=
        polyfit (f64_fit (L := RefLibm.ref_libm))
          (fst (fit_series (L := RefLibm.ref_libm) wedge5))
          (snd (fit_series (L := RefLibm.ref_libm) wedge5)) in
      F32.ltb (F32.fabsf c0) (F32.lit 1 1000)
      && F32.ltb (F32.fabsf (F32.sub c1 (F32.of_Z 1))) (F32.lit 1 1000)
      && F32.ltb (F32.fabsf c2) (F32.lit 1 1000)) = true.
Proof.
  assert (Hcalc : forall d0,
             onCalculateResults d0
             = (if (length (fst (fit_series (model_ d0))) <? 5)%nat
                then d0
                else {| model_ := model_ d0;
                        calValues_ :=
                          polyfit f64_fit (fst (fit_series (model_ d0)))
                            (snd (fit_series (model_ d0)));
                        okEnabled := true |})).
  { intros d0. unfold onCalculateResults.
    rewrite collect_rows_fit_series.
    destruct (fit_series (model_ d0)) as [xList yList]. reflexivity. }
  split; [| split; [| split; [| split]]].
  - unfold fit_series.
    destruct (present_prefix (model_ d)) as [| [density0 reading0] rest];
      [reflexivity |].
    destruct (F32.ltb density0 (F32.lit 0 1)
              || F32.gtb density0 (F32.lit 1 1000)); [reflexivity |].
    simpl. now rewrite length_map.
  - apply Hcalc.
  - rewrite (Hcalc (onCalculateResults d)), (Hcalc d).
    destruct (length (fst (fit_series (model_ d))) <? 5)%nat eqn:Hn.
    + rewrite Hn. reflexivity.
    + cbn [model_]. rewrite Hn. reflexivity.
  - intros xs ys b. apply polyfit_least_squares.
  - vm_compute. reflexivity.
Qed.

(** The points (0,0), (1,1), (2,2), (3,3), (4,4): the normal equations are
    not singular, and the coefficients [polyfit] returns in exact
    arithmetic are at least as good as the parabola y = x^2. *)
Lemma curve_fit_rows_witness :
  (squared_error (polyfit R_fit [0; 1; 2; 3; 4] [0; 1; 2; 3; 4])
     [0; 1; 2; 3; 4] [0; 1; 2; 3; 4]
   <= squared_error (0, 0, 1) [0; 1; 2; 3; 4] [0; 1; 2; 3; 4])%R.
Proof.
  refine (proj1 (proj2 (proj2 (proj2
            (@curve_fit_rows RefLibm.ref_libm (dialog_init wedge5)))))
            [0; 1; 2; 3; 4]%R [0; 1; 2; 3; 4]%R (0, 0, 1)%R
            eq_refl _ _).
  - discriminate.
  - unfold normal_det, det3, Rsum. simpl. lra.
Defined.

(** Section 8 of the specification on the reference libm: four valid rows
    leave the dialog without a result, five produce coefficients and enable
    the OK button. *)
Example curve_fit_four_rows :
  onCalculateResults (L := RefLibm.ref_libm) (dialog_init wedge4)
  = dialog_init wedge4.
Proof. vm_compute. reflexivity. Qed.

Example curve_fit_five_rows :
  okEnabled (onCalculateResults (L := RefLibm.ref_libm) (dialog_init wedge5))
  = true
  /\ match calValues_ (onCalculateResults (L := RefLibm.ref_libm)
                         (dialog_init wedge5)) with
     | (c0, c1, c2) =>
         F32.ltb (F32.fabsf c0) (F32.lit 1 1000)
         && F32.ltb (F32.fabsf (F32.sub c1 (F32.of_Z 1))) (F32.lit 1 1000)
         && F32.ltb (F32.fabsf c2) (F32.lit 1 1000)
     end = true.
Proof. vm_compute. split; reflexivity. Qed.
